(** * decomp-dashboard: the objdiff match-report view

    A shallow embedding of the verification report of the dashboard: the
    IPC handler [objdiff:run-report] of the main process, and the two
    renderer surfaces that display its result, the standalone report page
    (src/objdiff.js) and the dashboard view of the single-page application
    (src/renderer.js).

    Conventions of the embedding.
    - A JavaScript number is an IEEE 754 binary64 value: Rocq's primitive
      [float], whose operations round as JavaScript's do.
    - A JavaScript string is the sequence of its code units; the model
      covers code units below 256, one [ascii] each.
    - The integer fields of a report (object counts, byte sizes) are [N];
      a template literal writes them in decimal.
    - A [Set] of strings is a [gset string].
    - The DOM is a record of the properties the scripts write: the [hidden]
      class of each section, text contents, and the rows that the markup
      assigned to [innerHTML] denotes.  The scripts put names into the
      markup as they are; the rows are what a browser builds when the names
      hold no markup of their own, and texts are given without the white
      space of the templates.

    Further parts of the main process are embedded after the two surfaces:
    the analysis of an assembly file ([files:analyze]), the code of a
    function in a C file ([files:getFunctionCode],
    [replaceFunctionInContent]), the layout of struct members
    ([parseCHeadersForStructs], [structs:lookup]), [deIndent], and the setup
    of a project (src/setup-handler.js).
    - Line counts, offsets and sizes are natural numbers, which a
      JavaScript number holds exactly below [2^53]; an offset can also be
      NaN.
    - A regular expression is embedded as the function that it computes
      when its quantifiers have nothing to give back; where the pattern is
      built from a name at run time, the index of its match comes in from
      outside.
    - What the setup meets outside of itself (the store, the file system,
      the commands) is a record of answers, and what it does is the list
      of its actions in order. *)

From Stdlib Require Import ZArith NArith List Floats DecimalString Ascii String Bool Lia Sorted.
From stdpp Require Import gmap strings.
Import ListNotations.

Open Scope string_scope.

(** ** Built-in operations of the language *)

(** Decimal digits of a natural number, as [String(n)] gives them. *)
Definition decimal (n : N) : string := NilEmpty.string_of_uint (N.to_uint n).

(** [Number.prototype.toFixed(2)], steps of the language specification
    (21.1.3.3):  [n] is the integer for which [n / 100 - x] is closest to
    zero, the larger one on a tie; the digits of [n] are padded to three and
    the point goes before the last two.  [x] is the exact value [m * 2^e] of
    the double. *)
Definition round_hundredths (m : positive) (e : Z) : N :=
  match e with
  | Zneg p => let d := (2 ^ Npos p)%N in ((200 * Npos m + d) / (2 * d))%N
  | _ => (100 * Npos m * 2 ^ Z.to_N e)%N
  end.

Definition two_digits (n : N) : string :=
  if (n <? 10)%N then "0" ++ decimal n else decimal n.

Definition fixed2_digits (n : N) : string :=
  decimal (n / 100) ++ "." ++ two_digits (n mod 100).

Section Number.

(** [Number::toString] on a finite double of magnitude [10^21] or more, the
    one case in which [toFixed] gives up its own format.  The shortest
    digits it prints are left abstract. *)
Variable numberToString : float -> string.

Definition toFixed2 (x : float) : string :=
  match Prim2SF x with
  | S754_nan => "NaN"
  | S754_zero _ => "0.00"
  | S754_infinity s => if s then "-Infinity" else "Infinity"
  | S754_finite s m e =>
      let sign := if s then "-" else "" in
      if (1e21 <=? abs x)%float then sign ++ numberToString (abs x)
      else sign ++ fixed2_digits (round_hundredths m e)
  end.

End Number.

(** [String.prototype.toLowerCase] on code units below 256: the upper-case
    letters of ASCII and of Latin-1 (U+00C0 to U+00DE without the
    multiplication sign U+00D7) move up by 32. *)
Definition lower_code_unit (c : ascii) : ascii :=
  let n := N_of_ascii c in
  if ((65 <=? n) && (n <=? 90) || (192 <=? n) && (n <=? 222) && negb (n =? 215))%N
  then ascii_of_N (n + 32)
  else c.

Fixpoint toLowerCase (s : string) : string :=
  match s with
  | EmptyString => EmptyString
  | String c s' => String (lower_code_unit c) (toLowerCase s')
  end.

(** [String.prototype.includes]: does [sub] occur in [s], at any position. *)
Fixpoint includes (s sub : string) : bool :=
  if String.prefix sub s then true
  else match s with
       | EmptyString => false
       | String _ s' => includes s' sub
       end.

(** [Array.prototype.sort(comparefn)] is stable, and puts [a] before [b] when
    [comparefn(a, b) < 0].  For a consistent comparator the result is fixed
    by this; the model is the stable insertion sort.  (With an inconsistent
    comparator the order is implementation-defined, and the theorems below
    keep to consistent ones.) *)
Section ArraySort.
Context {A : Type} (comparefn : A -> A -> Z).

Fixpoint sort_insert (x : A) (l : list A) : list A :=
  match l with
  | [] => [x]
  | y :: l' => if (comparefn x y <=? 0)%Z then x :: l else y :: sort_insert x l'
  end.

Fixpoint array_sort (l : list A) : list A :=
  match l with
  | [] => []
  | x :: l' => sort_insert x (array_sort l')
  end.
End ArraySort.

(** ** The report (section 3 of the design; field names as in the JSON) *)

Module Symbol.
Record t := mk {
  name : string;
  match_percent : float;
  base_size : N;
  target_size : N }.
End Symbol.

Module Unit.
Record t := mk {
  name : string;
  match_percent : float;
  symbols : list Symbol.t }.
End Unit.

(** The [timestamp] of a report is shown through [toLocaleString], which
    depends on the locale of the host; the field and its element are left
    out of the model. *)
Record Report := mkReport {
  total_progress : float;
  matched_objects : N;
  total_objects : N;
  units : list Unit.t }.

Definition set_units (l : list Unit.t) (r : Report) : Report :=
  {| total_progress := total_progress r; matched_objects := matched_objects r;
     total_objects := total_objects r; units := l |}.

(** ** The comparator of [sortUnits] and [sortDashboardUnits] *)

Inductive SortDirection := asc | desc.

(** [dir === 'asc' ? 'desc' : 'asc'] *)
Definition opposite (dir : SortDirection) : SortDirection :=
  match dir with asc => desc | desc => asc end.

(** What [a[key]] contributes to a relational comparison. *)
Inductive value :=
  | VUndefined
  | VNumber (x : float)
  | VString (s : string).

(** An array operand of [<] is first converted to a primitive, the string
    that [Array.prototype.join] gives; each symbol object prints as
    [[object Object]]. *)
Fixpoint joined_objects (n : nat) : string :=
  match n with
  | O => ""
  | S O => "[object Object]"
  | S n' => "[object Object]," ++ joined_objects n'
  end.

(** [a[key]] for a unit of the documented shape.  A key that names no own
    property is looked up on [Object.prototype]; what is found there is the
    same for every unit and compares neither below nor above itself, as
    [undefined] does. *)
Definition unit_prop (key : string) (u : Unit.t) : value :=
  if String.eqb key "name" then VString (Unit.name u)
  else if String.eqb key "match_percent" then VNumber (Unit.match_percent u)
  else if String.eqb key "symbols" then VString (joined_objects (length (Unit.symbols u)))
  else VUndefined.

(** [valA < valB].  Both operands of one comparison are the same property of
    two units: two strings are compared by code units, two numbers
    numerically, and [undefined] becomes NaN, which is below nothing.  (A
    string against a number would need [StringToNumber]; no call reaches
    that case.) *)
Definition js_lt (a b : value) : bool :=
  match a, b with
  | VNumber x, VNumber y => (x <? y)%float
  | VString s, VString t => String.ltb s t
  | _, _ => false
  end.

Definition compareUnits (key : string) (dir : SortDirection) (a b : Unit.t) : Z :=
  let valA := unit_prop key a in
  let valB := unit_prop key b in
  if js_lt valA valB then match dir with asc => -1 | desc => 1 end
  else if js_lt valB valA then match dir with asc => 1 | desc => -1 end
  else 0.

(** ** The main process: [ipcMain.handle('objdiff:run-report')] *)

#[warnings="-register-all"]
Inductive json :=
  | JNull
  | JBool (b : bool)
  | JNumber (x : float)
  | JString (s : string)
  | JArray (l : list json)
  | JObject (fields : list (string * json)).

(** A call that may throw. *)
Inductive Outcome (A : Type) :=
  | Throws (message : string)
  | Returns (a : A).
Arguments Throws {A} message.
Arguments Returns {A} a.

Definition bind {A B} (o : Outcome A) (k : A -> Outcome B) : Outcome B :=
  match o with
  | Throws m => Throws m
  | Returns a => k a
  end.

Notation "'let!' x := o 'in' k" := (bind o (fun x => k))
  (at level 10, x name, o at level 100, k at level 200, only parsing).

(** A string is truthy when it is not empty; an absent one is [undefined]. *)
Definition truthy_string (o : option string) : bool :=
  match o with
  | Some s => negb (String.eqb s "")
  | None => false
  end.

(** What [executeAndLog] resolves to; it never rejects.  The exit code is
    [null] when a signal ended the process. *)
Record ToolRun := mkToolRun {
  code : option Z;
  stdout : string }.

(** What the handler meets outside of itself. *)
Record HandlerEnv := mkHandlerEnv {
  store_projectPath : option string;              (* store.get('userPaths.projectPath') *)
  resolveToolchainPaths : Outcome (option string); (* the [objdiff] path it resolves *)
  buildEnvFromPaths : Outcome unit;               (* also path.join for the cwd *)
  executeAndLog : ToolRun;
  JSON_parse : Outcome json }.                    (* JSON.parse(result.stdout) *)

Inductive HandlerResult :=
  | HError (error : string)       (* { error } *)
  | HReport (report : json).      (* { report } *)

Definition run_report_handler (env : HandlerEnv) : HandlerResult :=
  let body : Outcome HandlerResult :=
    if negb (truthy_string (store_projectPath env))
    then Returns (HError "Project path not set.")
    else
      let! objdiff := resolveToolchainPaths env in
      if negb (truthy_string objdiff)
      then Returns (HError ("objdiff-cli.exe not found. Please set its path in Settings, "
                            ++ "or place it in your project folder."))
      else
        let! _ := buildEnvFromPaths env in
        let result := executeAndLog env in
        if negb (bool_decide (code result = Some 0%Z))
        then Returns (HError "objdiff-cli command failed.")
        else
          let! report := JSON_parse env in
          Returns (HReport report) in
  match body with
  | Returns r => r
  | Throws message => HError ("Failed to run or parse report: " ++ message)
  end.

(** *** The documented shape of a report (section 6) *)

Definition field (key : string) (fields : list (string * json)) : option json :=
  match List.find (fun kv => String.eqb (fst kv) key) fields with
  | Some kv => Some (snd kv)
  | None => None
  end.

(** The value of a double that holds a non-negative integer. *)
Definition integer_of_float (x : float) : option N :=
  match Prim2SF x with
  | S754_zero _ => Some 0%N
  | S754_finite false m (Zneg p) =>
      let d := (2 ^ Npos p)%N in
      if (Npos m mod d =? 0)%N then Some (Npos m / d)%N else None
  | S754_finite false m e => Some (Npos m * 2 ^ Z.to_N e)%N
  | _ => None
  end.

Definition as_number (v : option json) : option float :=
  match v with Some (JNumber x) => Some x | _ => None end.
Definition as_integer (v : option json) : option N :=
  match v with Some (JNumber x) => integer_of_float x | _ => None end.
Definition as_string (v : option json) : option string :=
  match v with Some (JString s) => Some s | _ => None end.
Definition as_array (v : option json) : option (list json) :=
  match v with Some (JArray l) => Some l | _ => None end.

Fixpoint all_some {A B} (f : A -> option B) (l : list A) : option (list B) :=
  match l with
  | [] => Some []
  | x :: l' =>
      match f x, all_some f l' with
      | Some y, Some ys => Some (y :: ys)
      | _, _ => None
      end
  end.

Definition symbol_of_json (v : json) : option Symbol.t :=
  match v with
  | JObject o =>
      match as_string (field "name" o), as_number (field "match_percent" o),
            as_integer (field "base_size" o), as_integer (field "target_size" o) with
      | Some n, Some p, Some b, Some t => Some (Symbol.mk n p b t)
      | _, _, _, _ => None
      end
  | _ => None
  end.

Definition unit_of_json (v : json) : option Unit.t :=
  match v with
  | JObject o =>
      match as_string (field "name" o), as_number (field "match_percent" o),
            as_array (field "symbols" o) with
      | Some n, Some p, Some ss =>
          match all_some symbol_of_json ss with
          | Some syms => Some (Unit.mk n p syms)
          | None => None
          end
      | _, _, _ => None
      end
  | _ => None
  end.

(** [timestamp] is a string or a number. *)
Definition is_instant (v : option json) : bool :=
  match v with Some (JString _) | Some (JNumber _) => true | _ => false end.

Definition report_of_json (v : json) : option Report :=
  match v with
  | JObject o =>
      match as_number (field "total_progress" o), as_integer (field "matched_objects" o),
            as_integer (field "total_objects" o), as_array (field "units" o) with
      | Some tp, Some mo, Some to, Some us =>
          match is_instant (field "timestamp" o), all_some unit_of_json us with
          | true, Some l => Some (mkReport tp mo to l)
          | _, _ => None
          end
      | _, _, _, _ => None
      end
  | _ => None
  end.

(** Truthiness of a parsed value: [null], [false], zero, NaN and the empty
    string are falsy. *)
Definition truthy (v : json) : bool :=
  match v with
  | JNull => false
  | JBool b => b
  | JNumber x => negb (x =? 0)%float && negb (is_nan x)
  | JString s => negb (String.eqb s "")
  | JArray _ | JObject _ => true
  end.

(** ** The result of [window.electronAPI.objdiff.runReport()], as the
    renderer reads it

    [res_report] is the parsed value typed as a report; [None] stands for a
    value that is absent or falsy.  The renderer is modelled on reports of
    the documented shape. *)
Record RunResult := mkRunResult {
  res_error : option string;
  res_report : option Report }.

(** What the renderer's model receives for a result of the handler: nothing
    for a truthy value that is not of the documented shape, on which the
    scripts are not modelled. *)
Definition run_result (h : HandlerResult) : option RunResult :=
  match h with
  | HError e => Some (mkRunResult (Some e) None)
  | HReport v =>
      if truthy v
      then match report_of_json v with
           | Some r => Some (mkRunResult None (Some r))
           | None => None
           end
      else Some (mkRunResult None None)
  end.

(** ** The document *)

(** A unit's row of the table body. *)
Record UnitRow := mkUnitRow {
  tr_class : list string;       (* the class list of the <tr> *)
  tr_unitName : string;         (* data-unit-name *)
  td_name : string;
  td_percent : string;
  td_status_class : string;
  td_status : string }.

(** An item of the list of mismatched functions: the name in <strong>, and
    the text that follows it. *)
Record DetailItem := mkDetailItem {
  li_strong : string;
  li_text : string }.

Inductive TableRow :=
  | UnitTr (row : UnitRow)
  | DetailsTr (items : list DetailItem).    (* <tr class="details-row"> *)

(** A sortable header cell. *)
Record HeaderCell := mkHeaderCell {
  th_sortKey : string;          (* data-sort-key *)
  th_sort_asc : bool;           (* class sort-asc *)
  th_sort_desc : bool }.        (* class sort-desc *)

Record Dom := mkDom {
  runReportBtn_disabled : bool;
  runReportBtn_text : string;
  reportPlaceholder_hidden : bool;
  reportPlaceholder_text : string;
  reportPlaceholder_red : bool;           (* class text-red-500 *)
  summarySection_hidden : bool;
  resultsTable_hidden : bool;
  controlsSection_hidden : bool;
  filterInput_value : string;
  overallProgress_text : string;
  progressBar_width : string;
  matchedObjects_text : string;
  tableHeader : list HeaderCell;
  tableBody : list TableRow }.

Notation "x |> f" := (f x) (at level 50, left associativity, only parsing).

Definition set_runReportBtn_disabled (b : bool) (d : Dom) : Dom :=
  mkDom b (runReportBtn_text d) (reportPlaceholder_hidden d) (reportPlaceholder_text d)
    (reportPlaceholder_red d) (summarySection_hidden d) (resultsTable_hidden d)
    (controlsSection_hidden d) (filterInput_value d) (overallProgress_text d)
    (progressBar_width d) (matchedObjects_text d) (tableHeader d) (tableBody d).
Definition set_runReportBtn_text (t : string) (d : Dom) : Dom :=
  mkDom (runReportBtn_disabled d) t (reportPlaceholder_hidden d) (reportPlaceholder_text d)
    (reportPlaceholder_red d) (summarySection_hidden d) (resultsTable_hidden d)
    (controlsSection_hidden d) (filterInput_value d) (overallProgress_text d)
    (progressBar_width d) (matchedObjects_text d) (tableHeader d) (tableBody d).
Definition set_reportPlaceholder_hidden (b : bool) (d : Dom) : Dom :=
  mkDom (runReportBtn_disabled d) (runReportBtn_text d) b (reportPlaceholder_text d)
    (reportPlaceholder_red d) (summarySection_hidden d) (resultsTable_hidden d)
    (controlsSection_hidden d) (filterInput_value d) (overallProgress_text d)
    (progressBar_width d) (matchedObjects_text d) (tableHeader d) (tableBody d).
Definition set_reportPlaceholder_text (t : string) (d : Dom) : Dom :=
  mkDom (runReportBtn_disabled d) (runReportBtn_text d) (reportPlaceholder_hidden d) t
    (reportPlaceholder_red d) (summarySection_hidden d) (resultsTable_hidden d)
    (controlsSection_hidden d) (filterInput_value d) (overallProgress_text d)
    (progressBar_width d) (matchedObjects_text d) (tableHeader d) (tableBody d).
Definition set_reportPlaceholder_red (b : bool) (d : Dom) : Dom :=
  mkDom (runReportBtn_disabled d) (runReportBtn_text d) (reportPlaceholder_hidden d)
    (reportPlaceholder_text d) b (summarySection_hidden d) (resultsTable_hidden d)
    (controlsSection_hidden d) (filterInput_value d) (overallProgress_text d)
    (progressBar_width d) (matchedObjects_text d) (tableHeader d) (tableBody d).
Definition set_summarySection_hidden (b : bool) (d : Dom) : Dom :=
  mkDom (runReportBtn_disabled d) (runReportBtn_text d) (reportPlaceholder_hidden d)
    (reportPlaceholder_text d) (reportPlaceholder_red d) b (resultsTable_hidden d)
    (controlsSection_hidden d) (filterInput_value d) (overallProgress_text d)
    (progressBar_width d) (matchedObjects_text d) (tableHeader d) (tableBody d).
Definition set_resultsTable_hidden (b : bool) (d : Dom) : Dom :=
  mkDom (runReportBtn_disabled d) (runReportBtn_text d) (reportPlaceholder_hidden d)
    (reportPlaceholder_text d) (reportPlaceholder_red d) (summarySection_hidden d) b
    (controlsSection_hidden d) (filterInput_value d) (overallProgress_text d)
    (progressBar_width d) (matchedObjects_text d) (tableHeader d) (tableBody d).
Definition set_controlsSection_hidden (b : bool) (d : Dom) : Dom :=
  mkDom (runReportBtn_disabled d) (runReportBtn_text d) (reportPlaceholder_hidden d)
    (reportPlaceholder_text d) (reportPlaceholder_red d) (summarySection_hidden d)
    (resultsTable_hidden d) b (filterInput_value d) (overallProgress_text d)
    (progressBar_width d) (matchedObjects_text d) (tableHeader d) (tableBody d).
Definition set_filterInput_value (t : string) (d : Dom) : Dom :=
  mkDom (runReportBtn_disabled d) (runReportBtn_text d) (reportPlaceholder_hidden d)
    (reportPlaceholder_text d) (reportPlaceholder_red d) (summarySection_hidden d)
    (resultsTable_hidden d) (controlsSection_hidden d) t (overallProgress_text d)
    (progressBar_width d) (matchedObjects_text d) (tableHeader d) (tableBody d).
Definition set_summary (progress width matched : string) (d : Dom) : Dom :=
  mkDom (runReportBtn_disabled d) (runReportBtn_text d) (reportPlaceholder_hidden d)
    (reportPlaceholder_text d) (reportPlaceholder_red d) (summarySection_hidden d)
    (resultsTable_hidden d) (controlsSection_hidden d) (filterInput_value d) progress
    width matched (tableHeader d) (tableBody d).
Definition set_tableHeader (h : list HeaderCell) (d : Dom) : Dom :=
  mkDom (runReportBtn_disabled d) (runReportBtn_text d) (reportPlaceholder_hidden d)
    (reportPlaceholder_text d) (reportPlaceholder_red d) (summarySection_hidden d)
    (resultsTable_hidden d) (controlsSection_hidden d) (filterInput_value d)
    (overallProgress_text d) (progressBar_width d) (matchedObjects_text d) h (tableBody d).
Definition set_tableBody (rows : list TableRow) (d : Dom) : Dom :=
  mkDom (runReportBtn_disabled d) (runReportBtn_text d) (reportPlaceholder_hidden d)
    (reportPlaceholder_text d) (reportPlaceholder_red d) (summarySection_hidden d)
    (resultsTable_hidden d) (controlsSection_hidden d) (filterInput_value d)
    (overallProgress_text d) (progressBar_width d) (matchedObjects_text d) (tableHeader d) rows.

(** The class list of a sortable header after the sort indicators were
    updated for [key] and [dir]. *)
Definition sort_indicator (key : string) (dir : SortDirection) (th : HeaderCell) : HeaderCell :=
  let current := String.eqb (th_sortKey th) key in
  mkHeaderCell (th_sortKey th)
    (current && match dir with asc => true | desc => false end)
    (current && match dir with asc => false | desc => true end).

(** [set.has(x) ? set.delete(x) : set.add(x)] *)
Definition toggle_member (x : string) (s : gset string) : gset string :=
  if bool_decide (x ∈ s) then s ∖ {[ x ]} else s ∪ {[ x ]}.

(** The text between double quotes. *)
Definition quoted (s : string) : string :=
  String "034"%char s ++ String "034"%char "".

Section Markup.
Variable numberToString : float -> string.

(** The <tr> that both surfaces write for a unit (the same template in
    [renderTable] and [renderDashboardTable]). *)
Definition unit_tr (unit : Unit.t) : UnitRow :=
  let isMismatch := (Unit.match_percent unit <? 1.0)%float in
  let matchPercent := toFixed2 numberToString (Unit.match_percent unit * 100)%float in
  {| tr_class := if isMismatch then ["mismatch-row"; "expandable"] else [];
     tr_unitName := Unit.name unit;
     td_name := Unit.name unit;
     td_percent := matchPercent ++ "%";
     td_status_class := if isMismatch then "status-mismatch" else "status-matched";
     td_status := if isMismatch then "Mismatch" else "Matched" |}.
End Markup.

(** ** The standalone report page: src/objdiff.js *)

Module Objdiff.

Record State := mkState {
  report : option Report;
  expandedRows : gset string;
  filterQuery : string;
  sortKey : string;
  sortDirection : SortDirection }.

(** The state object as the script creates it. *)
Definition state0 : State :=
  mkState None ∅ "" "match_percent" asc.

Record Page := mkPage {
  state : State;
  dom : Dom }.

Definition with_dom (f : Dom -> Dom) (p : Page) : Page :=
  mkPage (state p) (f (dom p)).

(** [state.report.units], empty without a report. *)
Definition current_units (p : Page) : list Unit.t :=
  match report (state p) with
  | Some r => units r
  | None => []
  end.

Section Script.
Variable numberToString : float -> string.

Definition sortUnits (p : Page) : Page :=
  let st := state p in
  match report st with
  | None => p
  | Some r =>
      let sorted := array_sort (compareUnits (sortKey st) (sortDirection st)) (units r) in
      mkPage (mkState (Some (set_units sorted r)) (expandedRows st) (filterQuery st)
                (sortKey st) (sortDirection st))
             (dom p)
  end.

Definition renderSummary (p : Page) : Page :=
  match report (state p) with
  | None => p
  | Some r =>
      let progress := toFixed2 numberToString (total_progress r * 100)%float in
      p |> with_dom (set_summary (progress ++ "%") (progress ++ "%")
                       (decimal (matched_objects r) ++ " / " ++ decimal (total_objects r)))
  end.

Definition renderDetailsRow (unit : Unit.t) : TableRow :=
  let mismatchedSymbols :=
    List.filter (fun s => (Symbol.match_percent s <? 1.0)%float) (Unit.symbols unit) in
  DetailsTr
    (map (fun symbol =>
            let symbolPercent :=
              toFixed2 numberToString (Symbol.match_percent symbol * 100)%float in
            {| li_strong := Symbol.name symbol;
               li_text := " - " ++ symbolPercent ++ "% ("
                          ++ decimal (Symbol.base_size symbol) ++ " / "
                          ++ decimal (Symbol.target_size symbol) ++ " bytes)" |})
         mismatchedSymbols).

Definition filteredUnits (st : State) (r : Report) : list Unit.t :=
  List.filter (fun unit => includes (toLowerCase (Unit.name unit)) (filterQuery st)) (units r).

(** What the callback of [filteredUnits.forEach] adds to [html]. *)
Definition unit_rows (st : State) (unit : Unit.t) : list TableRow :=
  let isMismatch := (Unit.match_percent unit <? 1.0)%float in
  let isExpanded := bool_decide (Unit.name unit ∈ expandedRows st) in
  UnitTr (unit_tr numberToString unit)
    :: (if isMismatch && isExpanded then [renderDetailsRow unit] else []).

Definition table_rows (st : State) (r : Report) : list TableRow :=
  flat_map (unit_rows st) (filteredUnits st r).

(** Without a report, reading [state.report.units] raises a TypeError and
    the caller ends there: the document stays as it is. *)
Definition renderTable (p : Page) : Page :=
  match report (state p) with
  | None => p
  | Some r => p |> with_dom (set_tableBody (table_rows (state p) r))
  end.

Definition renderSortIndicators (p : Page) : Page :=
  p |> with_dom (fun d =>
         set_tableHeader
           (map (sort_indicator (sortKey (state p)) (sortDirection (state p))) (tableHeader d)) d).

Definition render (p : Page) : Page :=
  match report (state p) with
  | None =>
      p |> with_dom (fun d =>
             d |> set_summarySection_hidden true
               |> set_resultsTable_hidden true
               |> set_controlsSection_hidden true
               |> set_reportPlaceholder_hidden false
               |> set_reportPlaceholder_text
                    ("Click " ++ quoted "Run Verification Report" ++ " to start.")
               |> set_reportPlaceholder_red false)
  | Some _ =>
      p |> with_dom (fun d =>
             d |> set_summarySection_hidden false
               |> set_resultsTable_hidden false
               |> set_controlsSection_hidden false
               |> set_reportPlaceholder_hidden true)
        |> renderSummary
        |> renderTable
        |> renderSortIndicators
  end.

Definition setLoadingState (isLoading : bool) (p : Page) : Page :=
  p |> with_dom (fun d =>
         let d := d |> set_runReportBtn_disabled isLoading in
         if isLoading
         then d |> set_runReportBtn_text "Running..."
                |> set_reportPlaceholder_text "Executing objdiff-cli, this may take a moment..."
                |> set_reportPlaceholder_red false
                |> set_reportPlaceholder_hidden false
                |> set_resultsTable_hidden true
                |> set_summarySection_hidden true
                |> set_controlsSection_hidden true
         else d |> set_runReportBtn_text "Run Verification Report").

Definition setErrorState (message : string) (p : Page) : Page :=
  p |> with_dom (fun d =>
         d |> set_summarySection_hidden true
           |> set_resultsTable_hidden true
           |> set_controlsSection_hidden true
           |> set_reportPlaceholder_hidden false
           |> set_reportPlaceholder_text ("Error: " ++ message)
           |> set_reportPlaceholder_red true).

(** The [try] block of [handleRunReport], after the [await]: it throws the
    message of an [Error], or leaves the page it rendered. *)
Definition handleRunReport_try (result : RunResult) (p : Page) : Outcome Page :=
  let! _ := match res_error result with
            | Some error => if truthy_string (Some error) then Throws error else Returns tt
            | None => Returns tt
            end in
  match res_report result with
  | None => Throws "The objdiff command did not return a valid report."
  | Some r =>
      let st := state p in
      Returns
        (mkPage (mkState (Some r) ∅ "" (sortKey st) (sortDirection st))
                (dom p |> set_filterInput_value "")
           |> sortUnits
           |> render)
  end.

(** [handleRunReport]: the loading state, the awaited [result], the
    [try]/[catch], and the [finally]. *)
Definition handleRunReport (result : RunResult) (p : Page) : Page :=
  let p := setLoadingState true p in
  let p := match handleRunReport_try result p with
           | Returns p' => p'
           | Throws message => setErrorState message p
           end in
  setLoadingState false p.

Definition handleRowToggle (unitName : string) (p : Page) : Page :=
  let st := state p in
  mkPage (mkState (report st) (toggle_member unitName (expandedRows st)) (filterQuery st)
            (sortKey st) (sortDirection st))
         (dom p)
    |> renderTable.

Definition handleSort (newSortKey : string) (p : Page) : Page :=
  let st := state p in
  let st' :=
    if String.eqb (sortKey st) newSortKey
    then mkState (report st) (expandedRows st) (filterQuery st) (sortKey st)
           (opposite (sortDirection st))
    else mkState (report st) (expandedRows st) (filterQuery st) newSortKey asc in
  mkPage st' (dom p) |> sortUnits |> render.

(** The listener of [input] on the filter box; the box holds [value] when
    it runs. *)
Definition on_filterInput (value : string) (p : Page) : Page :=
  let st := state p in
  mkPage (mkState (report st) (expandedRows st) (toLowerCase value) (sortKey st)
            (sortDirection st))
         (dom p |> set_filterInput_value value)
    |> renderTable.

(** The listener of [click] on the table body, for a click inside its
    [i]-th row: [closest('tr.expandable')] finds the row itself or
    nothing. *)
Definition on_tableBody_click (i : nat) (p : Page) : Page :=
  match tableBody (dom p) !! i with
  | Some (UnitTr row) =>
      if bool_decide ("expandable" ∈ tr_class row)
      then handleRowToggle (tr_unitName row) p
      else p
  | _ => p
  end.

(** The listener of [click] on the table header, for a click inside its
    [i]-th sortable cell. *)
Definition on_tableHeader_click (i : nat) (p : Page) : Page :=
  match tableHeader (dom p) !! i with
  | Some th => handleSort (th_sortKey th) p
  | None => p
  end.

(** The page once the script has run on the document [d]. *)
Definition loaded (d : Dom) : Page := render (mkPage state0 d).

Inductive Event :=
  | RunReport (result : RunResult)
  | FilterInput (value : string)
  | HeaderClick (i : nat)
  | BodyClick (i : nat).

Definition step (p : Page) (e : Event) : Page :=
  match e with
  | RunReport result => handleRunReport result p
  | FilterInput value => on_filterInput value p
  | HeaderClick i => on_tableHeader_click i p
  | BodyClick i => on_tableBody_click i p
  end.

Definition run (events : list Event) (p : Page) : Page :=
  fold_left step events p.

End Script.
End Objdiff.

(** ** The dashboard view of the application: src/renderer.js *)

Module Renderer.

(** The dashboard's part of [state]. *)
Record State := mkState {
  dashboardReport : option Report;
  dashboardExpandedRows : gset string;
  dashboardFilterQuery : string;
  dashboardSortKey : string;
  dashboardSortDirection : SortDirection }.

Definition state0 : State :=
  mkState None ∅ "" "match_percent" asc.

(** [state] and [elements.dashboard]. *)
Record Page := mkPage {
  state : State;
  dom : Dom }.

Definition with_dom (f : Dom -> Dom) (p : Page) : Page :=
  mkPage (state p) (f (dom p)).

(** [state.dashboardReport.units], empty without a report. *)
Definition current_units (p : Page) : list Unit.t :=
  match dashboardReport (state p) with
  | Some r => units r
  | None => []
  end.

Section Script.
Variable numberToString : float -> string.

Definition sortDashboardUnits (p : Page) : Page :=
  let st := state p in
  match dashboardReport st with
  | None => p
  | Some r =>
      let sorted :=
        array_sort (compareUnits (dashboardSortKey st) (dashboardSortDirection st)) (units r) in
      mkPage (mkState (Some (set_units sorted r)) (dashboardExpandedRows st)
                (dashboardFilterQuery st) (dashboardSortKey st) (dashboardSortDirection st))
             (dom p)
  end.

Definition renderDashboardSummary (p : Page) : Page :=
  match dashboardReport (state p) with
  | None => p
  | Some r =>
      let progress := toFixed2 numberToString (total_progress r * 100)%float in
      p |> with_dom (set_summary (progress ++ "%") (progress ++ "%")
                       (decimal (matched_objects r) ++ " / " ++ decimal (total_objects r)))
  end.

Definition filteredUnits (st : State) (r : Report) : list Unit.t :=
  List.filter
    (fun unit => includes (toLowerCase (Unit.name unit)) (dashboardFilterQuery st))
    (units r).

(** The details row that [renderDashboardTable] appends to [rowHtml]. *)
Definition details_tr (unit : Unit.t) : TableRow :=
  let mismatchedSymbols :=
    List.filter (fun s => (Symbol.match_percent s <? 1.0)%float) (Unit.symbols unit) in
  DetailsTr
    (map (fun s =>
            {| li_strong := Symbol.name s;
               li_text := " - "
                          ++ toFixed2 numberToString (Symbol.match_percent s * 100)%float
                          ++ "%" |})
         mismatchedSymbols).

(** What the callback of [filteredUnits.map] returns, [rowHtml]. *)
Definition unit_rows (st : State) (unit : Unit.t) : list TableRow :=
  let isMismatch := (Unit.match_percent unit <? 1.0)%float in
  let isExpanded := bool_decide (Unit.name unit ∈ dashboardExpandedRows st) in
  UnitTr (unit_tr numberToString unit)
    :: (if isMismatch && isExpanded then [details_tr unit] else []).

Definition table_rows (st : State) (r : Report) : list TableRow :=
  flat_map (unit_rows st) (filteredUnits st r).

(** Without a report, reading [state.dashboardReport.units] raises a
    TypeError and the caller ends there. *)
Definition renderDashboardTable (p : Page) : Page :=
  match dashboardReport (state p) with
  | None => p
  | Some r => p |> with_dom (set_tableBody (table_rows (state p) r))
  end.

Definition renderDashboardSortIndicators (p : Page) : Page :=
  p |> with_dom (fun d =>
         set_tableHeader
           (map (sort_indicator (dashboardSortKey (state p)) (dashboardSortDirection (state p)))
                (tableHeader d)) d).

Definition renderDashboard (p : Page) : Page :=
  match dashboardReport (state p) with
  | None =>
      p |> with_dom (fun d =>
             d |> set_summarySection_hidden true
               |> set_resultsTable_hidden true
               |> set_controlsSection_hidden true
               |> set_reportPlaceholder_hidden false)
  | Some _ =>
      p |> with_dom (fun d =>
             d |> set_summarySection_hidden false
               |> set_resultsTable_hidden false
               |> set_controlsSection_hidden false
               |> set_reportPlaceholder_hidden true)
        |> renderDashboardSummary
        |> renderDashboardTable
        |> renderDashboardSortIndicators
  end.

Definition setDashboardLoadingState (isLoading : bool) (p : Page) : Page :=
  p |> with_dom (fun d =>
         let d := d |> set_runReportBtn_disabled isLoading in
         if isLoading
         then d |> set_runReportBtn_text "Running..."
                |> set_reportPlaceholder_text "Executing objdiff-cli..."
                |> set_reportPlaceholder_hidden false
                |> set_resultsTable_hidden true
                |> set_summarySection_hidden true
         else d |> set_runReportBtn_text "Run Verification Report").

Definition setDashboardErrorState (message : string) (p : Page) : Page :=
  p |> with_dom (fun d =>
         d |> set_reportPlaceholder_text ("Error: " ++ message)
           |> set_reportPlaceholder_red true).

(** The [try] block of [handleDashboardRunReport], after the [await]. *)
Definition handleDashboardRunReport_try (result : RunResult) (p : Page) : Outcome Page :=
  let! _ := match res_error result with
            | Some error => if truthy_string (Some error) then Throws error else Returns tt
            | None => Returns tt
            end in
  let st := state p in
  Returns
    (mkPage (mkState (res_report result) ∅ "" (dashboardSortKey st) (dashboardSortDirection st))
            (dom p |> set_filterInput_value "")
       |> sortDashboardUnits
       |> renderDashboard).

Definition handleDashboardRunReport (result : RunResult) (p : Page) : Page :=
  let p := setDashboardLoadingState true p in
  let p := match handleDashboardRunReport_try result p with
           | Returns p' => p'
           | Throws message => setDashboardErrorState message p
           end in
  setDashboardLoadingState false p.

Definition handleDashboardSort (newSortKey : string) (p : Page) : Page :=
  let st := state p in
  let st' :=
    if String.eqb (dashboardSortKey st) newSortKey
    then mkState (dashboardReport st) (dashboardExpandedRows st) (dashboardFilterQuery st)
           (dashboardSortKey st) (opposite (dashboardSortDirection st))
    else mkState (dashboardReport st) (dashboardExpandedRows st) (dashboardFilterQuery st)
           newSortKey asc in
  mkPage st' (dom p) |> sortDashboardUnits |> renderDashboard.

(** The listener of [input] on [elements.dashboard.filterInput]. *)
Definition on_filterInput (value : string) (p : Page) : Page :=
  let st := state p in
  mkPage (mkState (dashboardReport st) (dashboardExpandedRows st) (toLowerCase value)
            (dashboardSortKey st) (dashboardSortDirection st))
         (dom p |> set_filterInput_value value)
    |> renderDashboardTable.

(** The listener of [click] on [elements.dashboard.tableBody], for a click
    inside its [i]-th row. *)
Definition on_tableBody_click (i : nat) (p : Page) : Page :=
  match tableBody (dom p) !! i with
  | Some (UnitTr row) =>
      if bool_decide ("expandable" ∈ tr_class row)
      then
        let st := state p in
        mkPage (mkState (dashboardReport st)
                  (toggle_member (tr_unitName row) (dashboardExpandedRows st))
                  (dashboardFilterQuery st) (dashboardSortKey st) (dashboardSortDirection st))
               (dom p)
          |> renderDashboardTable
      else p
  | _ => p
  end.

(** The listener of [click] on [elements.dashboard.tableHeader], for a
    click inside its [i]-th sortable cell. *)
Definition on_tableHeader_click (i : nat) (p : Page) : Page :=
  match tableHeader (dom p) !! i with
  | Some th => handleDashboardSort (th_sortKey th) p
  | None => p
  end.

Inductive Event :=
  | RunReport (result : RunResult)
  | FilterInput (value : string)
  | HeaderClick (i : nat)
  | BodyClick (i : nat).

Definition step (p : Page) (e : Event) : Page :=
  match e with
  | RunReport result => handleDashboardRunReport result p
  | FilterInput value => on_filterInput value p
  | HeaderClick i => on_tableHeader_click i p
  | BodyClick i => on_tableBody_click i p
  end.

Definition run (events : list Event) (p : Page) : Page :=
  fold_left step events p.

End Script.
End Renderer.

(** ** The main process: [ipcMain.handle('files:analyze')] *)

(** [\s] on code units below 256: tab, line feed, vertical tab, form feed,
    carriage return, space and the no-break space. *)
Definition is_white_space (c : ascii) : bool :=
  let n := N_of_ascii c in
  ((9 <=? n) && (n <=? 13) || (n =? 32) || (n =? 160))%N.

(** [[a-zA-Z0-9_]] *)
Definition is_word_char (c : ascii) : bool :=
  let n := N_of_ascii c in
  ((97 <=? n) && (n <=? 122) || (65 <=? n) && (n <=? 90)
   || (48 <=? n) && (n <=? 57) || (n =? 95))%N.

(** The longest prefix of code units in a class, and what follows it: a
    greedy [c*]. *)
Fixpoint span_chars (f : ascii -> bool) (s : string) : string * string :=
  match s with
  | EmptyString => ("", "")
  | String c s' =>
      if f c then let (taken, rest) := span_chars f s' in (String c taken, rest)
      else ("", s)
  end.

(** What follows [pre] at the start of [s]. *)
Fixpoint strip_prefix (pre s : string) : option string :=
  match pre, s with
  | EmptyString, _ => Some s
  | String a pre', String b s' => if Ascii.eqb a b then strip_prefix pre' s' else None
  | String _ _, EmptyString => None
  end.

Definition cons_first (c : ascii) (l : list string) : list string :=
  match l with
  | [] => [String c ""]
  | line :: rest => String c line :: rest
  end.

(** [s.split(/\r?\n/)]: a line ends at a line feed, and a carriage return
    right before it goes with it. *)
Fixpoint split_lines (s : string) : list string :=
  match s with
  | EmptyString => [""]
  | String c s' =>
      if Ascii.eqb c "010" then "" :: split_lines s'
      else
        match s' with
        | String c' s'' =>
            if Ascii.eqb c "013" && Ascii.eqb c' "010" then "" :: split_lines s''
            else cons_first c (split_lines s')
        | EmptyString => cons_first c (split_lines s')
        end
  end.

(** [line.match(/^\.fn\s+([a-zA-Z0-9_]+),/)]: the first group.  Neither
    quantifier has anything to give back: what follows the white space is
    no white space, and what follows the name is no part of a name. *)
Definition fn_match (line : string) : option string :=
  match strip_prefix ".fn" line with
  | None => None
  | Some rest =>
      let (space, rest) := span_chars is_white_space rest in
      let (name, rest) := span_chars is_word_char rest in
      match space, name, rest with
      | String _ _, String _ _, String "," _ => Some name
      | _, _, _ => None
      end
  end.

(** [line.match(/^\.endfn/)] *)
Definition endfn_match (line : string) : bool := String.prefix ".endfn" line.

Record FunctionSize := mkFunctionSize {
  fn_name : string;
  fn_size : N }.

(** The variables of the loop over the lines. *)
Record Scan := mkScan {
  functionsWithSize : list FunctionSize;
  currentFunction : option string;     (* [null] is [None] *)
  lineCount : N }.

Definition scan_line (st : Scan) (line : string) : Scan :=
  match fn_match line with
  | Some name =>
      let pushed :=
        match currentFunction st with
        | Some current =>
            if truthy_string (Some current)
            then (functionsWithSize st ++ [mkFunctionSize current (lineCount st)])%list
            else functionsWithSize st
        | None => functionsWithSize st
        end in
      mkScan pushed (Some name) 1
  | None =>
      match currentFunction st with
      | Some current =>
          if truthy_string (Some current)
          then
            let lineCount := (lineCount st + 1)%N in
            if endfn_match line
            then mkScan (functionsWithSize st ++ [mkFunctionSize current lineCount])%list None
                   lineCount
            else mkScan (functionsWithSize st) (Some current) lineCount
          else st
      | None => st
      end
  end.

Definition scan_lines (lines : list string) : Scan :=
  fold_left scan_line lines (mkScan [] None 0).

(** The pattern of an include directive at the start of [s]: [#include],
    white space or none, and a name between [<] and [>] or between two
    double quotes, of one code unit or more, none of them the closing one.
    The result is the text matched. *)
Definition include_match (s : string) : option string :=
  match strip_prefix "#include" s with
  | None => None
  | Some rest =>
      let (space, rest) := span_chars is_white_space rest in
      match rest with
      | String open rest =>
          let close : option ascii :=
            if Ascii.eqb open "<" then Some ">"%char
            else if Ascii.eqb open "034" then Some "034"%char
            else None in
          match close with
          | Some close =>
              let (inner, rest) := span_chars (fun c => negb (Ascii.eqb c close)) rest in
              match inner, rest with
              | String _ _, String _ _ =>
                  Some ("#include" ++ space ++ String open inner ++ String close "")
              | _, _ => None
              end
          | None => None
          end
      | EmptyString => None
      end
  end.

(** [[...s.matchAll(re)].map(m => m[0])]: the matches from left to right,
    each search starting where the last match ended; [skip] code units of
    the last match are still ahead. *)
Fixpoint include_matches (skip : nat) (s : string) : list string :=
  match s with
  | EmptyString => []
  | String _ s' =>
      match skip with
      | S skip' => include_matches skip' s'
      | O =>
          match include_match s with
          | Some m => m :: include_matches (String.length m - 1) s'
          | None => include_matches 0 s'
          end
      end
  end.

(** [lines.join(sep)] *)
Fixpoint join (sep : string) (lines : list string) : string :=
  match lines with
  | [] => ""
  | [line] => line
  | line :: rest => line ++ sep ++ join sep rest
  end.

Record Analysis := mkAnalysis {
  vacant : list FunctionSize;
  claimed : list string;
  analysis_includes : string }.

(** The handler once the two files are read: [asmContent] and [cContent]
    are their texts, empty for a file that does not exist. *)
Definition files_analyze (asmContent cContent : string) : Analysis :=
  let lines := split_lines asmContent in
  let functionsWithSize := functionsWithSize (scan_lines lines) in
  {| vacant :=
       array_sort (fun a b => (Z.of_N (fn_size a) - Z.of_N (fn_size b))%Z)
         (List.filter (fun f => negb (includes cContent (fn_name f))) functionsWithSize);
     claimed :=
       map fn_name (List.filter (fun f => includes cContent (fn_name f)) functionsWithSize);
     analysis_includes := join (String "010" "") (include_matches 0 cContent) |}.

(** ** The main process: the code of a function in a C file

    [files:getFunctionCode] and [replaceFunctionInContent] find where a
    function starts with a regular expression built from its name; the
    index of that match ([match.index], or no match) comes in from outside,
    as [matchIndex]. *)

Fixpoint string_take (n : nat) (s : string) : string :=
  match n, s with
  | S n', String c s' => String c (string_take n' s')
  | _, _ => ""
  end.

Fixpoint string_drop (n : nat) (s : string) : string :=
  match n, s with
  | S n', String _ s' => string_drop n' s'
  | _, _ => s
  end.

(** [s.substring(start, end)]: both indices are brought into the string,
    and swapped when the first is the greater. *)
Definition js_substring (s : string) (start stop : nat) : string :=
  let len := String.length s in
  let start := Nat.min start len in
  let stop := Nat.min stop len in
  string_take (Nat.max start stop - Nat.min start stop)
    (string_drop (Nat.min start stop) s).

(** The index of the first [c] in [s]. *)
Fixpoint find_char (c : ascii) (s : string) : option nat :=
  match s with
  | EmptyString => None
  | String a s' => if Ascii.eqb a c then Some 0%nat else S <$> find_char c s'
  end.

(** [s.indexOf(c, from)]: the search starts at [from], or at the end of [s]
    when [from] is beyond it; [None] is [-1]. *)
Definition indexOf (c : ascii) (s : string) (from : nat) : option nat :=
  (fun k => from + k)%nat <$> find_char c (string_drop from s).

(** The loop over [content[i]], from the index [i] on, of which [s] is what
    is left of the content: [endIndex], if the loop sets it. *)
Fixpoint scan_braces (s : string) (i : nat) (openBraces : Z) : option nat :=
  match s with
  | EmptyString => None
  | String c s' =>
      let openBraces :=
        if Ascii.eqb c "{" then (openBraces + 1)%Z
        else if Ascii.eqb c "}" then (openBraces - 1)%Z
        else openBraces in
      if (openBraces =? 0)%Z then Some i else scan_braces s' (S i) openBraces
  end.

(** [startBraceIndex] and the loop: the index of the closing brace.  When
    there is no brace the loop starts at [-1], where [content[-1]] is
    [undefined] and [openBraces] is 0 at once: [endIndex] becomes [-1],
    which is [None] as well. *)
Definition closing_brace (content : string) (startIndex : nat) : option nat :=
  match indexOf "{" content startIndex with
  | None => None
  | Some startBraceIndex => scan_braces (string_drop startBraceIndex content) startBraceIndex 0
  end.

(** [s.trimEnd()] and [s.trim()]: the white space is that of [\s]. *)
Fixpoint trimEnd (s : string) : string :=
  match s with
  | EmptyString => ""
  | String c s' =>
      match trimEnd s' with
      | EmptyString => if is_white_space c then "" else String c ""
      | rest => String c rest
      end
  end.

Definition trim (s : string) : string :=
  trimEnd (span_chars is_white_space s).2.

Definition line_feed : string := String "010" "".

(** The default stub of [files:getFunctionCode]. *)
Definition function_stub (functionName : string) : string :=
  "void " ++ functionName ++ "(void)" ++ line_feed ++ "{" ++ line_feed
  ++ "    // TODO" ++ line_feed ++ "}" ++ line_feed.

Inductive FunctionCode :=
  | Code (code : string)          (* { code } *)
  | CodeError (error : string).   (* { error } *)

(** The handler from [fs.existsSync(cPath)] on. *)
Definition getFunctionCode (cPath_exists : bool) (readFileSync : Outcome string)
    (functionName : string) (content_match : Outcome (option nat)) : FunctionCode :=
  let body : Outcome FunctionCode :=
    if negb cPath_exists then Returns (Code (function_stub functionName))
    else
      let! content := readFileSync in
      let! matchIndex := content_match in    (* [new RegExp] may throw *)
      match matchIndex with
      | None => Returns (Code (function_stub functionName))
      | Some startIndex =>
          match closing_brace content startIndex with
          | None =>
              Returns (CodeError ("Could not find matching closing brace for function "
                                  ++ functionName ++ "."))
          | Some endIndex => Returns (Code (js_substring content startIndex (endIndex + 1)))
          end
      end in
  match body with
  | Returns r => r
  | Throws message => CodeError message
  end.

Definition replaceFunctionInContent (content newCode : string) (matchIndex : option nat)
    : string :=
  let appended := trim content ++ line_feed ++ line_feed ++ newCode ++ line_feed in
  match matchIndex with
  | None => appended
  | Some startIndex =>
      match closing_brace content startIndex with
      | None => appended
      | Some endIndex =>
          js_substring content 0 startIndex ++ newCode
          ++ string_drop (endIndex + 1) content
      end
  end.

(** ** The main process: the layout of struct members

    [parseCHeadersForStructs] reads the headers line by line; what is
    modelled is what it does with the member lines of one struct, from the
    groups that the member pattern matched on each of them.  Offsets and
    sizes are JavaScript numbers: here natural numbers, exact as long as
    they stay below [2^53], or NaN. *)

(** A number that is a natural number, or NaN ([None]). *)
Definition num := option N.

(** [type.replace(/const\s+/, '')]: the first [const] that white space
    follows goes, with that white space. *)
Fixpoint replace_const (s : string) : string :=
  match s with
  | EmptyString => ""
  | String c s' =>
      match strip_prefix "const" s with
      | Some rest =>
          match span_chars is_white_space rest with
          | (String _ _, rest') => rest'
          | (EmptyString, _) => String c (replace_const s')
          end
      | None => String c (replace_const s')
      end
  end.

(** What [typeSizes[key]] is. *)
Inductive TypeSize :=
  | Bytes (n : N)      (* an own property: a number of bytes *)
  | Inherited          (* a property of [Object.prototype]: a function, or
                          the prototype itself *)
  | Undefined.

Definition typeSizes_own : list (string * N) :=
  [ ("u8", 1); ("s8", 1); ("char", 1); ("bool", 1);
    ("u16", 2); ("s16", 2); ("short", 2);
    ("u32", 4); ("s32", 4); ("int", 4); ("float", 4); ("f32", 4);
    ("u64", 8); ("s64", 8); ("double", 8); ("f64", 8) ]%N.

(** The names that every object inherits. *)
Definition Object_prototype_keys : list string :=
  [ "constructor"; "__defineGetter__"; "__defineSetter__"; "hasOwnProperty";
    "__lookupGetter__"; "__lookupSetter__"; "isPrototypeOf"; "propertyIsEnumerable";
    "toString"; "valueOf"; "__proto__"; "toLocaleString" ].

Definition typeSizes (key : string) : TypeSize :=
  match List.find (fun kv => String.eqb (fst kv) key) typeSizes_own with
  | Some kv => Bytes (snd kv)
  | None =>
      if existsb (String.eqb key) Object_prototype_keys then Inherited else Undefined
  end.

(** [getSize(type)], and [getAlignment(type)], which is the same function:
    a number (every own size is truthy, and [undefined || 4] is 4), or what
    was inherited, which is truthy and no number. *)
Definition getSize (type : string) : TypeSize :=
  if includes type "*" then Bytes 4
  else
    match typeSizes (trim (replace_const type)) with
    | Bytes n => Bytes n
    | Inherited => Inherited
    | Undefined => Bytes 4
    end.

Definition getAlignment (type : string) : TypeSize := getSize type.

(** The groups of [memberMatch]: the type, the name, and the digits
    between brackets as [parseInt] reads them, if there are brackets. *)
Record MemberMatch := mkMemberMatch {
  match_type : string;
  match_name : string;
  match_array : option N }.

Record Member := mkMember {
  member_name : string;
  member_type : string;
  member_offset : num;
  member_size : num }.

(** [x * n] for [x] a size or what was inherited: the latter gives NaN. *)
Definition size_times (x : TypeSize) (n : N) : num :=
  match x with
  | Bytes s => Some (s * n)%N
  | _ => None
  end.

(** [currentOffset] once the member line is dealt with, and the member
    pushed. *)
Definition layout_member (currentOffset : num) (m : MemberMatch) : num * Member :=
  let type := trim (match_type m) in
  let name := trim (match_name m) in
  let arraySize := match match_array m with Some n => n | None => 1%N end in
  let memberSize := getSize type in
  let memberAlignment := getAlignment type in
  let currentOffset : num :=
    match currentOffset, memberAlignment with
    | Some offset, Bytes alignment =>
        if negb (offset mod alignment =? 0)%N
        then Some (offset + (alignment - offset mod alignment))%N
        else Some offset
    | _, _ => None     (* [NaN !== 0], and NaN is added *)
    end in
  let size := size_times memberSize arraySize in
  (match currentOffset, size with
   | Some offset, Some size => Some (offset + size)%N
   | _, _ => None
   end,
   mkMember name type currentOffset size).

(** The members of a struct, for its member lines in order;
    [currentOffset] is 0 at the opening line. *)
Fixpoint layout_from (currentOffset : num) (lines : list MemberMatch) : list Member :=
  match lines with
  | [] => []
  | m :: lines' =>
      let (currentOffset, member) := layout_member currentOffset m in
      member :: layout_from currentOffset lines'
  end.

Definition layout (lines : list MemberMatch) : list Member := layout_from (Some 0%N) lines.

(** [member.offset === offset] *)
Definition strict_equal (a b : num) : bool :=
  match a, b with
  | Some x, Some y => (x =? y)%N
  | _, _ => false
  end.

(** [ipcMain.handle('structs:lookup')], on the structs of the cache in the
    order in which [for ... in] goes through them. *)
Definition structs_lookup (structsCache : list (string * list Member)) (offset : num)
    : list (string * Member) :=
  flat_map (fun entry =>
              map (fun member => (fst entry, member))
                (List.filter (fun member => strict_equal (member_offset member) offset)
                   (snd entry)))
    structsCache.

(** ** The setup of a project: src/setup-handler.js *)

(** [s.split(d)] for a separator of one code unit. *)
Fixpoint split_on (d : ascii) (s : string) : list string :=
  match s with
  | EmptyString => [""]
  | String c s' =>
      if Ascii.eqb c d then "" :: split_on d s' else cons_first c (split_on d s')
  end.

(** A [Set] of strings as the list of its elements in the order of
    insertion, which is the order in which it is spread. *)
Definition Set_add (x : string) (set : list string) : list string :=
  if bool_decide (x ∈ set) then set else (set ++ [x])%list.

(** [new Set(iterable)] *)
Definition Set_of (l : list string) : list string :=
  fold_left (fun set x => Set_add x set) l [].

(** [a || b] on paths: a string, or [null] or [undefined], which is
    [None]. *)
Definition js_or (a b : option string) : option string :=
  if truthy_string a then a else b.

Module SetupHandler.

Record ToolchainPaths := mkToolchainPaths {
  git : option string;
  python : option string;
  ninja : option string;
  objdiff : option string }.

(** What the setup does to the world around it, in order.  (The messages
    of the log are left out.) *)
Inductive Action :=
  | Exec (command : string) (exitCode : option Z)   (* executeAndLog, and the code it gave *)
  | Download (dest : string)
  | Mkdir (dir : string)
  | CopyFile (src dest : string)
  | StoreSet (toolchainPaths : ToolchainPaths).

(** What the setup meets outside of itself, each asked once at most; every
    call that is awaited is taken to settle. *)
Record Machine := mkMachine {
  (* resolveToolchainPaths *)
  store_toolchainPaths : ToolchainPaths;       (* store.get('toolchainPaths', {}) *)
  store_userPaths_projectPath : option string; (* store.get('userPaths', {}).projectPath *)
  potentialPath_exists : bool;                 (* fs.existsSync(potentialPath) *)
  findExecutable : string -> option string;
  (* verifyAndHealToolchain *)
  pip_install : option Z;                      (* an exit code; [null] is [None] *)
  findExecutable_ninja_again : option string;
  store_projectPath : option string;           (* store.get('userPaths.projectPath') *)
  downloadFile : Outcome unit;
  (* buildEnvFromPaths *)
  env_PATH : option string;                    (* process.env.PATH *)
  TypeError_message : string;                  (* of [undefined.split] *)
  existsSync : string -> bool;
  (* handleProjectSetup *)
  meleePath_exists : bool;
  git_clone : option Z;
  origDolDir_exists : bool;
  mkdirSync : Outcome unit;
  copyFileSync : Outcome unit;
  configure : option Z;
  ninja_build : option Z;
  store_set : Outcome unit }.

Inductive Verification :=
  | VFailure (error : string)               (* { success: false, error } *)
  | VSuccess (paths : ToolchainPaths).      (* { success: true, paths } *)

Inductive Setup :=
  | SetupFailure (error : string)     (* { success: false, error } *)
  | SetupSuccess (env : string).      (* { success: true, env }, by its [PATH] *)

(** A run: what was done, and what came of it. *)
Definition Run (A : Type) : Type := list Action * Outcome A.

Definition run_bind {A B} (r : Run A) (k : A -> Run B) : Run B :=
  match r with
  | (sofar, Returns a) => let (more, b) := k a in ((sofar ++ more)%list, b)
  | (sofar, Throws message) => (sofar, Throws message)
  end.

Notation "'run!' x := r 'in' k" := (run_bind r (fun x => k))
  (at level 10, x name, r at level 100, k at level 200, only parsing).

Definition act (a : Action) (result : Outcome unit) : Run unit := ([a], result).
Definition finish {A} (a : A) : Run A := ([], Returns a).

(** [code === 0] *)
Definition exited_zero (exitCode : option Z) : bool := bool_decide (exitCode = Some 0%Z).

(** A path inside of a template literal; where it is used the path is
    truthy, and so a string. *)
Definition path_text (s : option string) : string := default "undefined" s.

Section Script.
(** [path.delimiter], [path.dirname], and [path.join] of a directory and
    the names below it. *)
Variable delimiter : ascii.
Variable dirname : string -> string.
Variable path_join : string -> list string -> string.

Definition resolveToolchainPaths (m : Machine) : ToolchainPaths :=
  let customPaths := store_toolchainPaths m in
  let objdiffInProjectFolder : option string :=
    match store_userPaths_projectPath m with
    | Some projectPath =>
        if truthy_string (Some projectPath)
        then
          let potentialPath := path_join projectPath ["objdiff-cli.exe"] in
          if potentialPath_exists m then Some potentialPath else None
        else None
    | None => None
    end in
  {| git := js_or (git customPaths) (findExecutable m "git");
     python := js_or (js_or (python customPaths) (findExecutable m "py"))
                 (findExecutable m "python");
     ninja := js_or (ninja customPaths) (findExecutable m "ninja");
     objdiff := js_or (js_or (objdiff customPaths) objdiffInProjectFolder)
                  (findExecutable m "objdiff-cli.exe") |}.

Definition addToPath (exists_ : string -> bool) (toolPath : option string)
    (pathSet : list string) : list string :=
  match toolPath with
  | Some p =>
      if truthy_string (Some p) && exists_ p then Set_add (dirname p) pathSet else pathSet
  | None => pathSet
  end.

(** [[...pathSet]] at the end of [buildEnvFromPaths]. *)
Definition path_entries (exists_ : string -> bool) (PATH : string)
    (resolvedPaths : ToolchainPaths) : list string :=
  Set_of (split_on delimiter PATH)
    |> addToPath exists_ (git resolvedPaths)
    |> addToPath exists_ (python resolvedPaths)
    |> addToPath exists_ (ninja resolvedPaths)
    |> addToPath exists_ (objdiff resolvedPaths).

(** The [PATH] of the environment that [buildEnvFromPaths] returns, the
    other variables being those of [process.env]; when [process.env.PATH]
    is [undefined], [split] raises a TypeError. *)
Definition buildEnvFromPaths (m : Machine) (resolvedPaths : ToolchainPaths) : Outcome string :=
  match env_PATH m with
  | None => Throws (TypeError_message m)
  | Some PATH =>
      Returns (join (String delimiter "") (path_entries (existsSync m) PATH resolvedPaths))
  end.

Definition verifyAndHealToolchain (m : Machine) : list Action * Verification :=
  let resolvedPaths := resolveToolchainPaths m in
  if negb (truthy_string (git resolvedPaths))
  then ([], VFailure "Git not found. Please install it or set its path in Settings.")
  else if negb (truthy_string (python resolvedPaths))
  then ([], VFailure "Python not found. Please install it or set its path in Settings.")
  else
    (* 2. Ninja *)
    let install := Exec ("& " ++ quoted (path_text (python resolvedPaths)) ++ " -m pip install ninja")
                     (pip_install m) in
    let after_ninja : list Action * (string + ToolchainPaths) :=
      if negb (truthy_string (ninja resolvedPaths))
      then
        if negb (exited_zero (pip_install m))
        then ([install],
              inl ("Failed to install Ninja via pip. "
                   ++ "Please check your Python installation."))
        else
          if negb (truthy_string (findExecutable_ninja_again m))
          then ([install],
                inl ("Could not find Ninja executable after installation. "
                     ++ "You may need to restart the application or your terminal."))
          else ([install],
                inr {| git := git resolvedPaths; python := python resolvedPaths;
                       ninja := findExecutable_ninja_again m;
                       objdiff := objdiff resolvedPaths |})
      else ([], inr resolvedPaths) in
    match after_ninja with
    | (sofar, inl error) => (sofar, VFailure error)
    | (sofar, inr resolvedPaths) =>
        (* 3. objdiff-cli *)
        if negb (truthy_string (objdiff resolvedPaths))
        then
          match store_projectPath m with
          | Some projectPath =>
              if truthy_string (Some projectPath)
              then
                let destPath := path_join projectPath ["objdiff-cli.exe"] in
                match downloadFile m with
                | Returns _ =>
                    ((sofar ++ [Download destPath])%list,
                     VSuccess {| git := git resolvedPaths; python := python resolvedPaths;
                                 ninja := ninja resolvedPaths; objdiff := Some destPath |})
                | Throws _ => ((sofar ++ [Download destPath])%list, VSuccess resolvedPaths)
                end
              else (sofar, VFailure "Project path not set. Cannot download objdiff-cli.")
          | None => (sofar, VFailure "Project path not set. Cannot download objdiff-cli.")
          end
        else (sofar, VSuccess resolvedPaths)
    end.

(** [handleProjectSetup(event, { projectPath, dolPath }, store,
    executeAndLog)]; a [Throws] is the rejection of its promise. *)
Definition handleProjectSetup (m : Machine) (projectPath dolPath : string) : Run Setup :=
  let (sofar, verificationResult) := verifyAndHealToolchain m in
  run! _ := (sofar, Returns tt) in
  match verificationResult with
  | VFailure error => finish (SetupFailure error)
  | VSuccess resolvedPaths =>
      run! sessionEnv := ([], buildEnvFromPaths m resolvedPaths) in
      let meleePath := path_join projectPath ["melee"] in
      run! cloned :=
        (if negb (meleePath_exists m)
         then
           run! _ := act (Exec ("git clone https://github.com/doldecomp/melee.git "
                                ++ quoted meleePath) (git_clone m)) (Returns tt) in
           finish (exited_zero (git_clone m))
         else finish true) in
      if negb cloned then finish (SetupFailure "Failed to clone 'melee' repository.")
      else
        let origDolDir := path_join meleePath ["orig"; "GALE01"; "sys"] in
        run! _ := (if negb (origDolDir_exists m) then act (Mkdir origDolDir) (mkdirSync m)
                   else finish tt) in
        run! _ := act (CopyFile dolPath (path_join origDolDir ["main.dol"]))
                    (copyFileSync m) in
        run! _ := act (Exec ("& " ++ quoted (path_text (python resolvedPaths)) ++ " configure.py")
                         (configure m)) (Returns tt) in
        if negb (exited_zero (configure m)) then finish (SetupFailure "Failed to run configure.py")
        else
          run! _ := act (Exec "ninja" (ninja_build m)) (Returns tt) in
          if negb (exited_zero (ninja_build m))
          then finish (SetupFailure "Initial ninja build failed")
          else
            run! _ := act (StoreSet resolvedPaths) (store_set m) in
            finish (SetupSuccess sessionEnv)
  end.
End Script.
End SetupHandler.

(** ** The main process: [deIndent], of [getGeminiSuggestion] *)

(** [line.trim() === ''] *)
Definition is_blank (line : string) : bool := String.eqb (trim line) "".

(** [line.match(/^\s*/)[0].length] *)
Definition indentation (line : string) : nat :=
  String.length (span_chars is_white_space line).1.

(** [lines] once a blank first line was shifted out and a blank last line
    popped. *)
Definition without_blank_ends (lines : list string) : list string :=
  let lines :=
    match lines with
    | first :: rest => if is_blank first then rest else lines
    | [] => lines
    end in
  match lines with
  | _ :: _ => if is_blank (List.last lines "") then removelast lines else lines
  | [] => lines
  end.

(** The least indentation of the lines that are not blank; [None] is
    [Infinity], for no such line. *)
Definition minIndent (lines : list string) : option nat :=
  fold_left
    (fun min line =>
       match min with
       | None => Some (indentation line)
       | Some min => Some (Nat.min min (indentation line))
       end)
    (List.filter (fun line => negb (is_blank line)) lines)
    None.

(** [line.substring(minIndent)] *)
Definition cut_margin (minIndent : option nat) (line : string) : string :=
  match minIndent with
  | Some n => string_drop n line
  | None => ""
  end.

(** The lines that [deIndent] joins. *)
Definition deIndent_lines (str : string) : list string :=
  let lines := without_blank_ends (split_on "010" str) in
  map (cut_margin (minIndent lines)) lines.

Definition deIndent (str : string) : string := join line_feed (deIndent_lines str).

(** ** Predicates of the statements *)

(** Every [match_percent] is a number (not NaN). *)
Definition numbers (l : list Unit.t) : bool :=
  forallb (fun u => negb (is_nan (Unit.match_percent u))) l.

(** No two units share a [match_percent] value. *)
Fixpoint no_shared_match_percent (l : list Unit.t) : bool :=
  match l with
  | [] => true
  | u :: l' =>
      forallb (fun v => negb (Unit.match_percent u =? Unit.match_percent v)%float) l'
      && no_shared_match_percent l'
  end.

(** A fraction in [[0,1]], as the data model has it. *)
Definition fraction (x : float) : bool := ((0 <=? x) && (x <=? 1))%float.

(** [s] occurs in [t]. *)
Definition substring_of (s t : string) : Prop :=
  exists pre post, t = pre ++ s ++ post.

(** The names in the unit rows of a table body, in order. *)
Definition shown_units (rows : list TableRow) : list string :=
  flat_map (fun row => match row with
                       | UnitTr r => [td_name r]
                       | DetailsTr _ => []
                       end) rows.

(** The handler's result when all it returns is a report. *)
Definition report_result (r : Report) : RunResult := mkRunResult None (Some r).

(** The report of the concrete scenario (section 8, item 6). *)
Definition scenario_report : Report :=
  mkReport 0.5 1 2
    [ Unit.mk "a.o" 1.0 [];
      Unit.mk "b.o" 0.25
        [ Symbol.mk "fn1" 0.0 100 120;
          Symbol.mk "fn2" 1.0 40 40 ] ].

(** A unit with the byte sizes of its symbols blanked. *)
Definition without_sizes (u : Unit.t) : Unit.t :=
  Unit.mk (Unit.name u) (Unit.match_percent u)
    (map (fun s => Symbol.mk (Symbol.name s) (Symbol.match_percent s) 0 0) (Unit.symbols u)).

(** A configured environment in which the tool exits with [exitCode],
    printed [out], and [JSON.parse] of it did [parse]. *)
Definition tool_ran (project tool : string) (exitCode : option Z) (out : string)
    (parse : Outcome json) : HandlerEnv :=
  mkHandlerEnv (Some project) (Returns (Some tool)) (Returns tt)
    (mkToolRun exitCode out) parse.

(** A document before any script ran, with the two sortable headers. *)
Definition blank_document : Dom :=
  mkDom false "Run Verification Report" false "" false false false false "" "" "" ""
    [mkHeaderCell "name" false false; mkHeaderCell "match_percent" false false] [].

(** A stand-in for [Number::toString] in the closed examples, none of which
    reaches it. *)
Definition no_digits : float -> string := fun _ => "".

(** [match_percent] is a number. *)
Definition number (u : Unit.t) : Prop := is_nan (Unit.match_percent u) = false.

(** Is the specification-level double NaN. *)
Definition sf_nan (f : spec_float) : bool :=
  match f with S754_nan => true | _ => false end.

(** In which order two units stand after a sort in direction [dir]: the
    second is not on the near side of the first. *)
Definition in_order (lt : Unit.t -> Unit.t -> bool) (dir : SortDirection) (a b : Unit.t) : Prop :=
  match dir with
  | asc => lt b a = false
  | desc => lt a b = false
  end.

Definition match_percent_lt (a b : Unit.t) : bool :=
  (Unit.match_percent a <? Unit.match_percent b)%float.
Definition name_lt (a b : Unit.t) : bool := String.ltb (Unit.name a) (Unit.name b).

(** What of a report the summary shows. *)
Definition report_totals (r : Report) : float * N * N :=
  (total_progress r, matched_objects r, total_objects r).



(** Of the placeholder and the results, one is visible: the summary and the
    table are hidden together, and the placeholder is hidden when they are
    not. *)
Definition visible_one_of_two (d : Dom) : Prop :=
  summarySection_hidden d = resultsTable_hidden d
  /\ reportPlaceholder_hidden d = negb (resultsTable_hidden d).

(** A page of each surface that holds the report of the scenario, sorted
    as after its run. *)
Definition scenario_page : Objdiff.Page :=
  Objdiff.handleRunReport no_digits (report_result scenario_report)
    (Objdiff.loaded no_digits blank_document).
Definition scenario_dashboard : Renderer.Page :=
  Renderer.handleDashboardRunReport no_digits (report_result scenario_report)
    (Renderer.mkPage Renderer.state0 blank_document).

(** Every code unit of [s] is in the class [f]. *)
Fixpoint all_chars (f : ascii -> bool) (s : string) : bool :=
  match s with
  | EmptyString => true
  | String c s' => f c && all_chars f s'
  end.

(** A name as [.fn] lines give it: one code unit or more of [[a-zA-Z0-9_]]. *)
Definition identifier (name : string) : bool :=
  negb (String.eqb name "") && all_chars is_word_char name.

Definition is_fn_line (line : string) : bool :=
  match fn_match line with Some _ => true | None => false end.

(** A line that neither opens nor closes a function. *)
Definition no_marker (line : string) : bool :=
  negb (is_fn_line line) && negb (endfn_match line).

(** A function of an assembly file, from its [.fn] line to its [.endfn]
    line, with the lines that come before it. *)
Record AsmFunction := mkAsmFunction {
  asm_lead : list string;
  asm_fn : string;
  asm_body : list string;
  asm_endfn : string }.

Definition asm_lines (f : AsmFunction) : list string :=
  (asm_lead f ++ asm_fn f :: asm_body f ++ [asm_endfn f])%list.

Definition complete_function (f : AsmFunction) : bool :=
  forallb (fun line => negb (is_fn_line line)) (asm_lead f)
  && is_fn_line (asm_fn f)
  && forallb no_marker (asm_body f)
  && endfn_match (asm_endfn f).

(** The name on the [.fn] line, and the number of lines from it to the
    [.endfn] line, both included. *)
Definition measured (f : AsmFunction) : FunctionSize :=
  mkFunctionSize (default "" (fn_match (asm_fn f))) (N.of_nat (length (asm_body f)) + 2).

Definition total_size (l : list FunctionSize) : N :=
  fold_right (fun f n => (fn_size f + n)%N) 0%N l.

(** The invariant of the loop over the lines read so far: every function
    found has a size of one line or more and the name of a [.fn] line, and
    the sizes, with the lines counted for the function that is open, do not
    exceed the number of lines. *)
Definition scan_invariant (lines : list string) (st : Scan) : Prop :=
  Forall (fun f => (1 <= fn_size f)%N /\ identifier (fn_name f) = true
                   /\ exists line, line ∈ lines /\ fn_match line = Some (fn_name f))
    (functionsWithSize st)
  /\ match currentFunction st with
     | Some current =>
         (1 <= lineCount st)%N
         /\ (total_size (functionsWithSize st) + lineCount st <= N.of_nat (length lines))%N
         /\ identifier current = true
         /\ exists line, line ∈ lines /\ fn_match line = Some current
     | None => (total_size (functionsWithSize st) <= N.of_nat (length lines))%N
     end.

(** The braces that [s] opens, less those it closes. *)
Fixpoint balance (s : string) : Z :=
  match s with
  | EmptyString => 0
  | String c s' =>
      ((if Ascii.eqb c "{" then 1 else if Ascii.eqb c "}" then -1 else 0) + balance s')%Z
  end.

(** A brace, what it encloses and the brace that closes it: the braces are
    balanced at the end and at no place before it. *)
Definition brace_span (span : string) : Prop :=
  String.prefix "{" span = true
  /\ balance span = 0%Z
  /\ forall j, (0 < j < String.length span)%nat -> (0 < balance (string_take j span))%Z.

Definition no_open_brace (s : string) : bool :=
  all_chars (fun c => negb (Ascii.eqb c "{")) s.

(** [currentOffset] at the closing line of a struct. *)
Fixpoint end_from (currentOffset : num) (lines : list MemberMatch) : num :=
  match lines with
  | [] => currentOffset
  | m :: lines' => end_from (layout_member currentOffset m).1 lines'
  end.

Definition struct_end (lines : list MemberMatch) : num := end_from (Some 0%N) lines.

(** Below [2^53] a number of the code is the natural number it stands for. *)
Definition exact_number (x : num) : Prop :=
  exists n, x = Some n /\ (n < 2 ^ 53)%N.

(** The member [m] ends where [m'] starts, or before it. *)
Definition member_before (m m' : Member) : Prop :=
  exists offset size offset',
    member_offset m = Some offset /\ member_size m = Some size
    /\ member_offset m' = Some offset' /\ (offset + size <= offset')%N.

(** The offset of [m] is a multiple of its alignment. *)
Definition member_aligned (m : Member) : Prop :=
  exists offset alignment,
    member_offset m = Some offset /\ getAlignment (member_type m) = Bytes alignment
    /\ (offset mod alignment = 0)%N.

(** Between [m] and [m'] there is less padding than the alignment of
    [m']. *)
Definition padding_below_alignment (m m' : Member) : Prop :=
  exists offset size offset' alignment,
    member_offset m = Some offset /\ member_size m = Some size
    /\ member_offset m' = Some offset' /\ getAlignment (member_type m') = Bytes alignment
    /\ (offset' < offset + size + alignment)%N.

(** A member line whose type names a property of [Object.prototype]. *)
Definition inherits_size (m : MemberMatch) : bool :=
  match getSize (trim (match_type m)) with Inherited => true | _ => false end.

(** The four paths of a toolchain. *)
Definition tools (paths : SetupHandler.ToolchainPaths) : list (option string) :=
  [ SetupHandler.git paths; SetupHandler.python paths; SetupHandler.ninja paths;
    SetupHandler.objdiff paths ].

(** The directory of a tool that was found and that exists. *)
Definition tool_directory (dirname : string -> string) (exists_ : string -> bool)
    (paths : SetupHandler.ToolchainPaths) (dir : string) : Prop :=
  exists p, Some p ∈ tools paths /\ p <> "" /\ exists_ p = true /\ dir = dirname p.

(** A command that did not exit with 0. *)
Definition failed_command (a : SetupHandler.Action) : bool :=
  match a with
  | SetupHandler.Exec _ exitCode => negb (SetupHandler.exited_zero exitCode)
  | _ => false
  end.

Definition is_StoreSet (a : SetupHandler.Action) : bool :=
  match a with SetupHandler.StoreSet _ => true | _ => false end.

(** ** Examples for the instances *)

Definition sample_asm_functions : list AsmFunction :=
  [ mkAsmFunction ["# .text"] ".fn f1, global" ["nop"; "blr"] ".endfn f1";
    mkAsmFunction [""] ".fn f2, local" [] ".endfn f2" ].

Definition sample_content : string := "int f(void) { if (x) { y(); } } int g;".

Definition sample_struct : list MemberMatch :=
  [ mkMemberMatch "u8" "a" None; mkMemberMatch "u32" "b" None;
    mkMemberMatch "char" "name" (Some 3%N); mkMemberMatch "f64" "d" None ].

Definition sample_poisoned_struct : list MemberMatch :=
  [ mkMemberMatch "u8" "a" None; mkMemberMatch "toString" "b" None;
    mkMemberMatch "char" "c" None ].

(** [path.join] and [path.dirname] where the separator is a slash and the
    paths are plain. *)
Definition sample_path_join (dir : string) (names : list string) : string :=
  dir ++ "/" ++ join "/" names.

Fixpoint sample_dirname (p : string) : string :=
  match p with
  | EmptyString => ""
  | String c p' => if includes p' "/" then String c (sample_dirname p') else ""
  end.

(** A machine with every tool in the store and nothing to download, on
    which [configure.py] exits with [configure_code]. *)
Definition sample_machine (configure_code : Z) : SetupHandler.Machine :=
  {| SetupHandler.store_toolchainPaths :=
       SetupHandler.mkToolchainPaths (Some "/usr/bin/git") (Some "/usr/bin/python3")
         (Some "/usr/bin/ninja") (Some "/opt/objdiff/objdiff-cli.exe");
     SetupHandler.store_userPaths_projectPath := Some "/home/me/project";
     SetupHandler.potentialPath_exists := false;
     SetupHandler.findExecutable := fun _ => None;
     SetupHandler.pip_install := Some 0%Z;
     SetupHandler.findExecutable_ninja_again := None;
     SetupHandler.store_projectPath := Some "/home/me/project";
     SetupHandler.downloadFile := Returns tt;
     SetupHandler.env_PATH := Some "/usr/bin:/bin:/opt/objdiff";
     SetupHandler.TypeError_message := "";
     SetupHandler.existsSync := fun _ => true;
     SetupHandler.meleePath_exists := true;
     SetupHandler.git_clone := Some 0%Z;
     SetupHandler.origDolDir_exists := true;
     SetupHandler.mkdirSync := Returns tt;
     SetupHandler.copyFileSync := Returns tt;
     SetupHandler.configure := Some configure_code;
     SetupHandler.ninja_build := Some 0%Z;
     SetupHandler.store_set := Returns tt |}.

Definition sample_template : string :=
  line_feed ++ "    a" ++ line_feed ++ "      b" ++ line_feed ++ "  ".

(** * Properties *)

(** ** The built-in operations on examples *)

Example toFixed2_tie nts : toFixed2 nts 0.125 = "0.13".
Proof. reflexivity. Qed.

Example toFixed2_negative nts : toFixed2 nts (-0.125) = "-0.13".
Proof. reflexivity. Qed.

Example toFixed2_small nts : toFixed2 nts (0x1p-1074) = "0.00".
Proof. reflexivity. Qed.

Example toFixed2_whole nts : toFixed2 nts (1 * 100) = "100.00".
Proof. reflexivity. Qed.

Example toLowerCase_path : toLowerCase "Src/Melee/FT/ftKirby.O" = "src/melee/ft/ftkirby.o".
Proof. reflexivity. Qed.

Example includes_inside : includes "src/melee/ft/ftkirby.o" "melee/ft" = true.
Proof. reflexivity. Qed.

Example includes_absent : includes "a.o" "b" = false.
Proof. reflexivity. Qed.

(** Ties keep their order: the sort is stable. *)
Example array_sort_stable :
  array_sort (fun a b : Z * string => (fst a - fst b)%Z)
    [(3, "first"); (1, "x"); (3, "second"); (2, "y")]%Z
  = [(1, "x"); (2, "y"); (3, "first"); (3, "second")]%Z.
Proof. reflexivity. Qed.

(** The parsed report of the scenario has the documented shape. *)
Example report_of_json_scenario :
  report_of_json
    (JObject
       [ ("total_progress", JNumber 0.5); ("matched_objects", JNumber 1);
         ("total_objects", JNumber 2); ("timestamp", JNumber 0);
         ("units",
          JArray
            [ JObject [ ("name", JString "a.o"); ("match_percent", JNumber 1);
                        ("symbols", JArray []) ];
              JObject [ ("name", JString "b.o"); ("match_percent", JNumber 0.25);
                        ("symbols",
                         JArray
                           [ JObject [ ("name", JString "fn1"); ("match_percent", JNumber 0);
                                       ("base_size", JNumber 100);
                                       ("target_size", JNumber 120) ];
                             JObject [ ("name", JString "fn2"); ("match_percent", JNumber 1);
                                       ("base_size", JNumber 40);
                                       ("target_size", JNumber 40) ] ]) ] ]) ])
  = Some scenario_report.
Proof. reflexivity. Qed.


(** ** The order of doubles

    [SFcompare] orders by sign, then exponent, then mantissa: away from
    NaN a total preorder, in which the two zeros tie. *)

Ltac cmp_cases :=
  repeat match goal with
  | |- context [Z.compare ?a ?b] => destruct (Z.compare_spec a b)
  | H : context [Z.compare ?a ?b] |- _ => destruct (Z.compare_spec a b)
  | |- context [PosDef.Pos.compare_cont Eq ?a ?b] =>
      change (PosDef.Pos.compare_cont Eq a b) with (Pos.compare a b);
      destruct (Pos.compare_spec a b)
  | H : context [PosDef.Pos.compare_cont Eq ?a ?b] |- _ =>
      change (PosDef.Pos.compare_cont Eq a b) with (Pos.compare a b) in H;
      destruct (Pos.compare_spec a b)
  end.

Ltac sf_crush :=
  unfold SFltb, SFeqb, SFleb, SFcompare in *;
  repeat match goal with
  | f : spec_float |- _ => destruct f
  | b : bool |- _ => destruct b
  end;
  simpl in *; try congruence; cmp_cases; simpl in *; subst; try congruence; try lia.

Lemma SFltb_asym x y : SFltb x y = true -> SFltb y x = false.
Proof. sf_crush. Qed.

Lemma SFltb_trans x y z : SFltb x y = true -> SFltb y z = true -> SFltb x z = true.
Proof. sf_crush. Qed.

Lemma SFnlt_trans x y z :
  sf_nan x = false -> sf_nan y = false -> sf_nan z = false ->
  SFltb y x = false -> SFltb z y = false -> SFltb z x = false.
Proof. sf_crush. Qed.

Lemma SF_trichotomy x y :
  sf_nan x = false -> sf_nan y = false ->
  SFltb x y = false -> SFltb y x = false -> SFeqb x y = true.
Proof. sf_crush. Qed.

Lemma SFeqb_not_lt x y : SFeqb x y = true -> SFltb x y = false.
Proof. sf_crush. Qed.

Lemma SFleb_cases x y : SFleb x y = true -> SFltb x y = false -> SFeqb x y = true.
Proof. sf_crush. Qed.

Lemma SFeqb_self f : SFeqb f f = negb (sf_nan f).
Proof.
  destruct f as [[]|[]| |s m e]; try done.
  unfold SFeqb, SFcompare. rewrite Z.compare_refl.
  change (PosDef.Pos.compare_cont Eq m m) with (Pos.compare m m).
  rewrite Pos.compare_refl. by destruct s.
Qed.

Lemma is_nan_spec x : is_nan x = sf_nan (Prim2SF x).
Proof. unfold is_nan. rewrite FloatAxioms.eqb_spec, SFeqb_self. apply negb_involutive. Qed.

Lemma float_ltb_asym x y : (x <? y)%float = true -> (y <? x)%float = false.
Proof. rewrite !FloatAxioms.ltb_spec. apply SFltb_asym. Qed.

Lemma float_ltb_trans x y z :
  (x <? y)%float = true -> (y <? z)%float = true -> (x <? z)%float = true.
Proof. rewrite !FloatAxioms.ltb_spec. apply SFltb_trans. Qed.

Lemma float_nlt_trans x y z :
  is_nan x = false -> is_nan y = false -> is_nan z = false ->
  (y <? x)%float = false -> (z <? y)%float = false -> (z <? x)%float = false.
Proof. rewrite !is_nan_spec, !FloatAxioms.ltb_spec. apply SFnlt_trans. Qed.

Lemma float_trichotomy x y :
  is_nan x = false -> is_nan y = false -> (x =? y)%float = false ->
  (x <? y)%float = true \/ (y <? x)%float = true.
Proof.
  rewrite !is_nan_spec, FloatAxioms.eqb_spec, !FloatAxioms.ltb_spec. intros Hx Hy He.
  destruct (SFltb (Prim2SF x) (Prim2SF y)) eqn:E1; [by left|].
  destruct (SFltb (Prim2SF y) (Prim2SF x)) eqn:E2; [by right|].
  rewrite (SF_trichotomy _ _ Hx Hy E1 E2) in He. done.
Qed.

Lemma float_eqb_not_ltb x y : (x =? y)%float = true -> (x <? y)%float = false.
Proof. rewrite FloatAxioms.eqb_spec, FloatAxioms.ltb_spec. apply SFeqb_not_lt. Qed.

Lemma float_leb_not_ltb x y :
  (x <=? y)%float = true -> (x <? y)%float = false -> (x =? y)%float = true.
Proof.
  rewrite FloatAxioms.leb_spec, FloatAxioms.ltb_spec, FloatAxioms.eqb_spec.
  apply SFleb_cases.
Qed.

(** ** [Array.prototype.sort] *)

Section SortFacts.
Context {A : Type}.
Local Open Scope Z_scope.
Local Open Scope list_scope.

Section One.
Variable c : A -> A -> Z.

Lemma sort_insert_perm x l : sort_insert c x l ≡ₚ x :: l.
Proof.
  induction l as [|y l IH]; simpl; [done|].
  destruct (c x y <=? 0); [done|].
  rewrite IH. apply perm_swap.
Qed.

Lemma array_sort_perm l : array_sort c l ≡ₚ l.
Proof.
  induction l as [|x l IH]; simpl; [done|].
  by rewrite sort_insert_perm, IH.
Qed.

(** Where an insertion lands: behind the elements it compares above. *)
Lemma sort_insert_split x l :
  exists p r, l = p ++ r /\ sort_insert c x l = p ++ x :: r
              /\ Forall (fun z => c x z > 0) p.
Proof.
  induction l as [|y l (p & r & -> & E & Hp)]; simpl.
  - by exists [], [].
  - destruct (c x y <=? 0) eqn:T.
    + by exists [], (y :: p ++ r).
    + exists (y :: p), r. rewrite E. split; [done|]. split; [done|].
      constructor; [lia|done].
Qed.

(** A list that is in order already is left as it is. *)
Lemma array_sort_sorted l :
  StronglySorted (fun x y => c x y <= 0) l -> array_sort c l = l.
Proof.
  induction 1 as [|x l Hs IH Hx]; simpl; [done|].
  rewrite IH. destruct Hx as [|y l Hy _]; simpl; [done|].
  destruct (Z.leb_spec (c x y) 0); [done|lia].
Qed.

(** A list in strictly opposite order is reversed. *)
Lemma array_sort_rev l :
  StronglySorted (fun x y => c x y > 0) l -> array_sort c l = rev l.
Proof.
  induction 1 as [|x l Hs IH Hx]; simpl; [done|].
  rewrite IH. apply Forall_rev in Hx. clear -Hx.
  induction Hx as [|y m Hy _ IHm]; simpl; [done|].
  destruct (Z.leb_spec (c x y) 0); [lia|by rewrite IHm].
Qed.
End One.

Section Two.
Variable ok : A -> Prop.
Variables c1 c2 : A -> A -> Z.
Hypothesis c1_trans : forall x y z, ok x -> ok y -> ok z ->
  c1 x y <= 0 -> c1 y z <= 0 -> c1 x z <= 0.
(** What [c2] puts in order, [c1] does not see as a tie. *)
Hypothesis c2_c1 : forall x y, ok x -> ok y -> c2 x y > 0 ->
  (c1 x y <= 0 /\ c1 y x > 0) \/ (c1 y x <= 0 /\ c1 x y > 0).

Lemma sort_insert_comm x y l :
  ok x -> ok y -> Forall ok l -> c1 x y <= 0 -> c1 y x > 0 ->
  sort_insert c1 x (sort_insert c1 y l) = sort_insert c1 y (sort_insert c1 x l).
Proof using c1_trans.
  intros Hx Hy Hl Hxy Hyx. induction Hl as [|z l Hz Hl IH]; simpl.
  - destruct (Z.leb_spec (c1 x y) 0), (Z.leb_spec (c1 y x) 0); try lia. done.
  - destruct (Z.leb_spec (c1 y z) 0) as [Hyz|Hyz]; simpl.
    + assert (c1 x z <= 0) by eauto.
      destruct (Z.leb_spec (c1 x y) 0), (Z.leb_spec (c1 x z) 0); try lia. simpl.
      destruct (Z.leb_spec (c1 y x) 0), (Z.leb_spec (c1 y z) 0); try lia. done.
    + destruct (Z.leb_spec (c1 x z) 0); simpl.
      * destruct (Z.leb_spec (c1 y x) 0), (Z.leb_spec (c1 y z) 0); try lia. done.
      * destruct (Z.leb_spec (c1 y z) 0); try lia. by rewrite IH.
Qed.

Lemma array_sort_insert_middle x p r :
  ok x -> Forall ok p -> Forall ok r -> Forall (fun z => c2 x z > 0) p ->
  array_sort c1 (p ++ x :: r) = sort_insert c1 x (array_sort c1 (p ++ r)).
Proof using c1_trans c2_c1.
  intros Hx Hp Hr Hc. induction Hp as [|z p Hz Hp IH]; simpl; [done|].
  apply Forall_cons in Hc as [Hzx Hc]. rewrite IH by done.
  assert (Forall ok (array_sort c1 (p ++ r))).
  { rewrite array_sort_perm. by apply Forall_app. }
  destruct (c2_c1 x z Hx Hz Hzx) as [[? ?]|[? ?]].
  - symmetry. by apply sort_insert_comm.
  - by apply sort_insert_comm.
Qed.

(** Sorting by [c1] forgets an earlier sort by [c2]. *)
Lemma array_sort_absorb l :
  Forall ok l -> array_sort c1 (array_sort c2 l) = array_sort c1 l.
Proof using c1_trans c2_c1.
  induction 1 as [|x l Hx Hl IH]; simpl; [done|].
  destruct (sort_insert_split c2 x (array_sort c2 l)) as (p & r & E & -> & Hp).
  assert (Forall ok (p ++ r)) as [? ?]%Forall_app.
  { rewrite <- E, array_sort_perm. done. }
  rewrite array_sort_insert_middle by done.
  by rewrite <- E, IH.
Qed.
End Two.

Section Strict.
Variable c : A -> A -> Z.
Variable R : A -> A -> Prop.
Hypothesis R_trans : forall x y z, R x y -> R y z -> R x z.
Hypothesis R_stop : forall x y, R x y -> c x y <= 0.
Hypothesis R_pass : forall x y, R y x -> c x y > 0.

Lemma sort_insert_strict x l :
  StronglySorted R l -> Forall (fun z => R x z \/ R z x) l ->
  StronglySorted R (sort_insert c x l).
Proof using R_trans R_stop R_pass.
  induction 1 as [|y l Hs IH Hy]; simpl; intros Hx.
  - repeat constructor.
  - apply Forall_cons in Hx as [[Hxy|Hyx] Hx].
    + destruct (Z.leb_spec (c x y) 0); [|apply R_stop in Hxy; lia].
      constructor; [by constructor|].
      constructor; [done|]. eapply Forall_impl; [exact Hy|]. eauto.
    + destruct (Z.leb_spec (c x y) 0); [apply R_pass in Hyx; lia|].
      constructor; [by apply IH|].
      rewrite sort_insert_perm. by constructor.
Qed.

(** Without ties the result is in strict order. *)
Lemma array_sort_strict l :
  ForallOrdPairs (fun x z => R x z \/ R z x) l ->
  StronglySorted R (array_sort c l).
Proof using R_trans R_stop R_pass.
  induction 1 as [|x l Hx Hl IH]; simpl; [constructor|].
  apply sort_insert_strict; [done|]. by rewrite array_sort_perm.
Qed.
End Strict.

Lemma StronglySorted_impl (R R' : A -> A -> Prop) l :
  (forall x y, R x y -> R' x y) -> StronglySorted R l -> StronglySorted R' l.
Proof.
  intros HR. induction 1 as [|x l Hs IH Hx]; constructor; [done|].
  eapply Forall_impl; [exact Hx|]. auto.
Qed.
End SortFacts.

(** ** The comparator on [match_percent] *)

Local Abbreviation mp := Unit.match_percent.

Lemma compareUnits_match_percent dir a b :
  compareUnits "match_percent" dir a b =
  (if (mp a <? mp b)%float then match dir with asc => -1 | desc => 1 end
   else if (mp b <? mp a)%float then match dir with asc => 1 | desc => -1 end
   else 0)%Z.
Proof. reflexivity. Qed.

(** [a] is not sorted behind [b] exactly when it is not on the far side of it. *)
Lemma compareUnits_above dir a b :
  (compareUnits "match_percent" dir a b > 0)%Z <->
  match dir with asc => (mp b <? mp a)%float | desc => (mp a <? mp b)%float end = true.
Proof.
  rewrite compareUnits_match_percent.
  destruct (mp a <? mp b)%float eqn:E1, (mp b <? mp a)%float eqn:E2, dir;
    try (apply float_ltb_asym in E1; congruence); split; (lia || done).
Qed.

Lemma compareUnits_not_above dir a b :
  (compareUnits "match_percent" dir a b <= 0)%Z <->
  match dir with asc => (mp b <? mp a)%float | desc => (mp a <? mp b)%float end = false.
Proof.
  pose proof (compareUnits_above dir a b) as H.
  destruct dir, (mp b <? mp a)%float, (mp a <? mp b)%float; split; intros; try done; try lia;
    exfalso; (assert (true = true) as T by done; apply H in T; lia).
Qed.

Lemma numbers_Forall l : numbers l = true -> Forall number l.
Proof.
  unfold numbers. rewrite forallb_forall, Forall_forall. intros H u Hu.
  apply list_elem_of_In, H, negb_true_iff in Hu. done.
Qed.

Lemma compareUnits_trans dir x y z :
  number x -> number y -> number z ->
  (compareUnits "match_percent" dir x y <= 0)%Z ->
  (compareUnits "match_percent" dir y z <= 0)%Z ->
  (compareUnits "match_percent" dir x z <= 0)%Z.
Proof.
  rewrite !compareUnits_not_above. destruct dir; eauto using float_nlt_trans.
Qed.

Lemma compareUnits_no_tie d1 d2 x y :
  (compareUnits "match_percent" d2 x y > 0)%Z ->
  (compareUnits "match_percent" d1 x y <= 0 /\ compareUnits "match_percent" d1 y x > 0)%Z \/
  (compareUnits "match_percent" d1 y x <= 0 /\ compareUnits "match_percent" d1 x y > 0)%Z.
Proof.
  rewrite !compareUnits_above, !compareUnits_not_above.
  destruct d1, d2; intros H; pose proof (float_ltb_asym _ _ H); auto.
Qed.

(** Sorting in one direction forgets an earlier sort in either direction. *)
Lemma sort_match_percent_absorb d1 d2 l :
  numbers l = true ->
  array_sort (compareUnits "match_percent" d1) (array_sort (compareUnits "match_percent" d2) l)
  = array_sort (compareUnits "match_percent" d1) l.
Proof.
  intros H. apply (array_sort_absorb number); [| |by apply numbers_Forall].
  - apply compareUnits_trans.
  - intros x y _ _. apply compareUnits_no_tie.
Qed.

Lemma no_shared_pairs l :
  numbers l = true -> no_shared_match_percent l = true ->
  ForallOrdPairs (fun x z => (mp x <? mp z)%float = true \/ (mp z <? mp x)%float = true) l.
Proof.
  induction l as [|u l IH]; simpl; [constructor|].
  rewrite !andb_true_iff, negb_true_iff. intros [Hu Hl] [Hd Hs].
  constructor; [|by apply IH].
  apply numbers_Forall in Hl. rewrite forallb_forall in Hd.
  rewrite Forall_forall in Hl |- *. intros v Hv.
  apply float_trichotomy; [done|by apply Hl|].
  apply list_elem_of_In, Hd, negb_true_iff in Hv. done.
Qed.

(** Without shared values, the ascending order is strict. *)
Lemma sort_match_percent_strict l :
  numbers l = true -> no_shared_match_percent l = true ->
  StronglySorted (fun x z => (mp x <? mp z)%float = true)
    (array_sort (compareUnits "match_percent" asc) l).
Proof.
  intros Hn Hs. apply array_sort_strict; [| | |by apply no_shared_pairs].
  - intros x y z. apply float_ltb_trans.
  - intros x y H. apply (compareUnits_not_above asc). by apply float_ltb_asym.
  - intros x y H. by apply (compareUnits_above asc).
Qed.

(** Descending after ascending, without shared values: the reverse. *)
Lemma sort_match_percent_rev l :
  numbers l = true -> no_shared_match_percent l = true ->
  array_sort (compareUnits "match_percent" desc) (array_sort (compareUnits "match_percent" asc) l)
  = rev (array_sort (compareUnits "match_percent" asc) l).
Proof.
  intros Hn Hs. apply array_sort_rev.
  eapply StronglySorted_impl; [|by apply sort_match_percent_strict].
  intros x y H. by apply (compareUnits_above desc).
Qed.

(** With [undefined] on both sides every comparison is a tie. *)
Lemma compareUnits_undefined key dir a b :
  unit_prop key a = VUndefined -> compareUnits key dir a b = 0%Z.
Proof. unfold compareUnits. intros ->. simpl. by destruct (unit_prop key b). Qed.

Lemma unit_prop_other key u :
  key <> "name" -> key <> "match_percent" -> key <> "symbols" ->
  unit_prop key u = VUndefined.
Proof.
  intros H1 H2 H3. unfold unit_prop.
  apply String.eqb_neq in H1, H2, H3. by rewrite H1, H2, H3.
Qed.

Lemma sort_all_ties {A} (c : A -> A -> Z) l :
  (forall x y, c x y = 0%Z) -> array_sort c l = l.
Proof.
  intros H. apply array_sort_sorted.
  induction l; constructor; [done|]. apply Forall_forall. intros y _. rewrite H. done.
Qed.

(** ** Strings and filters *)

Lemma append_nil_l s : "" ++ s = s.
Proof. reflexivity. Qed.

Lemma append_cons c s t : String c s ++ t = String c (s ++ t).
Proof. reflexivity. Qed.

Lemma prefix_nil s : String.prefix "" s = true.
Proof. by destruct s. Qed.

Lemma prefix_app p s : String.prefix p s = true <-> exists t, s = p ++ t.
Proof.
  revert s. induction p as [|a p IH]; intros s.
  - rewrite prefix_nil. split; [intros _; by exists s|done].
  - destruct s as [|b s]; simpl.
    { split; [done|]. intros [t E]. by rewrite append_cons in E. }
    destruct (Ascii.ascii_dec a b) as [->|Hab].
    + rewrite IH. split; intros [t E]; exists t.
      * by rewrite append_cons, E.
      * rewrite append_cons in E. by injection E.
    + split; [done|]. intros [t E]. rewrite append_cons in E. by injection E as -> _.
Qed.

Lemma includes_unfold s sub :
  includes s sub =
  if String.prefix sub s then true
  else match s with
       | EmptyString => false
       | String _ s' => includes s' sub
       end.
Proof. by destruct s. Qed.

Lemma includes_spec s sub : includes s sub = true <-> substring_of sub s.
Proof.
  unfold substring_of. induction s as [|c s IH]; rewrite includes_unfold.
  - destruct (String.prefix sub "") eqn:E.
    + split; [|done]. intros _. apply prefix_app in E as [t E]. by exists "", t.
    + split; [done|]. intros (pre & post & H).
      destruct pre; [|by rewrite append_cons in H]. rewrite append_nil_l in H.
      assert (String.prefix sub "" = true) by (apply prefix_app; eauto). congruence.
  - destruct (String.prefix sub (String c s)) eqn:E.
    + split; [|done]. intros _. apply prefix_app in E as [t E]. by exists "", t.
    + rewrite IH. split.
      * intros (pre & post & ->). by exists (String c pre), post.
      * intros (pre & post & H). destruct pre as [|c' pre].
        -- rewrite append_nil_l in H.
           assert (String.prefix sub (String c s) = true) by (apply prefix_app; eauto).
           congruence.
        -- rewrite append_cons in H. injection H as _ ->. eauto.
Qed.

Lemma includes_empty s : includes s "" = true.
Proof. by destruct s. Qed.

Lemma filter_sublist {A} (f : A -> bool) (l : list A) : sublist (List.filter f l) l.
Proof.
  induction l as [|x l IH]; simpl; [constructor|].
  destruct (f x); by constructor.
Qed.

Lemma filter_all {A} (f : A -> bool) (l : list A) :
  (forall x, f x = true) -> List.filter f l = l.
Proof. intros H. induction l as [|x l IH]; simpl; [done|]. by rewrite H, IH. Qed.

(** ** The pages *)

Section Pages.
Variable numberToString : float -> string.

(** Rendering writes the document and leaves [state] alone. *)
Lemma Objdiff_state_renderSummary p :
  Objdiff.state (Objdiff.renderSummary numberToString p) = Objdiff.state p.
Proof. unfold Objdiff.renderSummary. by destruct (Objdiff.report _). Qed.

Lemma Objdiff_state_renderTable p :
  Objdiff.state (Objdiff.renderTable numberToString p) = Objdiff.state p.
Proof. unfold Objdiff.renderTable. by destruct (Objdiff.report _). Qed.

Lemma Objdiff_state_render p :
  Objdiff.state (Objdiff.render numberToString p) = Objdiff.state p.
Proof.
  unfold Objdiff.render, Objdiff.renderSortIndicators.
  destruct (Objdiff.report _); [|done]. simpl.
  by rewrite Objdiff_state_renderTable, Objdiff_state_renderSummary.
Qed.

Lemma Renderer_state_renderDashboardSummary q :
  Renderer.state (Renderer.renderDashboardSummary numberToString q) = Renderer.state q.
Proof. unfold Renderer.renderDashboardSummary. by destruct (Renderer.dashboardReport _). Qed.

Lemma Renderer_state_renderDashboardTable q :
  Renderer.state (Renderer.renderDashboardTable numberToString q) = Renderer.state q.
Proof. unfold Renderer.renderDashboardTable. by destruct (Renderer.dashboardReport _). Qed.

Lemma Renderer_state_renderDashboard q :
  Renderer.state (Renderer.renderDashboard numberToString q) = Renderer.state q.
Proof.
  unfold Renderer.renderDashboard, Renderer.renderDashboardSortIndicators.
  destruct (Renderer.dashboardReport _); [|done]. simpl.
  by rewrite Renderer_state_renderDashboardTable, Renderer_state_renderDashboardSummary.
Qed.

(** [handleSort] leaves the state that [sortUnits] computes from the new
    key and direction. *)
Lemma Objdiff_handleSort_state key p :
  Objdiff.state (Objdiff.handleSort numberToString key p) =
  Objdiff.state
    (Objdiff.sortUnits
       (Objdiff.mkPage
          (let st := Objdiff.state p in
           if String.eqb (Objdiff.sortKey st) key
           then Objdiff.mkState (Objdiff.report st) (Objdiff.expandedRows st)
                  (Objdiff.filterQuery st) (Objdiff.sortKey st)
                  (opposite (Objdiff.sortDirection st))
           else Objdiff.mkState (Objdiff.report st) (Objdiff.expandedRows st)
                  (Objdiff.filterQuery st) key asc)
          (Objdiff.dom p))).
Proof. unfold Objdiff.handleSort. apply Objdiff_state_render. Qed.

Lemma Renderer_handleDashboardSort_state key q :
  Renderer.state (Renderer.handleDashboardSort numberToString key q) =
  Renderer.state
    (Renderer.sortDashboardUnits
       (Renderer.mkPage
          (let st := Renderer.state q in
           if String.eqb (Renderer.dashboardSortKey st) key
           then Renderer.mkState (Renderer.dashboardReport st) (Renderer.dashboardExpandedRows st)
                  (Renderer.dashboardFilterQuery st) (Renderer.dashboardSortKey st)
                  (opposite (Renderer.dashboardSortDirection st))
           else Renderer.mkState (Renderer.dashboardReport st) (Renderer.dashboardExpandedRows st)
                  (Renderer.dashboardFilterQuery st) key asc)
          (Renderer.dom q))).
Proof. unfold Renderer.handleDashboardSort. apply Renderer_state_renderDashboard. Qed.

(** Sorting touches the units only. *)
Lemma Objdiff_sortUnits_params p :
  Objdiff.sortKey (Objdiff.state (Objdiff.sortUnits p)) = Objdiff.sortKey (Objdiff.state p)
  /\ Objdiff.sortDirection (Objdiff.state (Objdiff.sortUnits p))
     = Objdiff.sortDirection (Objdiff.state p).
Proof. unfold Objdiff.sortUnits. by destruct (Objdiff.report _). Qed.

Lemma Renderer_sortDashboardUnits_params q :
  Renderer.dashboardSortKey (Renderer.state (Renderer.sortDashboardUnits q))
  = Renderer.dashboardSortKey (Renderer.state q)
  /\ Renderer.dashboardSortDirection (Renderer.state (Renderer.sortDashboardUnits q))
     = Renderer.dashboardSortDirection (Renderer.state q).
Proof. unfold Renderer.sortDashboardUnits. by destruct (Renderer.dashboardReport _). Qed.

Lemma Objdiff_handleSort_params key p :
  let p' := Objdiff.handleSort numberToString key p in
  Objdiff.sortKey (Objdiff.state p') = key
  /\ Objdiff.sortDirection (Objdiff.state p')
     = if String.eqb (Objdiff.sortKey (Objdiff.state p)) key
       then opposite (Objdiff.sortDirection (Objdiff.state p))
       else asc.
Proof.
  simpl. rewrite Objdiff_handleSort_state.
  destruct (Objdiff_sortUnits_params
              (Objdiff.mkPage
                 (let st := Objdiff.state p in
                  if String.eqb (Objdiff.sortKey st) key
                  then Objdiff.mkState (Objdiff.report st) (Objdiff.expandedRows st)
                         (Objdiff.filterQuery st) (Objdiff.sortKey st)
                         (opposite (Objdiff.sortDirection st))
                  else Objdiff.mkState (Objdiff.report st) (Objdiff.expandedRows st)
                         (Objdiff.filterQuery st) key asc)
                 (Objdiff.dom p))) as [-> ->].
  simpl. destruct (String.eqb_spec (Objdiff.sortKey (Objdiff.state p)) key); by simpl.
Qed.

Lemma Renderer_handleDashboardSort_params key q :
  let q' := Renderer.handleDashboardSort numberToString key q in
  Renderer.dashboardSortKey (Renderer.state q') = key
  /\ Renderer.dashboardSortDirection (Renderer.state q')
     = if String.eqb (Renderer.dashboardSortKey (Renderer.state q)) key
       then opposite (Renderer.dashboardSortDirection (Renderer.state q))
       else asc.
Proof.
  simpl. rewrite Renderer_handleDashboardSort_state.
  destruct (Renderer_sortDashboardUnits_params
              (Renderer.mkPage
                 (let st := Renderer.state q in
                  if String.eqb (Renderer.dashboardSortKey st) key
                  then Renderer.mkState (Renderer.dashboardReport st)
                         (Renderer.dashboardExpandedRows st)
                         (Renderer.dashboardFilterQuery st) (Renderer.dashboardSortKey st)
                         (opposite (Renderer.dashboardSortDirection st))
                  else Renderer.mkState (Renderer.dashboardReport st)
                         (Renderer.dashboardExpandedRows st)
                         (Renderer.dashboardFilterQuery st) key asc)
                 (Renderer.dom q))) as [-> ->].
  simpl. destruct (String.eqb_spec (Renderer.dashboardSortKey (Renderer.state q)) key); by simpl.
Qed.

(** C1 (sort stability and toggle).  On a report whose [match_percent]
    values are numbers, on both surfaces: from the ascending order [p1],
    clicking the [match_percent] header again sorts descending, which is the
    exact reverse of [p1] when no two units share a value; one more click
    sorts ascending and restores [p1] exactly, shared values or not; and
    sorting again in the same direction changes nothing.  For every page and
    key, a click on a header sets that key; it flips the direction when the
    key was the current one (so two clicks on one key toggle it), and resets
    it to ascending otherwise. *)
Theorem sort_reverse_restore_toggle (r : Report) ex fq d ex' fq' d' :
  numbers (units r) = true ->
  let p1 := Objdiff.sortUnits
              (Objdiff.mkPage (Objdiff.mkState (Some r) ex fq "match_percent" asc) d) in
  let p2 := Objdiff.handleSort numberToString "match_percent" p1 in
  let p3 := Objdiff.handleSort numberToString "match_percent" p2 in
  let q1 := Renderer.sortDashboardUnits
              (Renderer.mkPage (Renderer.mkState (Some r) ex' fq' "match_percent" asc) d') in
  let q2 := Renderer.handleDashboardSort numberToString "match_percent" q1 in
  let q3 := Renderer.handleDashboardSort numberToString "match_percent" q2 in
  ((no_shared_match_percent (units r) = true ->
    Objdiff.current_units p2 = rev (Objdiff.current_units p1))
   /\ Objdiff.sortDirection (Objdiff.state p2) = desc
   /\ Objdiff.current_units p3 = Objdiff.current_units p1
   /\ Objdiff.sortDirection (Objdiff.state p3) = asc
   /\ Objdiff.sortUnits p1 = p1)
  /\ ((no_shared_match_percent (units r) = true ->
       Renderer.current_units q2 = rev (Renderer.current_units q1))
      /\ Renderer.dashboardSortDirection (Renderer.state q2) = desc
      /\ Renderer.current_units q3 = Renderer.current_units q1
      /\ Renderer.dashboardSortDirection (Renderer.state q3) = asc
      /\ Renderer.sortDashboardUnits q1 = q1)
  /\ (forall key p,
        let p' := Objdiff.handleSort numberToString key p in
        Objdiff.sortKey (Objdiff.state p') = key
        /\ Objdiff.sortDirection (Objdiff.state p')
           = (if String.eqb (Objdiff.sortKey (Objdiff.state p)) key
              then opposite (Objdiff.sortDirection (Objdiff.state p)) else asc)
        /\ Objdiff.sortDirection
             (Objdiff.state (Objdiff.handleSort numberToString key p'))
           = opposite (Objdiff.sortDirection (Objdiff.state p')))
  /\ (forall key q,
        let q' := Renderer.handleDashboardSort numberToString key q in
        Renderer.dashboardSortKey (Renderer.state q') = key
        /\ Renderer.dashboardSortDirection (Renderer.state q')
           = (if String.eqb (Renderer.dashboardSortKey (Renderer.state q)) key
              then opposite (Renderer.dashboardSortDirection (Renderer.state q)) else asc)
        /\ Renderer.dashboardSortDirection
             (Renderer.state (Renderer.handleDashboardSort numberToString key q'))
           = opposite (Renderer.dashboardSortDirection (Renderer.state q'))).
Proof.
  intros Hn p1 p2 p3 q1 q2 q3.
  assert (Hrev := sort_match_percent_rev (units r) Hn).
  assert (Hback :
    array_sort (compareUnits "match_percent" asc)
      (array_sort (compareUnits "match_percent" desc)
         (array_sort (compareUnits "match_percent" asc) (units r)))
    = array_sort (compareUnits "match_percent" asc) (units r)).
  { by rewrite (sort_match_percent_absorb desc asc _ Hn),
               (sort_match_percent_absorb asc desc _ Hn). }
  assert (Hidem := sort_match_percent_absorb asc asc (units r) Hn).
  split; [|split; [|split]].
  - unfold Objdiff.current_units. subst p3 p2.
    rewrite !Objdiff_handleSort_state. simpl.
    repeat split; try done.
    unfold Objdiff.sortUnits. simpl. unfold set_units. simpl. by rewrite Hidem.
  - unfold Renderer.current_units. subst q3 q2.
    rewrite !Renderer_handleDashboardSort_state. simpl.
    repeat split; try done.
    unfold Renderer.sortDashboardUnits. simpl. unfold set_units. simpl. by rewrite Hidem.
  - intros key p p'.
    destruct (Objdiff_handleSort_params key p) as [Hk Hd].
    destruct (Objdiff_handleSort_params key p') as [_ Hd'].
    fold p' in Hk, Hd. split; [done|]. split; [done|].
    rewrite Hd', Hk, String.eqb_refl. done.
  - intros key q q'.
    destruct (Renderer_handleDashboardSort_params key q) as [Hk Hd].
    destruct (Renderer_handleDashboardSort_params key q') as [_ Hd'].
    fold q' in Hk, Hd. split; [done|]. split; [done|].
    rewrite Hd', Hk, String.eqb_refl. done.
Qed.

(** C10 (a sort key that names no property).  When [key] is none of the
    properties of a unit, [a[key]] is [undefined] for every unit, the
    comparator returns 0 for every pair in either direction, and sorting
    (a total function: nothing is thrown) leaves every sequence of units in
    its order; so [sortUnits] and [sortDashboardUnits] leave the page as it
    is, and a click on such a header changes no order. *)
Theorem unknown_sort_key_no_op (key : string) :
  key <> "name" -> key <> "match_percent" -> key <> "symbols" ->
  (forall u, unit_prop key u = VUndefined)
  /\ (forall dir a b, compareUnits key dir a b = 0%Z)
  /\ (forall dir l, array_sort (compareUnits key dir) l = l)
  /\ (forall p, Objdiff.sortKey (Objdiff.state p) = key -> Objdiff.sortUnits p = p)
  /\ (forall q, Renderer.dashboardSortKey (Renderer.state q) = key ->
                Renderer.sortDashboardUnits q = q)
  /\ (forall p, Objdiff.current_units (Objdiff.handleSort numberToString key p)
                = Objdiff.current_units p)
  /\ (forall q, Renderer.current_units (Renderer.handleDashboardSort numberToString key q)
                = Renderer.current_units q).
Proof.
  intros H1 H2 H3.
  assert (Hu : forall u, unit_prop key u = VUndefined) by (intros; by apply unit_prop_other).
  assert (Hc : forall dir a b, compareUnits key dir a b = 0%Z)
    by (intros; by apply compareUnits_undefined).
  assert (Hs : forall dir l, array_sort (compareUnits key dir) l = l)
    by (intros; by apply sort_all_ties).
  split; [done|]. split; [done|]. split; [done|].
  split; [|split; [|split]].
  - intros [[[r|] ex fq k dir] d] Hk; [|done]. simpl in Hk. subst k.
    unfold Objdiff.sortUnits. simpl. rewrite Hs. by destruct r.
  - intros [[[r|] ex fq k dir] d] Hk; [|done]. simpl in Hk. subst k.
    unfold Renderer.sortDashboardUnits. simpl. rewrite Hs. by destruct r.
  - intros [[[r|] ex fq k dir] d]; unfold Objdiff.current_units;
      rewrite Objdiff_handleSort_state; simpl; [|by destruct (String.eqb k key)].
    destruct (String.eqb k key) eqn:E; unfold Objdiff.sortUnits; simpl; [|by rewrite Hs].
    apply String.eqb_eq in E. subst k. by rewrite Hs.
  - intros [[[r|] ex fq k dir] d]; unfold Renderer.current_units;
      rewrite Renderer_handleDashboardSort_state; simpl; [|by destruct (String.eqb k key)].
    destruct (String.eqb k key) eqn:E; unfold Renderer.sortDashboardUnits; simpl;
      [|by rewrite Hs].
    apply String.eqb_eq in E. subst k. by rewrite Hs.
Qed.

(** The unit rows of the table are the filtered units, in their order. *)
Lemma Objdiff_shown_units st r :
  shown_units (Objdiff.table_rows numberToString st r)
  = map Unit.name (Objdiff.filteredUnits st r).
Proof.
  unfold Objdiff.table_rows. induction (Objdiff.filteredUnits st r) as [|u l IH]; [done|].
  simpl. rewrite <- IH. unfold shown_units at 1. simpl.
  by destruct (_ && _).
Qed.

Lemma Renderer_shown_units st r :
  shown_units (Renderer.table_rows numberToString st r)
  = map Unit.name (Renderer.filteredUnits st r).
Proof.
  unfold Renderer.table_rows. induction (Renderer.filteredUnits st r) as [|u l IH]; [done|].
  simpl. rewrite <- IH. unfold shown_units at 1. simpl.
  by destruct (_ && _).
Qed.

(** C2 (filter correctness).  On a page that holds the report [r], after
    [query] was typed into the filter box, on both surfaces: the report and
    its units are as before; the unit rows of the table are the filtered
    units in their order; a unit is among them exactly when it is a unit of
    the report and the lower-case query occurs in its lower-case name; they
    are a subsequence of the units, in the same order; and the empty query
    keeps every unit. *)
Theorem filter_correct (r : Report) (query : string) ex fq key dir d ex' fq' key' dir' d' :
  let p := Objdiff.on_filterInput numberToString query
             (Objdiff.mkPage (Objdiff.mkState (Some r) ex fq key dir) d) in
  let q := Renderer.on_filterInput numberToString query
             (Renderer.mkPage (Renderer.mkState (Some r) ex' fq' key' dir') d') in
  (Objdiff.report (Objdiff.state p) = Some r
   /\ shown_units (tableBody (Objdiff.dom p))
      = map Unit.name (Objdiff.filteredUnits (Objdiff.state p) r)
   /\ (forall u, In u (Objdiff.filteredUnits (Objdiff.state p) r) <->
                 In u (units r)
                 /\ substring_of (toLowerCase query) (toLowerCase (Unit.name u)))
   /\ sublist (Objdiff.filteredUnits (Objdiff.state p) r) (units r)
   /\ (query = "" -> Objdiff.filteredUnits (Objdiff.state p) r = units r))
  /\ (Renderer.dashboardReport (Renderer.state q) = Some r
      /\ shown_units (tableBody (Renderer.dom q))
         = map Unit.name (Renderer.filteredUnits (Renderer.state q) r)
      /\ (forall u, In u (Renderer.filteredUnits (Renderer.state q) r) <->
                    In u (units r)
                    /\ substring_of (toLowerCase query) (toLowerCase (Unit.name u)))
      /\ sublist (Renderer.filteredUnits (Renderer.state q) r) (units r)
      /\ (query = "" -> Renderer.filteredUnits (Renderer.state q) r = units r)).
Proof.
  intros p q. split.
  - split; [done|]. split; [apply Objdiff_shown_units|].
    unfold Objdiff.filteredUnits. simpl. split; [|split].
    + intros u. by rewrite filter_In, includes_spec.
    + apply filter_sublist.
    + intros ->. apply filter_all. intros u. apply includes_empty.
  - split; [done|]. split; [apply Renderer_shown_units|].
    unfold Renderer.filteredUnits. simpl. split; [|split].
    + intros u. by rewrite filter_In, includes_spec.
    + apply filter_sublist.
    + intros ->. apply filter_all. intros u. apply includes_empty.
Qed.


(** C6 (mismatch classification).  For a unit whose [match_percent] is a
    fraction in [[0,1]]: its row is labelled "Matched" exactly when
    [match_percent] equals 1.0, and "Mismatch" for every other value.  A
    unit at 1.0 is not expandable, whatever its symbols and whatever the
    expansion set holds: its row does not carry the class [expandable], on
    either surface it contributes its own row and no details row, and a
    click on its row leaves the page as it is. *)
Theorem status_label_classification (u : Unit.t) :
  fraction (Unit.match_percent u) = true ->
  let row := unit_tr numberToString u in
  (td_status row = "Matched" <-> (Unit.match_percent u =? 1)%float = true)
  /\ ((Unit.match_percent u =? 1)%float = false -> td_status row = "Mismatch")
  /\ ((Unit.match_percent u =? 1)%float = true ->
      ("expandable" ∉ tr_class row)
      /\ (forall st, Objdiff.unit_rows numberToString st u = [UnitTr row])
      /\ (forall st, Renderer.unit_rows numberToString st u = [UnitTr row])
      /\ (forall p i, tableBody (Objdiff.dom p) !! i = Some (UnitTr row) ->
                      Objdiff.on_tableBody_click numberToString i p = p)
      /\ (forall q i, tableBody (Renderer.dom q) !! i = Some (UnitTr row) ->
                      Renderer.on_tableBody_click numberToString i q = q)).
Proof.
  intros [_ Hle]%andb_true_iff row.
  assert (Hrow : (Unit.match_percent u <? 1)%float = false -> tr_class row = []).
  { intros E. subst row. unfold unit_tr. simpl. by rewrite E. }
  split; [|split].
  - subst row. unfold unit_tr. simpl.
    destruct (Unit.match_percent u <? 1)%float eqn:E.
    + split; [done|]. intros He. apply float_eqb_not_ltb in He. congruence.
    + split; [|done]. intros _. by apply float_leb_not_ltb.
  - intros He. subst row. unfold unit_tr. simpl.
    destruct (Unit.match_percent u <? 1)%float eqn:E; [done|].
    rewrite (float_leb_not_ltb _ _ Hle E) in He. done.
  - intros He. apply float_eqb_not_ltb in He. specialize (Hrow He).
    split; [rewrite Hrow; apply not_elem_of_nil|].
    split; [|split; [|split]].
    + intros st. unfold Objdiff.unit_rows. by rewrite He.
    + intros st. unfold Renderer.unit_rows. by rewrite He.
    + intros p i Hi. unfold Objdiff.on_tableBody_click. rewrite Hi, Hrow. done.
    + intros q i Hi. unfold Renderer.on_tableBody_click. rewrite Hi, Hrow. done.
Qed.


(** A run that brings a report leaves no expansion and no filter behind. *)
Lemma Objdiff_run_report_clears r p :
  let p' := Objdiff.handleRunReport numberToString (report_result r) p in
  Objdiff.expandedRows (Objdiff.state p') = ∅
  /\ Objdiff.filterQuery (Objdiff.state p') = ""
  /\ filterInput_value (Objdiff.dom p') = "".
Proof. by destruct p as [[? ? ? ? ?] ?]. Qed.

Lemma Renderer_run_report_clears r q :
  let q' := Renderer.handleDashboardRunReport numberToString (report_result r) q in
  Renderer.dashboardExpandedRows (Renderer.state q') = ∅
  /\ Renderer.dashboardFilterQuery (Renderer.state q') = ""
  /\ filterInput_value (Renderer.dom q') = "".
Proof. by destruct q as [[? ? ? ? ?] ?]. Qed.

(** C7 (report replacement clears derived state).  After a first
    successful [runReport()], any sequence of further events (filter input,
    header clicks, row clicks, other runs) and a second successful
    [runReport()], the expansion set is empty, the filter query is the empty
    string and the filter box is empty, on both surfaces and from any page. *)
Theorem second_run_clears_view_state
    (p0 : Objdiff.Page) (q0 : Renderer.Page) (r1 r2 : Report)
    (events : list Objdiff.Event) (events' : list Renderer.Event) :
  let p := Objdiff.step numberToString
             (Objdiff.run numberToString events
                (Objdiff.step numberToString p0 (Objdiff.RunReport (report_result r1))))
             (Objdiff.RunReport (report_result r2)) in
  let q := Renderer.step numberToString
             (Renderer.run numberToString events'
                (Renderer.step numberToString q0 (Renderer.RunReport (report_result r1))))
             (Renderer.RunReport (report_result r2)) in
  (Objdiff.expandedRows (Objdiff.state p) = ∅
   /\ Objdiff.filterQuery (Objdiff.state p) = ""
   /\ filterInput_value (Objdiff.dom p) = "")
  /\ (Renderer.dashboardExpandedRows (Renderer.state q) = ∅
      /\ Renderer.dashboardFilterQuery (Renderer.state q) = ""
      /\ filterInput_value (Renderer.dom q) = "").
Proof.
  intros p q. split.
  - apply Objdiff_run_report_clears.
  - apply Renderer_run_report_clears.
Qed.


(** Every error that the handler returns is a non-empty message. *)
Lemma handler_error_truthy env e :
  run_report_handler env = HError e -> truthy_string (Some e) = true.
Proof.
  unfold run_report_handler.
  destruct (truthy_string (store_projectPath env)); simpl; [|by intros [= <-]].
  destruct (resolveToolchainPaths env) as [m|objdiff]; simpl; [by intros [= <-]|].
  destruct (truthy_string objdiff); simpl; [|by intros [= <-]].
  destruct (buildEnvFromPaths env) as [m|[]]; simpl; [by intros [= <-]|].
  destruct (bool_decide _); simpl; [|by intros [= <-]].
  destruct (JSON_parse env) as [m|v]; simpl; [by intros [= <-]|done].
Qed.

(** What a run that ends in an error leaves: the error view, and the state
    as it was. *)
Lemma Objdiff_error_view e rep p :
  truthy_string (Some e) = true ->
  let p' := Objdiff.handleRunReport numberToString (mkRunResult (Some e) rep) p in
  Objdiff.state p' = Objdiff.state p
  /\ reportPlaceholder_hidden (Objdiff.dom p') = false
  /\ reportPlaceholder_text (Objdiff.dom p') = "Error: " ++ e
  /\ summarySection_hidden (Objdiff.dom p') = true
  /\ resultsTable_hidden (Objdiff.dom p') = true
  /\ controlsSection_hidden (Objdiff.dom p') = true.
Proof.
  intros He. unfold Objdiff.handleRunReport, Objdiff.handleRunReport_try.
  cbn [res_error]. rewrite He. done.
Qed.

Lemma Renderer_error_view e rep q :
  truthy_string (Some e) = true ->
  let q' := Renderer.handleDashboardRunReport numberToString (mkRunResult (Some e) rep) q in
  Renderer.state q' = Renderer.state q
  /\ reportPlaceholder_hidden (Renderer.dom q') = false
  /\ reportPlaceholder_text (Renderer.dom q') = "Error: " ++ e
  /\ summarySection_hidden (Renderer.dom q') = true
  /\ resultsTable_hidden (Renderer.dom q') = true.
Proof.
  intros He. unfold Renderer.handleDashboardRunReport, Renderer.handleDashboardRunReport_try.
  cbn [res_error]. rewrite He. done.
Qed.

(** C9 (error scenario).  When the project path is set, the tool was found
    and its run ends with an exit code other than 0 (1, say, or none because
    a signal ended it), the handler returns the error "objdiff-cli command
    failed."; the renderer receives it as [result.error]; and on both
    surfaces the placeholder is shown with the text "Error: objdiff-cli
    command failed." while the summary and the table are hidden. *)
Theorem nonzero_exit_error_view
    (project tool out : string) (exitCode : option Z) (parse : Outcome json)
    (p : Objdiff.Page) (q : Renderer.Page) :
  project <> "" -> tool <> "" -> exitCode <> Some 0%Z ->
  let env := tool_ran project tool exitCode out parse in
  let result := mkRunResult (Some "objdiff-cli command failed.") None in
  let p' := Objdiff.handleRunReport numberToString result p in
  let q' := Renderer.handleDashboardRunReport numberToString result q in
  run_report_handler env = HError "objdiff-cli command failed."
  /\ run_result (run_report_handler env) = Some result
  /\ (reportPlaceholder_hidden (Objdiff.dom p') = false
      /\ reportPlaceholder_text (Objdiff.dom p') = "Error: objdiff-cli command failed."
      /\ summarySection_hidden (Objdiff.dom p') = true
      /\ resultsTable_hidden (Objdiff.dom p') = true)
  /\ (reportPlaceholder_hidden (Renderer.dom q') = false
      /\ reportPlaceholder_text (Renderer.dom q') = "Error: objdiff-cli command failed."
      /\ summarySection_hidden (Renderer.dom q') = true
      /\ resultsTable_hidden (Renderer.dom q') = true).
Proof.
  intros Hp Ht Hx env result p' q'.
  assert (He : run_report_handler env = HError "objdiff-cli command failed.").
  { unfold run_report_handler, env, tool_ran. cbn.
    apply String.eqb_neq in Hp, Ht. rewrite Hp, Ht. cbn.
    by rewrite bool_decide_eq_false_2. }
  split; [done|]. split; [by rewrite He|].
  split.
  - by destruct (Objdiff_error_view "objdiff-cli command failed." None p eq_refl)
      as (_ & ? & ? & ? & ? & _).
  - by destruct (Renderer_error_view "objdiff-cli command failed." None q eq_refl)
      as (_ & ? & ? & ? & ?).
Qed.

(** C3, as the code has it.  Whenever the handler returns an error (the
    tool not configured, its run failed, or its output not parsed), on both
    surfaces: the placeholder is shown with the text "Error: " and the
    message, the summary and the table are hidden (on the standalone page
    the controls too), and [state] is what it was before the call: a report
    acquired earlier stays in [state.report], out of sight, and is not
    discarded. *)
Theorem failed_run_error_view
    (env : HandlerEnv) (e : string) (p : Objdiff.Page) (q : Renderer.Page) :
  run_report_handler env = HError e ->
  let result := mkRunResult (Some e) None in
  let p' := Objdiff.handleRunReport numberToString result p in
  let q' := Renderer.handleDashboardRunReport numberToString result q in
  run_result (run_report_handler env) = Some result
  /\ (Objdiff.state p' = Objdiff.state p
      /\ reportPlaceholder_hidden (Objdiff.dom p') = false
      /\ reportPlaceholder_text (Objdiff.dom p') = "Error: " ++ e
      /\ summarySection_hidden (Objdiff.dom p') = true
      /\ resultsTable_hidden (Objdiff.dom p') = true
      /\ controlsSection_hidden (Objdiff.dom p') = true)
  /\ (Renderer.state q' = Renderer.state q
      /\ reportPlaceholder_hidden (Renderer.dom q') = false
      /\ reportPlaceholder_text (Renderer.dom q') = "Error: " ++ e
      /\ summarySection_hidden (Renderer.dom q') = true
      /\ resultsTable_hidden (Renderer.dom q') = true).
Proof.
  intros He result p' q'. pose proof (handler_error_truthy env e He) as Ht.
  split; [by rewrite He|]. split.
  - by apply Objdiff_error_view.
  - by apply Renderer_error_view.
Qed.


(** The standalone page turns a result without a report into an error. *)
Lemma Objdiff_no_report_view p :
  let p' := Objdiff.handleRunReport numberToString (mkRunResult None None) p in
  Objdiff.state p' = Objdiff.state p
  /\ reportPlaceholder_hidden (Objdiff.dom p') = false
  /\ reportPlaceholder_text (Objdiff.dom p')
     = "Error: The objdiff command did not return a valid report."
  /\ summarySection_hidden (Objdiff.dom p') = true
  /\ resultsTable_hidden (Objdiff.dom p') = true.
Proof. done. Qed.

(** C4, as the code has it.  When the tool ran and exited with 0, the
    handler fails exactly when [JSON.parse] throws, with the message "Failed
    to run or parse report: " and the parser's; whatever value the output
    parses to is returned as the report, of the documented shape or not:
    nothing is validated.  A falsy value reaches the renderer as a result
    without a report, and the standalone page then shows the error "The
    objdiff command did not return a valid report." *)
Theorem report_not_validated
    (project tool out : string) (parse : Outcome json) (p : Objdiff.Page) :
  project <> "" -> tool <> "" ->
  let env := tool_ran project tool (Some 0%Z) out parse in
  (forall m, parse = Throws m ->
             run_report_handler env = HError ("Failed to run or parse report: " ++ m))
  /\ (forall v, parse = Returns v -> run_report_handler env = HReport v)
  /\ (forall v, truthy v = false -> run_result (HReport v) = Some (mkRunResult None None))
  /\ (let p' := Objdiff.handleRunReport numberToString (mkRunResult None None) p in
      reportPlaceholder_hidden (Objdiff.dom p') = false
      /\ reportPlaceholder_text (Objdiff.dom p')
         = "Error: The objdiff command did not return a valid report."
      /\ summarySection_hidden (Objdiff.dom p') = true
      /\ resultsTable_hidden (Objdiff.dom p') = true).
Proof.
  intros Hp Ht env.
  assert (Hrun : run_report_handler env =
                 match parse with
                 | Throws m => HError ("Failed to run or parse report: " ++ m)
                 | Returns v => HReport v
                 end).
  { unfold run_report_handler, env, tool_ran. cbn.
    apply String.eqb_neq in Hp, Ht. rewrite Hp, Ht. cbn. by destruct parse. }
  split; [by intros m ->|]. split; [by intros v ->|].
  split; [intros v Hv; unfold run_result; by rewrite Hv|].
  by destruct (Objdiff_no_report_view p) as (_ & ? & ? & ? & ?).
Qed.

(** The dashboard's details row is the same whatever the byte sizes are. *)
Lemma Renderer_details_ignore_sizes u :
  Renderer.details_tr numberToString u
  = Renderer.details_tr numberToString (without_sizes u).
Proof.
  unfold Renderer.details_tr, without_sizes. simpl. f_equal.
  induction (Unit.symbols u) as [|s l IH]; simpl; [done|].
  destruct (Symbol.match_percent s <? 1)%float; simpl; by rewrite IH.
Qed.

(** Both surfaces list the symbols below 1.0, one item each, by name. *)
Lemma details_items_mismatched u :
  let mismatched :=
    List.filter (fun s => (Symbol.match_percent s <? 1)%float) (Unit.symbols u) in
  (exists items, Objdiff.renderDetailsRow numberToString u = DetailsTr items
                 /\ map li_strong items = map Symbol.name mismatched)
  /\ (exists items, Renderer.details_tr numberToString u = DetailsTr items
                    /\ map li_strong items = map Symbol.name mismatched).
Proof.
  split; eexists; (split; [reflexivity|]); by rewrite map_map.
Qed.

(** C5, at the input where the dashboard departs from it.  With the report
    of the scenario loaded and [b.o] expanded, the standalone page lists
    [fn1] with " - 0.00% (100 / 120 bytes)", and the dashboard lists it with
    " - 0.00%": one item for the one symbol below 1.0 on both, but no
    [base_size] and no [target_size] on the dashboard, whose details row
    does not depend on the sizes at all. *)
Theorem dashboard_details_without_sizes (d d' : Dom) :
  let p := Objdiff.on_tableBody_click numberToString 0
             (Objdiff.handleRunReport numberToString (report_result scenario_report)
                (Objdiff.loaded numberToString d)) in
  let q := Renderer.on_tableBody_click numberToString 0
             (Renderer.handleDashboardRunReport numberToString (report_result scenario_report)
                (Renderer.mkPage Renderer.state0 d')) in
  tableBody (Objdiff.dom p) !! 1%nat
    = Some (DetailsTr [mkDetailItem "fn1" " - 0.00% (100 / 120 bytes)"])
  /\ tableBody (Renderer.dom q) !! 1%nat = Some (DetailsTr [mkDetailItem "fn1" " - 0.00%"])
  /\ includes " - 0.00%" "100" = false
  /\ includes " - 0.00%" "120" = false
  /\ (forall u, Renderer.details_tr numberToString u
                = Renderer.details_tr numberToString (without_sizes u)).
Proof.
  intros p q. split; [by vm_compute|]. split; [by vm_compute|].
  split; [by vm_compute|]. split; [by vm_compute|].
  apply Renderer_details_ignore_sizes.
Qed.

(** C8 (the concrete scenario), on the standalone page as the script
    starts it: the report is loaded under the default sort, [match_percent]
    ascending.  The summary shows "50.00%" and "1 / 2"; the table has the
    row of [b.o] before the row of [a.o]; the row of [a.o] is not
    expandable and a click on it changes nothing; a click on the row of
    [b.o] adds one details row under it, with the single item [fn1],
    0.00%, 100 / 120 bytes: [fn2] is left out. *)
Theorem scenario_two_units (d : Dom) :
  let p := Objdiff.handleRunReport numberToString (report_result scenario_report)
             (Objdiff.loaded numberToString d) in
  let b_row := mkUnitRow ["mismatch-row"; "expandable"] "b.o" "b.o" "25.00%"
                 "status-mismatch" "Mismatch" in
  let a_row := mkUnitRow [] "a.o" "a.o" "100.00%" "status-matched" "Matched" in
  Objdiff.sortKey (Objdiff.state p) = "match_percent"
  /\ Objdiff.sortDirection (Objdiff.state p) = asc
  /\ overallProgress_text (Objdiff.dom p) = "50.00%"
  /\ matchedObjects_text (Objdiff.dom p) = "1 / 2"
  /\ summarySection_hidden (Objdiff.dom p) = false
  /\ resultsTable_hidden (Objdiff.dom p) = false
  /\ tableBody (Objdiff.dom p) = [UnitTr b_row; UnitTr a_row]
  /\ Objdiff.on_tableBody_click numberToString 1 p = p
  /\ tableBody (Objdiff.dom (Objdiff.on_tableBody_click numberToString 0 p))
     = [ UnitTr b_row;
         DetailsTr [mkDetailItem "fn1" " - 0.00% (100 / 120 bytes)"];
         UnitTr a_row ].
Proof.
  intros p b_row a_row.
  repeat (split; [by vm_compute|]). by vm_compute.
Qed.


End Pages.

(** ** Instances and counterexamples *)

(** C1 at the report of the scenario: no value is shared, and the click
    reverses the ascending order. *)
Lemma sort_reverse_restore_toggle_witness :
  numbers (units scenario_report) = true
  /\ let p1 := Objdiff.sortUnits
                 (Objdiff.mkPage
                    (Objdiff.mkState (Some scenario_report) ∅ "" "match_percent" asc)
                    blank_document) in
     Objdiff.current_units (Objdiff.handleSort no_digits "match_percent" p1)
     = rev (Objdiff.current_units p1).
Proof.
  split; [reflexivity|].
  exact (proj1 (proj1 (sort_reverse_restore_toggle no_digits scenario_report
                         ∅ "" blank_document ∅ "" blank_document eq_refl)) eq_refl).
Defined.

(** C10 at the key "size". *)
Lemma unknown_sort_key_no_op_witness :
  ("size" <> "name" /\ "size" <> "match_percent" /\ "size" <> "symbols")
  /\ array_sort (compareUnits "size" desc) (units scenario_report) = units scenario_report.
Proof.
  assert (H1 : "size" <> "name") by discriminate.
  assert (H2 : "size" <> "match_percent") by discriminate.
  assert (H3 : "size" <> "symbols") by discriminate.
  split; [by repeat split|].
  exact (proj1 (proj2 (proj2 (unknown_sort_key_no_op no_digits "size" H1 H2 H3)))
           desc (units scenario_report)).
Defined.

(** C6 at the unit [b.o] of the scenario, at 0.25. *)
Lemma status_label_classification_witness :
  fraction 0.25 = true
  /\ td_status (unit_tr no_digits (Unit.mk "b.o" 0.25 [])) = "Mismatch".
Proof.
  split; [reflexivity|].
  exact (proj1 (proj2 (status_label_classification no_digits (Unit.mk "b.o" 0.25 []) eq_refl))
           eq_refl).
Defined.

(** C9 at exit code 1. *)
Lemma nonzero_exit_error_view_witness :
  ("C:/melee-project" <> "" /\ "objdiff-cli.exe" <> "" /\ Some 1%Z <> Some 0%Z)
  /\ run_report_handler
       (tool_ran "C:/melee-project" "objdiff-cli.exe" (Some 1%Z) ""
          (Throws "Unexpected end of JSON input"))
     = HError "objdiff-cli command failed.".
Proof.
  assert (H1 : "C:/melee-project" <> "") by discriminate.
  assert (H2 : "objdiff-cli.exe" <> "") by discriminate.
  assert (H3 : Some 1%Z <> Some 0%Z) by discriminate.
  split; [by repeat split|].
  exact (proj1 (nonzero_exit_error_view no_digits "C:/melee-project" "objdiff-cli.exe" ""
                  (Some 1%Z) (Throws "Unexpected end of JSON input")
                  (Objdiff.loaded no_digits blank_document)
                  (Renderer.mkPage Renderer.state0 blank_document) H1 H2 H3)).
Defined.

(** C3 as amended, at a run that exits with 1 after the report of the
    scenario was loaded. *)
Lemma failed_run_error_view_witness :
  let env := tool_ran "C:/melee-project" "objdiff-cli.exe" (Some 1%Z) ""
               (Throws "Unexpected end of JSON input") in
  let result := mkRunResult (Some "objdiff-cli command failed.") None in
  let p := Objdiff.handleRunReport no_digits (report_result scenario_report)
             (Objdiff.loaded no_digits blank_document) in
  run_report_handler env = HError "objdiff-cli command failed."
  /\ Objdiff.state (Objdiff.handleRunReport no_digits result p) = Objdiff.state p.
Proof.
  intros env result p. split; [reflexivity|].
  exact (proj1 (proj1 (proj2 (failed_run_error_view no_digits env
                                "objdiff-cli command failed." p
                                (Renderer.mkPage Renderer.state0 blank_document) eq_refl)))).
Defined.

(** C3 as stated fails: after a run that failed, the report loaded before
    is still held by [state], with its units, on both surfaces. *)
Lemma failed_run_keeps_report :
  let result := mkRunResult (Some "objdiff-cli command failed.") None in
  let p := Objdiff.handleRunReport no_digits (report_result scenario_report)
             (Objdiff.loaded no_digits blank_document) in
  let q := Renderer.handleDashboardRunReport no_digits (report_result scenario_report)
             (Renderer.mkPage Renderer.state0 blank_document) in
  run_result
    (run_report_handler
       (tool_ran "C:/melee-project" "objdiff-cli.exe" (Some 1%Z) ""
          (Throws "Unexpected end of JSON input")))
  = Some result
  /\ Objdiff.report (Objdiff.state (Objdiff.handleRunReport no_digits result p)) <> None
  /\ map Unit.name (Objdiff.current_units (Objdiff.handleRunReport no_digits result p))
     = ["b.o"; "a.o"]
  /\ Renderer.dashboardReport
       (Renderer.state (Renderer.handleDashboardRunReport no_digits result q)) <> None
  /\ map Unit.name
       (Renderer.current_units (Renderer.handleDashboardRunReport no_digits result q))
     = ["b.o"; "a.o"].
Proof. by vm_compute. Qed.

(** C4 at a tool that ran, exited with 0 and printed the empty object. *)
Lemma report_not_validated_witness :
  ("C:/melee-project" <> "" /\ "objdiff-cli.exe" <> "")
  /\ run_report_handler
       (tool_ran "C:/melee-project" "objdiff-cli.exe" (Some 0%Z) "{}" (Returns (JObject [])))
     = HReport (JObject []).
Proof.
  assert (H1 : "C:/melee-project" <> "") by discriminate.
  assert (H2 : "objdiff-cli.exe" <> "") by discriminate.
  split; [by split|].
  exact (proj1 (proj2 (report_not_validated no_digits "C:/melee-project" "objdiff-cli.exe" "{}"
                         (Returns (JObject [])) (Objdiff.loaded no_digits blank_document)
                         H1 H2))
           (JObject []) eq_refl).
Defined.

(** C4 as stated fails: output that is valid JSON but not a report (no
    [units]; or [units] of the wrong type) is returned as the report, and is
    truthy, so that the standalone page accepts it as well. *)
Lemma malformed_report_accepted :
  let no_units := JObject [] in
  let wrong_type :=
    JObject [ ("total_progress", JNumber 0.5); ("matched_objects", JNumber 1);
              ("total_objects", JNumber 2); ("units", JString "none") ] in
  let wrong_type_text :=
    "{" ++ quoted "total_progress" ++ ":0.5," ++ quoted "matched_objects" ++ ":1,"
        ++ quoted "total_objects" ++ ":2," ++ quoted "units" ++ ":" ++ quoted "none" ++ "}" in
  let env out v := tool_ran "C:/melee-project" "objdiff-cli.exe" (Some 0%Z) out (Returns v) in
  (report_of_json no_units = None
   /\ run_report_handler (env "{}" no_units) = HReport no_units
   /\ truthy no_units = true)
  /\ (report_of_json wrong_type = None
      /\ run_report_handler (env wrong_type_text wrong_type) = HReport wrong_type
      /\ truthy wrong_type = true).
Proof. by vm_compute. Qed.

(** * More properties of the report pages *)

(** ** More on [Array.prototype.sort] *)

Section SortOrder.
Context {A : Type} (c : A -> A -> Z) (ok : A -> Prop).
Local Open Scope Z_scope.
Local Open Scope list_scope.
Hypothesis c_total : forall x y, ok x -> ok y -> c x y > 0 -> c y x <= 0.
Hypothesis c_trans : forall x y z, ok x -> ok y -> ok z ->
  c x y <= 0 -> c y z <= 0 -> c x z <= 0.

Lemma sort_insert_ordered x l :
  ok x -> Forall ok l -> StronglySorted (fun a b => c a b <= 0) l ->
  StronglySorted (fun a b => c a b <= 0) (sort_insert c x l).
Proof using c_total c_trans.
  intros Hx Hl Hs. induction Hs as [|y l Hs IH Hy]; simpl.
  - repeat constructor.
  - apply Forall_cons in Hl as [Hoy Hl].
    destruct (Z.leb_spec (c x y) 0) as [Hxy|Hxy].
    + constructor; [by constructor|]. constructor; [done|].
      rewrite Forall_forall in Hy, Hl |- *. intros z Hz. eauto.
    + constructor; [by apply IH|].
      rewrite sort_insert_perm. constructor; [|done]. apply c_total; [done..|lia].
Qed.

(** For a total and transitive comparator the result is in order. *)
Lemma array_sort_ordered l :
  Forall ok l -> StronglySorted (fun a b => c a b <= 0) (array_sort c l).
Proof using c_total c_trans.
  induction 1 as [|x l Hx Hl IH]; simpl; [constructor|].
  apply sort_insert_ordered; [done| |done]. by rewrite array_sort_perm.
Qed.
End SortOrder.

Section SortStable.
Context {A : Type} (c : A -> A -> Z) (P : A -> bool).
Local Open Scope Z_scope.
Local Open Scope list_scope.
(** The elements that [P] picks tie with each other. *)
Hypothesis P_tie : forall x y, P x = true -> P y = true -> c x y <= 0.

Lemma sort_insert_stable x l :
  List.filter P (sort_insert c x l) = List.filter P (x :: l).
Proof using P_tie.
  induction l as [|y l IH]; [done|]. simpl.
  destruct (Z.leb_spec (c x y) 0) as [Hxy|Hxy]; [done|].
  simpl in *. rewrite IH.
  destruct (P x) eqn:Ex, (P y) eqn:Ey; try done.
  specialize (P_tie x y Ex Ey). lia.
Qed.

(** The sort is stable: what [P] picks keeps its order. *)
Lemma array_sort_stable_filter l :
  List.filter P (array_sort c l) = List.filter P l.
Proof using P_tie.
  induction l as [|x l IH]; [done|]. simpl.
  rewrite sort_insert_stable. simpl. by rewrite IH.
Qed.
End SortStable.

(** ** The order of strings *)

Lemma ascii_compare_lt_trans a b c :
  Ascii.compare a b = Lt -> Ascii.compare b c = Lt -> Ascii.compare a c = Lt.
Proof. unfold Ascii.compare. rewrite !N.compare_lt_iff. lia. Qed.

Lemma string_compare_lt_trans s t u :
  String.compare s t = Lt -> String.compare t u = Lt -> String.compare s u = Lt.
Proof.
  revert t u. induction s as [|a s IH]; intros [|b t] [|c u]; simpl; try done.
  destruct (Ascii.compare a b) eqn:Eab; [|by
    destruct (Ascii.compare b c) eqn:Ebc; try done;
    [apply Ascii.compare_eq_iff in Ebc as <-; rewrite Eab
    |rewrite (ascii_compare_lt_trans _ _ _ Eab Ebc)]|done].
  apply Ascii.compare_eq_iff in Eab as <-.
  destruct (Ascii.compare a c); eauto.
Qed.

Lemma string_compare_refl s : String.compare s s = Eq.
Proof.
  pose proof (String.compare_antisym s s) as H.
  by destruct (String.compare s s).
Qed.


Lemma string_ltb_asym s t : String.ltb s t = true -> String.ltb t s = false.
Proof.
  unfold String.ltb. rewrite (String.compare_antisym t s).
  by destruct (String.compare s t).
Qed.

Lemma string_nlt_trans s t u :
  String.ltb t s = false -> String.ltb u t = false -> String.ltb u s = false.
Proof.
  unfold String.ltb. intros H1 H2.
  destruct (String.compare u s) eqn:E; try done. exfalso.
  destruct (String.compare t s) eqn:E1; try done;
    destruct (String.compare u t) eqn:E2; try done.
  - apply String.compare_eq_iff in E1, E2. subst. by rewrite string_compare_refl in E.
  - apply String.compare_eq_iff in E1. subst. congruence.
  - apply String.compare_eq_iff in E2. subst. congruence.
  - rewrite String.compare_antisym in E1, E2.
    destruct (String.compare s t) eqn:F1; try done.
    destruct (String.compare t u) eqn:F2; try done.
    pose proof (string_compare_lt_trans _ _ _ F1 F2) as F.
    rewrite String.compare_antisym, F in E. done.
Qed.

(** ** The comparator on [name] *)

Lemma compareUnits_name dir a b :
  compareUnits "name" dir a b =
  (if String.ltb (Unit.name a) (Unit.name b) then match dir with asc => -1 | desc => 1 end
   else if String.ltb (Unit.name b) (Unit.name a) then match dir with asc => 1 | desc => -1 end
   else 0)%Z.
Proof. reflexivity. Qed.

Lemma compareUnits_name_above dir a b :
  (compareUnits "name" dir a b > 0)%Z <->
  match dir with
  | asc => String.ltb (Unit.name b) (Unit.name a)
  | desc => String.ltb (Unit.name a) (Unit.name b)
  end = true.
Proof.
  rewrite compareUnits_name.
  destruct (String.ltb (Unit.name a) (Unit.name b)) eqn:E1,
           (String.ltb (Unit.name b) (Unit.name a)) eqn:E2, dir;
    try (apply string_ltb_asym in E1; congruence); split; (lia || done).
Qed.

Lemma compareUnits_name_not_above dir a b :
  (compareUnits "name" dir a b <= 0)%Z <->
  match dir with
  | asc => String.ltb (Unit.name b) (Unit.name a)
  | desc => String.ltb (Unit.name a) (Unit.name b)
  end = false.
Proof.
  pose proof (compareUnits_name_above dir a b) as H.
  destruct dir, (String.ltb (Unit.name b) (Unit.name a)),
    (String.ltb (Unit.name a) (Unit.name b)); split; intros; try done; try lia;
    exfalso; (assert (true = true) as T by done; apply H in T; lia).
Qed.

Lemma sort_match_percent_ordered dir l :
  numbers l = true ->
  StronglySorted (in_order match_percent_lt dir)
    (array_sort (compareUnits "match_percent" dir) l).
Proof.
  intros Hn.
  eapply StronglySorted_impl;
    [|apply (array_sort_ordered (compareUnits "match_percent" dir) number);
      [| |by apply numbers_Forall]].
  - intros x y H. apply compareUnits_not_above in H. by destruct dir.
  - intros x y _ _ H. apply compareUnits_above in H. apply compareUnits_not_above.
    destruct dir; by apply float_ltb_asym.
  - apply compareUnits_trans.
Qed.

Lemma sort_name_ordered dir l :
  StronglySorted (in_order name_lt dir) (array_sort (compareUnits "name" dir) l).
Proof.
  eapply StronglySorted_impl;
    [|apply (array_sort_ordered (compareUnits "name" dir) (fun _ => True));
      [| |by apply Forall_forall]].
  - intros x y H. apply compareUnits_name_not_above in H. by destruct dir.
  - intros x y _ _ H. apply compareUnits_name_above in H. apply compareUnits_name_not_above.
    destruct dir; by apply string_ltb_asym.
  - intros x y z _ _ _. rewrite !compareUnits_name_not_above.
    destruct dir; eauto using string_nlt_trans.
Qed.





Section MorePages.
Variable nts : float -> string.

Lemma Objdiff_handleSort_units key p :
  let p' := Objdiff.handleSort nts key p in
  Objdiff.current_units p'
  = array_sort (compareUnits key (Objdiff.sortDirection (Objdiff.state p')))
      (Objdiff.current_units p)
  /\ Objdiff.expandedRows (Objdiff.state p') = Objdiff.expandedRows (Objdiff.state p)
  /\ Objdiff.filterQuery (Objdiff.state p') = Objdiff.filterQuery (Objdiff.state p)
  /\ report_totals <$> Objdiff.report (Objdiff.state p')
     = report_totals <$> Objdiff.report (Objdiff.state p).
Proof.
  simpl. unfold Objdiff.current_units. rewrite Objdiff_handleSort_state.
  destruct p as [[[r|] ex fq k dir] d]; simpl;
    destruct (String.eqb_spec k key) as [->|]; done.
Qed.

Lemma Renderer_handleDashboardSort_units key q :
  let q' := Renderer.handleDashboardSort nts key q in
  Renderer.current_units q'
  = array_sort (compareUnits key (Renderer.dashboardSortDirection (Renderer.state q')))
      (Renderer.current_units q)
  /\ Renderer.dashboardExpandedRows (Renderer.state q')
     = Renderer.dashboardExpandedRows (Renderer.state q)
  /\ Renderer.dashboardFilterQuery (Renderer.state q')
     = Renderer.dashboardFilterQuery (Renderer.state q)
  /\ report_totals <$> Renderer.dashboardReport (Renderer.state q')
     = report_totals <$> Renderer.dashboardReport (Renderer.state q).
Proof.
  simpl. unfold Renderer.current_units. rewrite Renderer_handleDashboardSort_state.
  destruct q as [[[r|] ex fq k dir] d]; simpl;
    destruct (String.eqb_spec k key) as [->|]; done.
Qed.

(** X1.  A click on a sortable header, whatever its key, rearranges the
    units of the report and changes nothing else of it: on both surfaces the
    units after [handleSort] are a permutation of the units before, and the
    expanded rows, the filter query and the totals of the report are as they
    were.  (The units' [match_percent] are numbers, so that the comparator
    is consistent.) *)
Theorem sort_permutes_units (key : string) (p : Objdiff.Page) (q : Renderer.Page) :
  numbers (Objdiff.current_units p) = true ->
  numbers (Renderer.current_units q) = true ->
  let p' := Objdiff.handleSort nts key p in
  let q' := Renderer.handleDashboardSort nts key q in
  (Objdiff.current_units p' ≡ₚ Objdiff.current_units p
   /\ Objdiff.expandedRows (Objdiff.state p') = Objdiff.expandedRows (Objdiff.state p)
   /\ Objdiff.filterQuery (Objdiff.state p') = Objdiff.filterQuery (Objdiff.state p)
   /\ report_totals <$> Objdiff.report (Objdiff.state p')
      = report_totals <$> Objdiff.report (Objdiff.state p))
  /\ (Renderer.current_units q' ≡ₚ Renderer.current_units q
      /\ Renderer.dashboardExpandedRows (Renderer.state q')
         = Renderer.dashboardExpandedRows (Renderer.state q)
      /\ Renderer.dashboardFilterQuery (Renderer.state q')
         = Renderer.dashboardFilterQuery (Renderer.state q)
      /\ report_totals <$> Renderer.dashboardReport (Renderer.state q')
         = report_totals <$> Renderer.dashboardReport (Renderer.state q)).
Proof.
  intros _ _ p' q'.
  destruct (Objdiff_handleSort_units key p) as (Hu & ? & ? & ?).
  destruct (Renderer_handleDashboardSort_units key q) as (Hu' & ? & ? & ?).
  fold p' in Hu. fold q' in Hu'.
  split; (split; [|done]).
  - rewrite Hu. apply array_sort_perm.
  - rewrite Hu'. apply array_sort_perm.
Qed.

(** X2.  After a click on the header of [match_percent] the units are in
    the order of the direction that [state] then holds, on both surfaces:
    ascending, no unit is followed (at any distance) by one with a smaller
    value; descending, by none with a greater one.  The values are numbers,
    not NaN. *)
Theorem match_percent_click_orders (p : Objdiff.Page) (q : Renderer.Page) :
  numbers (Objdiff.current_units p) = true ->
  numbers (Renderer.current_units q) = true ->
  let p' := Objdiff.handleSort nts "match_percent" p in
  let q' := Renderer.handleDashboardSort nts "match_percent" q in
  StronglySorted (in_order match_percent_lt (Objdiff.sortDirection (Objdiff.state p')))
    (Objdiff.current_units p')
  /\ StronglySorted
       (in_order match_percent_lt (Renderer.dashboardSortDirection (Renderer.state q')))
       (Renderer.current_units q').
Proof.
  intros Hp Hq p' q'.
  destruct (Objdiff_handleSort_units "match_percent" p) as (Hu & _).
  destruct (Renderer_handleDashboardSort_units "match_percent" q) as (Hu' & _).
  fold p' in Hu. fold q' in Hu'. rewrite Hu, Hu'.
  split; by apply sort_match_percent_ordered.
Qed.

(** X3.  After a click on the header of [name] the units are in the order
    of the direction that [state] then holds, on both surfaces, names
    compared by code units: ascending, no unit is followed by one whose name
    is smaller; descending, by none whose name is greater. *)
Theorem name_click_orders (p : Objdiff.Page) (q : Renderer.Page) :
  let p' := Objdiff.handleSort nts "name" p in
  let q' := Renderer.handleDashboardSort nts "name" q in
  StronglySorted (in_order name_lt (Objdiff.sortDirection (Objdiff.state p')))
    (Objdiff.current_units p')
  /\ StronglySorted (in_order name_lt (Renderer.dashboardSortDirection (Renderer.state q')))
       (Renderer.current_units q').
Proof.
  intros p' q'.
  destruct (Objdiff_handleSort_units "name" p) as (Hu & _).
  destruct (Renderer_handleDashboardSort_units "name" q) as (Hu' & _).
  fold p' in Hu. fold q' in Hu'. rewrite Hu, Hu'.
  split; by apply sort_name_ordered.
Qed.


End MorePages.

(** ** Expansion *)

Lemma toggle_member_self x s : x ∈ toggle_member x s <-> x ∉ s.
Proof.
  unfold toggle_member. destruct (decide (x ∈ s)).
  - rewrite bool_decide_eq_true_2, elem_of_difference, elem_of_singleton by done. tauto.
  - rewrite bool_decide_eq_false_2, elem_of_union, elem_of_singleton by done. tauto.
Qed.

Lemma toggle_member_other x n s : n <> x -> n ∈ toggle_member x s <-> n ∈ s.
Proof.
  intros Hn. unfold toggle_member. destruct (decide (x ∈ s)).
  - rewrite bool_decide_eq_true_2, elem_of_difference, elem_of_singleton by done. tauto.
  - rewrite bool_decide_eq_false_2, elem_of_union, elem_of_singleton by done. tauto.
Qed.

Section Expansion.
Variable nts : float -> string.

(** X5.  A click inside an expandable row toggles the expansion of that
    row's unit and of no other: the name of the row is expanded afterwards
    exactly when it was not before, every other name is expanded exactly
    when it was, and the report, the filter query and the sort are
    untouched; on both surfaces. *)
Theorem row_click_toggles_one_name
    (p : Objdiff.Page) (q : Renderer.Page) (i j : nat) (row row' : UnitRow) :
  tableBody (Objdiff.dom p) !! i = Some (UnitTr row) -> "expandable" ∈ tr_class row ->
  tableBody (Renderer.dom q) !! j = Some (UnitTr row') -> "expandable" ∈ tr_class row' ->
  let p' := Objdiff.on_tableBody_click nts i p in
  let q' := Renderer.on_tableBody_click nts j q in
  ((tr_unitName row ∈ Objdiff.expandedRows (Objdiff.state p')
    <-> tr_unitName row ∉ Objdiff.expandedRows (Objdiff.state p))
   /\ (forall n, n <> tr_unitName row ->
         n ∈ Objdiff.expandedRows (Objdiff.state p')
         <-> n ∈ Objdiff.expandedRows (Objdiff.state p))
   /\ Objdiff.report (Objdiff.state p') = Objdiff.report (Objdiff.state p)
   /\ Objdiff.filterQuery (Objdiff.state p') = Objdiff.filterQuery (Objdiff.state p)
   /\ Objdiff.sortKey (Objdiff.state p') = Objdiff.sortKey (Objdiff.state p)
   /\ Objdiff.sortDirection (Objdiff.state p') = Objdiff.sortDirection (Objdiff.state p))
  /\ ((tr_unitName row' ∈ Renderer.dashboardExpandedRows (Renderer.state q')
       <-> tr_unitName row' ∉ Renderer.dashboardExpandedRows (Renderer.state q))
      /\ (forall n, n <> tr_unitName row' ->
            n ∈ Renderer.dashboardExpandedRows (Renderer.state q')
            <-> n ∈ Renderer.dashboardExpandedRows (Renderer.state q))
      /\ Renderer.dashboardReport (Renderer.state q') = Renderer.dashboardReport (Renderer.state q)
      /\ Renderer.dashboardFilterQuery (Renderer.state q')
         = Renderer.dashboardFilterQuery (Renderer.state q)
      /\ Renderer.dashboardSortKey (Renderer.state q')
         = Renderer.dashboardSortKey (Renderer.state q)
      /\ Renderer.dashboardSortDirection (Renderer.state q')
         = Renderer.dashboardSortDirection (Renderer.state q)).
Proof.
  intros Hi Hc Hj Hc' p' q'. subst p' q'.
  unfold Objdiff.on_tableBody_click, Renderer.on_tableBody_click.
  rewrite Hi, Hj, !bool_decide_eq_true_2 by done.
  unfold Objdiff.handleRowToggle.
  rewrite Objdiff_state_renderTable, Renderer_state_renderDashboardTable. simpl.
  split; (split; [apply toggle_member_self|]);
    (split; [intros n; apply toggle_member_other|done]).
Qed.
End Expansion.

(** ** The document follows the state *)

Lemma sort_indicator_idem key dir th :
  sort_indicator key dir (sort_indicator key dir th) = sort_indicator key dir th.
Proof. reflexivity. Qed.


Section Shown.
Variable nts : float -> string.













End Shown.

(** ** The filter *)

Lemma lower_code_unit_idem c : lower_code_unit (lower_code_unit c) = lower_code_unit c.
Proof. by destruct c as [[] [] [] [] [] [] [] []]. Qed.

Lemma toLowerCase_idem s : toLowerCase (toLowerCase s) = toLowerCase s.
Proof. induction s as [|c s IH]; simpl; [done|]. by rewrite lower_code_unit_idem, IH. Qed.

Lemma append_assoc (s t u : string) : (s ++ t) ++ u = s ++ t ++ u.
Proof. induction s as [|c s IH]; [done|]. by rewrite !append_cons, IH. Qed.

Lemma substring_of_trans s t u : substring_of s t -> substring_of t u -> substring_of s u.
Proof.
  intros (a & b & ->) (a' & b' & ->). exists (a' ++ a), (b ++ b').
  by rewrite !append_assoc.
Qed.

Lemma filter_narrower {A} (f g : A -> bool) (l : list A) :
  (forall x, g x = true -> f x = true) -> sublist (List.filter g l) (List.filter f l).
Proof.
  intros H. induction l as [|x l IH]; simpl; [constructor|].
  destruct (g x) eqn:E.
  - rewrite (H x E). by constructor.
  - destruct (f x); by try constructor.
Qed.

Section Filter.
Variable nts : float -> string.

(** X7.  A query that contains another narrows its result: when the lower
    case of [query] occurs in the lower case of [query'], the units shown
    for [query'] are a sublist (same order, some left out) of the units
    shown for [query]; on both surfaces. *)
Theorem longer_query_narrows (r : Report) (query query' : string)
    ex fq key dir d ex' fq' key' dir' d' :
  substring_of (toLowerCase query) (toLowerCase query') ->
  let p := Objdiff.mkPage (Objdiff.mkState (Some r) ex fq key dir) d in
  let q := Renderer.mkPage (Renderer.mkState (Some r) ex' fq' key' dir') d' in
  sublist (shown_units (tableBody (Objdiff.dom (Objdiff.on_filterInput nts query' p))))
          (shown_units (tableBody (Objdiff.dom (Objdiff.on_filterInput nts query p))))
  /\ sublist (shown_units (tableBody (Renderer.dom (Renderer.on_filterInput nts query' q))))
             (shown_units (tableBody (Renderer.dom (Renderer.on_filterInput nts query q)))).
Proof.
  intros H p q.
  assert (Hf : forall u : Unit.t,
            includes (toLowerCase (Unit.name u)) (toLowerCase query') = true ->
            includes (toLowerCase (Unit.name u)) (toLowerCase query) = true).
  { intros u. rewrite !includes_spec. by apply substring_of_trans. }
  split.
  - change (sublist
      (shown_units (Objdiff.table_rows nts
         (Objdiff.mkState (Some r) ex (toLowerCase query') key dir) r))
      (shown_units (Objdiff.table_rows nts
         (Objdiff.mkState (Some r) ex (toLowerCase query) key dir) r))).
    rewrite !Objdiff_shown_units. apply (fmap_sublist Unit.name). by apply filter_narrower.
  - change (sublist
      (shown_units (Renderer.table_rows nts
         (Renderer.mkState (Some r) ex' (toLowerCase query') key' dir') r))
      (shown_units (Renderer.table_rows nts
         (Renderer.mkState (Some r) ex' (toLowerCase query) key' dir') r))).
    rewrite !Renderer_shown_units. apply (fmap_sublist Unit.name). by apply filter_narrower.
Qed.

Lemma Objdiff_step_lower p e :
  toLowerCase (Objdiff.filterQuery (Objdiff.state p)) = Objdiff.filterQuery (Objdiff.state p) ->
  toLowerCase (Objdiff.filterQuery (Objdiff.state (Objdiff.step nts p e)))
  = Objdiff.filterQuery (Objdiff.state (Objdiff.step nts p e)).
Proof.
  intros Hp. destruct e as [result|value|i|i]; cbn [Objdiff.step].
  - unfold Objdiff.handleRunReport, Objdiff.setLoadingState, Objdiff.setErrorState,
      Objdiff.with_dom. cbn [Objdiff.state].
    destruct (Objdiff.handleRunReport_try nts result _) as [m|p'] eqn:E; [done|].
    unfold Objdiff.handleRunReport_try in E.
    destruct (res_error result) as [e|]; cbn [bind] in E;
      [destruct (truthy_string (Some e)); cbn [bind] in E; [done|]|];
      (destruct (res_report result); [|done]);
      injection E as <-; rewrite Objdiff_state_render;
      unfold Objdiff.sortUnits; done.
  - unfold Objdiff.on_filterInput. rewrite Objdiff_state_renderTable.
    apply toLowerCase_idem.
  - unfold Objdiff.on_tableHeader_click. destruct (_ !! i) as [th|]; [|done].
    by destruct (Objdiff_handleSort_units nts (th_sortKey th) p) as (_ & _ & -> & _).
  - unfold Objdiff.on_tableBody_click.
    destruct (_ !! i) as [[row|]|]; try done.
    destruct (bool_decide _); [|done].
    unfold Objdiff.handleRowToggle. by rewrite Objdiff_state_renderTable.
Qed.

Lemma Renderer_step_lower q e :
  toLowerCase (Renderer.dashboardFilterQuery (Renderer.state q))
  = Renderer.dashboardFilterQuery (Renderer.state q) ->
  toLowerCase (Renderer.dashboardFilterQuery (Renderer.state (Renderer.step nts q e)))
  = Renderer.dashboardFilterQuery (Renderer.state (Renderer.step nts q e)).
Proof.
  intros Hq. destruct e as [result|value|i|i]; cbn [Renderer.step].
  - unfold Renderer.handleDashboardRunReport, Renderer.setDashboardLoadingState,
      Renderer.setDashboardErrorState, Renderer.with_dom. cbn [Renderer.state].
    destruct (Renderer.handleDashboardRunReport_try nts result _) as [m|q'] eqn:E; [done|].
    unfold Renderer.handleDashboardRunReport_try in E.
    destruct (res_error result) as [e|]; cbn [bind] in E;
      [destruct (truthy_string (Some e)); cbn [bind] in E; [done|]|];
      injection E as <-; rewrite Renderer_state_renderDashboard;
      unfold Renderer.sortDashboardUnits; cbn [Renderer.state Renderer.dashboardReport];
      by destruct (res_report result).
  - unfold Renderer.on_filterInput. rewrite Renderer_state_renderDashboardTable.
    apply toLowerCase_idem.
  - unfold Renderer.on_tableHeader_click. destruct (_ !! i) as [th|]; [|done].
    by destruct (Renderer_handleDashboardSort_units nts (th_sortKey th) q) as (_ & _ & -> & _).
  - unfold Renderer.on_tableBody_click.
    destruct (_ !! i) as [[row|]|]; try done.
    destruct (bool_decide _); [|done].
    by rewrite Renderer_state_renderDashboardTable.
Qed.

(** X8.  The filter query that [state] holds is always in lower case
    (equal to its own [toLowerCase]), after any sequence of runs, filter
    inputs, header clicks and row clicks; on both surfaces. *)
Theorem stored_query_is_lower_case
    (d d' : Dom) (events : list Objdiff.Event) (events' : list Renderer.Event) :
  let p := Objdiff.run nts events (Objdiff.loaded nts d) in
  let q := Renderer.run nts events' (Renderer.mkPage Renderer.state0 d') in
  toLowerCase (Objdiff.filterQuery (Objdiff.state p)) = Objdiff.filterQuery (Objdiff.state p)
  /\ toLowerCase (Renderer.dashboardFilterQuery (Renderer.state q))
     = Renderer.dashboardFilterQuery (Renderer.state q).
Proof.
  split.
  - unfold Objdiff.run.
    assert (H0 : toLowerCase (Objdiff.filterQuery (Objdiff.state (Objdiff.loaded nts d)))
                 = Objdiff.filterQuery (Objdiff.state (Objdiff.loaded nts d))) by done.
    revert H0. generalize (Objdiff.loaded nts d).
    induction events as [|e events IH]; intros p Hp; [done|].
    cbn [fold_left]. apply IH. by apply Objdiff_step_lower.
  - unfold Renderer.run.
    assert (H0 : toLowerCase (Renderer.dashboardFilterQuery
                                (Renderer.state (Renderer.mkPage Renderer.state0 d')))
                 = Renderer.dashboardFilterQuery
                     (Renderer.state (Renderer.mkPage Renderer.state0 d'))) by done.
    revert H0. generalize (Renderer.mkPage Renderer.state0 d').
    induction events' as [|e events' IH]; intros q Hq; [done|].
    cbn [fold_left]. apply IH. by apply Renderer_step_lower.
Qed.
End Filter.

(** ** The handler and the views of a run *)

(** X9.  The handler returns a report exactly when every step before it
    went through: the project path is set, the toolchain resolved with an
    [objdiff] path, the environment was built, the tool exited with code 0,
    and [JSON.parse] returned; the report is then the parsed value.  In
    every other case it returns an error. *)
Theorem report_returned_iff (env : HandlerEnv) (v : json) :
  run_report_handler env = HReport v <->
  truthy_string (store_projectPath env) = true
  /\ (exists tool, resolveToolchainPaths env = Returns tool /\ truthy_string tool = true)
  /\ buildEnvFromPaths env = Returns tt
  /\ code (executeAndLog env) = Some 0%Z
  /\ JSON_parse env = Returns v.
Proof.
  unfold run_report_handler. split.
  - destruct (truthy_string (store_projectPath env)); cbn [negb]; [|done].
    destruct (resolveToolchainPaths env) as [m|tool]; cbn [bind]; [done|].
    destruct (truthy_string tool) eqn:Ht; cbn [negb]; [|done].
    destruct (buildEnvFromPaths env) as [m|[]]; cbn [bind]; [done|].
    destruct (decide (code (executeAndLog env) = Some 0%Z)) as [Hc|Hc].
    + rewrite bool_decide_eq_true_2 by done. cbn [negb].
      destruct (JSON_parse env) as [m|v']; cbn [bind]; [done|].
      intros [= ->]. eauto 10.
    + rewrite bool_decide_eq_false_2 by done. done.
  - intros (-> & (tool & -> & Ht) & -> & Hc & ->). cbn [negb bind].
    rewrite Ht. cbn [negb]. by rewrite bool_decide_eq_true_2.
Qed.

Section Runs.
Variable nts : float -> string.

(** X10.  On the dashboard a result with neither an error nor a report
    (the tool printed a falsy JSON value) is taken as a report: the report
    held before is discarded with the expansion and the filter, no error
    is shown, and the placeholder stays visible with the text of the loading
    state, "Executing objdiff-cli...", the summary, the table and the
    controls hidden, the button enabled again. *)
Theorem dashboard_run_without_report (result : RunResult) (q : Renderer.Page) :
  truthy_string (res_error result) = false -> res_report result = None ->
  let q' := Renderer.handleDashboardRunReport nts result q in
  Renderer.dashboardReport (Renderer.state q') = None
  /\ Renderer.dashboardExpandedRows (Renderer.state q') = ∅
  /\ Renderer.dashboardFilterQuery (Renderer.state q') = ""
  /\ reportPlaceholder_hidden (Renderer.dom q') = false
  /\ reportPlaceholder_text (Renderer.dom q') = "Executing objdiff-cli..."
  /\ reportPlaceholder_red (Renderer.dom q') = reportPlaceholder_red (Renderer.dom q)
  /\ summarySection_hidden (Renderer.dom q') = true
  /\ resultsTable_hidden (Renderer.dom q') = true
  /\ controlsSection_hidden (Renderer.dom q') = true
  /\ runReportBtn_disabled (Renderer.dom q') = false.
Proof.
  intros He Hr. unfold Renderer.handleDashboardRunReport, Renderer.handleDashboardRunReport_try.
  rewrite Hr. destruct (res_error result) as [e|]; [rewrite He|]; done.
Qed.

Lemma Renderer_step_red q e :
  reportPlaceholder_red (Renderer.dom q) = true ->
  reportPlaceholder_red (Renderer.dom (Renderer.step nts q e)) = true.
Proof.
  intros Hq. destruct e as [result|value|i|i]; cbn [Renderer.step].
  - unfold Renderer.handleDashboardRunReport, Renderer.handleDashboardRunReport_try.
    destruct (res_error result) as [e|]; cbn [bind];
      [destruct (truthy_string (Some e)); cbn [bind]; [done|]|];
      unfold Renderer.sortDashboardUnits; cbn [Renderer.state Renderer.dashboardReport];
      destruct (res_report result); done.
  - unfold Renderer.on_filterInput, Renderer.renderDashboardTable.
    cbn [Renderer.state Renderer.dashboardReport].
    by destruct (Renderer.dashboardReport (Renderer.state q)).
  - unfold Renderer.on_tableHeader_click. destruct (_ !! i) as [th|]; [|done].
    unfold Renderer.handleDashboardSort, Renderer.sortDashboardUnits.
    destruct q as [[[r|] ex fq k dir] d];
      cbn [Renderer.state Renderer.dashboardReport Renderer.dashboardSortKey];
      destruct (String.eqb k (th_sortKey th)); exact Hq.
  - unfold Renderer.on_tableBody_click.
    destruct (_ !! i) as [[row|]|]; try done.
    destruct (bool_decide _); [|done].
    unfold Renderer.renderDashboardTable. cbn [Renderer.state Renderer.dashboardReport].
    by destruct (Renderer.dashboardReport (Renderer.state q)).
Qed.

(** X11.  The dashboard never removes the class [text-red-500] of the
    placeholder: once a run has failed, the placeholder keeps it through
    every later run, filter input, header click and row click. *)
Theorem dashboard_placeholder_stays_red
    (e : string) (rep : option Report) (q : Renderer.Page) (events : list Renderer.Event) :
  truthy_string (Some e) = true ->
  let failed := Renderer.handleDashboardRunReport nts (mkRunResult (Some e) rep) q in
  reportPlaceholder_red (Renderer.dom (Renderer.run nts events failed)) = true.
Proof.
  intros He failed.
  assert (H0 : reportPlaceholder_red (Renderer.dom failed) = true).
  { unfold failed, Renderer.handleDashboardRunReport, Renderer.handleDashboardRunReport_try.
    cbn [res_error]. by rewrite He. }
  revert H0. generalize failed. unfold Renderer.run.
  induction events as [|ev events IH]; intros q0 H0; [done|].
  cbn [fold_left]. apply IH. by apply Renderer_step_red.
Qed.

(** X12.  On the standalone page the placeholder is red after a run
    exactly when that run failed (an error came back, or no report),
    whatever it was before. *)
Theorem standalone_red_iff_failed (result : RunResult) (p : Objdiff.Page) :
  let p' := Objdiff.handleRunReport nts result p in
  reportPlaceholder_red (Objdiff.dom p') = true
  <-> (truthy_string (res_error result) = true \/ res_report result = None).
Proof.
  unfold Objdiff.handleRunReport, Objdiff.handleRunReport_try.
  destruct (res_error result) as [e|]; cbn [bind].
  - destruct (truthy_string (Some e)) eqn:He; cbn [bind]; [by split; auto|].
    destruct (res_report result) as [r|]; [|by split; auto].
    split; [done|]. by intros [|].
  - destruct (res_report result) as [r|]; [|by split; auto].
    split; [done|]. by intros [|].
Qed.

Lemma Objdiff_render_visible p : visible_one_of_two (Objdiff.dom (Objdiff.render nts p)) /\
  controlsSection_hidden (Objdiff.dom (Objdiff.render nts p))
  = resultsTable_hidden (Objdiff.dom (Objdiff.render nts p)).
Proof. by destruct p as [[[r|] ex fq k dir] d]. Qed.

Lemma Renderer_renderDashboard_visible q :
  visible_one_of_two (Renderer.dom (Renderer.renderDashboard nts q)).
Proof. by destruct q as [[[r|] ex fq k dir] d]. Qed.

Lemma Objdiff_step_visible p e :
  visible_one_of_two (Objdiff.dom p)
  /\ controlsSection_hidden (Objdiff.dom p) = resultsTable_hidden (Objdiff.dom p) ->
  visible_one_of_two (Objdiff.dom (Objdiff.step nts p e))
  /\ controlsSection_hidden (Objdiff.dom (Objdiff.step nts p e))
     = resultsTable_hidden (Objdiff.dom (Objdiff.step nts p e)).
Proof.
  intros Hp. destruct e as [result|value|i|i]; cbn [Objdiff.step].
  - unfold Objdiff.handleRunReport.
    destruct (Objdiff.handleRunReport_try nts result _) as [m|p'] eqn:E; [done|].
    unfold Objdiff.handleRunReport_try in E.
    destruct (res_error result) as [e|]; cbn [bind] in E;
      [destruct (truthy_string (Some e)); cbn [bind] in E; [done|]|];
      (destruct (res_report result); [|done]);
      injection E as <-;
      match goal with |- context [Objdiff.render nts ?x] =>
        pose proof (Objdiff_render_visible x) as H; revert H;
        generalize (Objdiff.render nts x) end;
      by intros p0 [[? ?] ?].
  - unfold Objdiff.on_filterInput, Objdiff.renderTable.
    cbn [Objdiff.state Objdiff.report].
    by destruct (Objdiff.report (Objdiff.state p)).
  - unfold Objdiff.on_tableHeader_click. destruct (_ !! i) as [th|]; [|done].
    unfold Objdiff.handleSort. apply Objdiff_render_visible.
  - unfold Objdiff.on_tableBody_click.
    destruct (_ !! i) as [[row|]|]; try done.
    destruct (bool_decide _); [|done].
    unfold Objdiff.handleRowToggle, Objdiff.renderTable. cbn [Objdiff.state Objdiff.report].
    by destruct (Objdiff.report (Objdiff.state p)).
Qed.

Lemma Renderer_step_visible q e :
  visible_one_of_two (Renderer.dom q) ->
  visible_one_of_two (Renderer.dom (Renderer.step nts q e)).
Proof.
  intros Hq. destruct e as [result|value|i|i]; cbn [Renderer.step].
  - unfold Renderer.handleDashboardRunReport.
    destruct (Renderer.handleDashboardRunReport_try nts result _) as [m|q'] eqn:E; [done|].
    unfold Renderer.handleDashboardRunReport_try in E.
    destruct (res_error result) as [e|]; cbn [bind] in E;
      [destruct (truthy_string (Some e)); cbn [bind] in E; [done|]|];
      injection E as <-;
      match goal with |- context [Renderer.renderDashboard nts ?x] =>
        pose proof (Renderer_renderDashboard_visible x) as H; revert H;
        generalize (Renderer.renderDashboard nts x) end;
      by intros q0 [? ?].
  - unfold Renderer.on_filterInput, Renderer.renderDashboardTable.
    cbn [Renderer.state Renderer.dashboardReport].
    by destruct (Renderer.dashboardReport (Renderer.state q)).
  - unfold Renderer.on_tableHeader_click. destruct (_ !! i) as [th|]; [|done].
    unfold Renderer.handleDashboardSort. apply Renderer_renderDashboard_visible.
  - unfold Renderer.on_tableBody_click.
    destruct (_ !! i) as [[row|]|]; try done.
    destruct (bool_decide _); [|done].
    unfold Renderer.renderDashboardTable. cbn [Renderer.state Renderer.dashboardReport].
    by destruct (Renderer.dashboardReport (Renderer.state q)).
Qed.

(** X13.  Of the placeholder and the results one is visible, never both
    and never neither: on the standalone page after any sequence of events
    from the page as loaded, the summary, the table and the controls are
    hidden together, and the placeholder is hidden exactly when they are
    shown; on the dashboard the same holds of the summary, the table and the
    placeholder from the first run on. *)
Theorem placeholder_or_results
    (d : Dom) (events : list Objdiff.Event)
    (result : RunResult) (q : Renderer.Page) (events' : list Renderer.Event) :
  let p' := Objdiff.run nts events (Objdiff.loaded nts d) in
  let q' := Renderer.run nts events' (Renderer.handleDashboardRunReport nts result q) in
  (visible_one_of_two (Objdiff.dom p')
   /\ controlsSection_hidden (Objdiff.dom p') = resultsTable_hidden (Objdiff.dom p'))
  /\ visible_one_of_two (Renderer.dom q').
Proof.
  split.
  - unfold Objdiff.run.
    pose proof (Objdiff_render_visible (Objdiff.mkPage Objdiff.state0 d)) as H0.
    fold (Objdiff.loaded nts d) in H0.
    revert H0. generalize (Objdiff.loaded nts d).
    induction events as [|e events IH]; intros p Hp; [done|].
    cbn [fold_left]. apply IH. by apply Objdiff_step_visible.
  - unfold Renderer.run.
    assert (H1 : visible_one_of_two
                   (Renderer.dom (Renderer.handleDashboardRunReport nts result q))).
    { unfold Renderer.handleDashboardRunReport.
      destruct (Renderer.handleDashboardRunReport_try nts result _) as [m|q'] eqn:E; [done|].
      unfold Renderer.handleDashboardRunReport_try in E.
      destruct (res_error result) as [e|]; cbn [bind] in E;
        [destruct (truthy_string (Some e)); cbn [bind] in E; [done|]|];
        injection E as <-;
        match goal with |- context [Renderer.renderDashboard nts ?x] =>
          pose proof (Renderer_renderDashboard_visible x) as H; revert H;
          generalize (Renderer.renderDashboard nts x) end;
        by intros q0 [? ?]. }
    revert H1. generalize (Renderer.handleDashboardRunReport nts result q).
    induction events' as [|e events' IH]; intros q0 H0; [done|].
    cbn [fold_left]. apply IH. by apply Renderer_step_visible.
Qed.
End Runs.

(** ** Instances *)

(** X1 at a click on [name] on the pages of the scenario. *)
Lemma sort_permutes_units_witness :
  numbers (Objdiff.current_units scenario_page) = true
  /\ Objdiff.current_units (Objdiff.handleSort no_digits "name" scenario_page)
     ≡ₚ Objdiff.current_units scenario_page.
Proof.
  split; [reflexivity|].
  exact (proj1 (proj1 (sort_permutes_units no_digits "name" scenario_page scenario_dashboard
                         eq_refl eq_refl))).
Defined.

(** X2 on the pages of the scenario: the click turns to descending. *)
Lemma match_percent_click_orders_witness :
  numbers (Objdiff.current_units scenario_page) = true
  /\ let p' := Objdiff.handleSort no_digits "match_percent" scenario_page in
     StronglySorted (in_order match_percent_lt (Objdiff.sortDirection (Objdiff.state p')))
       (Objdiff.current_units p').
Proof.
  split; [reflexivity|].
  exact (proj1 (match_percent_click_orders no_digits scenario_page scenario_dashboard
                  eq_refl eq_refl)).
Defined.


(** X5 at the row of [b.o], the first of the scenario's table. *)
Lemma row_click_toggles_one_name_witness :
  let p' := Objdiff.on_tableBody_click no_digits 0 scenario_page in
  "b.o" ∈ Objdiff.expandedRows (Objdiff.state p')
  <-> "b.o" ∉ Objdiff.expandedRows (Objdiff.state scenario_page).
Proof.
  assert (Hc : "expandable" ∈ tr_class (unit_tr no_digits (Unit.mk "b.o" 0.25
                 [Symbol.mk "fn1" 0.0 100 120; Symbol.mk "fn2" 1.0 40 40]))).
  { change ("expandable" ∈ ["mismatch-row"; "expandable"]). repeat constructor. }
  exact (proj1 (proj1 (row_click_toggles_one_name no_digits scenario_page scenario_dashboard
                         0 0 _ _ eq_refl Hc eq_refl Hc))).
Defined.

(** X7 at the queries "O" and ".o" on the report of the scenario. *)
Lemma longer_query_narrows_witness :
  substring_of (toLowerCase "O") (toLowerCase ".o")
  /\ let p := Objdiff.mkPage (Objdiff.mkState (Some scenario_report) ∅ "" "name" asc)
                blank_document in
     sublist (shown_units (tableBody (Objdiff.dom (Objdiff.on_filterInput no_digits ".o" p))))
             (shown_units (tableBody (Objdiff.dom (Objdiff.on_filterInput no_digits "O" p)))).
Proof.
  assert (H : substring_of (toLowerCase "O") (toLowerCase ".o")) by (by exists ".", "").
  split; [exact H|].
  exact (proj1 (longer_query_narrows no_digits scenario_report "O" ".o"
                  ∅ "" "name" asc blank_document ∅ "" "name" asc blank_document H)).
Defined.

(** X10 at the result that carries nothing, after the scenario's run. *)
Lemma dashboard_run_without_report_witness :
  Renderer.dashboardReport (Renderer.state scenario_dashboard) <> None
  /\ Renderer.dashboardReport
       (Renderer.state
          (Renderer.handleDashboardRunReport no_digits (mkRunResult None None)
             scenario_dashboard))
     = None.
Proof.
  split; [discriminate|].
  exact (proj1 (dashboard_run_without_report no_digits (mkRunResult None None)
                  scenario_dashboard eq_refl eq_refl)).
Defined.

(** X11 at a failed run that a successful one follows. *)
Lemma dashboard_placeholder_stays_red_witness :
  reportPlaceholder_red
    (Renderer.dom
       (Renderer.run no_digits [Renderer.RunReport (report_result scenario_report)]
          (Renderer.handleDashboardRunReport no_digits
             (mkRunResult (Some "objdiff-cli command failed.") None)
             (Renderer.mkPage Renderer.state0 blank_document))))
  = true.
Proof.
  exact (dashboard_placeholder_stays_red no_digits "objdiff-cli command failed." None
           (Renderer.mkPage Renderer.state0 blank_document)
           [Renderer.RunReport (report_result scenario_report)] eq_refl).
Defined.
(** * The operations of the main process on examples *)

Example split_lines_mixed :
  split_lines ("a" ++ String "013" line_feed ++ "b" ++ line_feed ++ line_feed
               ++ "c" ++ String "013" "d" ++ line_feed)
  = ["a"; "b"; ""; "c" ++ String "013" "d"; ""].
Proof. reflexivity. Qed.

Example fn_match_name : fn_match ".fn  foo_1, global" = Some "foo_1".
Proof. reflexivity. Qed.

Example fn_match_no_comma : fn_match ".fn foo" = None.
Proof. reflexivity. Qed.

Example fn_match_no_space : fn_match ".fnfoo," = None.
Proof. reflexivity. Qed.

Example fn_match_space_before_comma : fn_match ".fn foo ," = None.
Proof. reflexivity. Qed.

Example include_matches_both_forms :
  include_matches 0
    ("#include <a.h>" ++ line_feed ++ "#include  " ++ quoted "b.h"
     ++ " #include <>x> #include<c")
  = ["#include <a.h>"; "#include  " ++ quoted "b.h"].
Proof. by vm_compute. Qed.

Example files_analyze_three_functions :
  files_analyze
    (".fn f1, global" ++ line_feed ++ "nop" ++ line_feed ++ ".endfn f1" ++ line_feed
     ++ ".fn f2, local" ++ line_feed ++ ".endfn f2" ++ line_feed
     ++ ".fn f3, local" ++ line_feed ++ "nop")
    "void f1(void) {}"
  = mkAnalysis [mkFunctionSize "f2" 2] ["f1"] "".
Proof. by vm_compute. Qed.

Example replace_const_first : replace_const "unconst  int const x" = "unint const x".
Proof. reflexivity. Qed.

Example trim_both_ends : trim ("  a b " ++ line_feed) = "a b".
Proof. reflexivity. Qed.

Example layout_five_members :
  layout [ mkMemberMatch "u8" "a" None; mkMemberMatch "const  u32" "b" None;
           mkMemberMatch "char" "name" (Some 3%N); mkMemberMatch "struct Foo*" "p" None;
           mkMemberMatch "f64" "d" None ]
  = [ mkMember "a" "u8" (Some 0%N) (Some 1%N);
      mkMember "b" "const  u32" (Some 4%N) (Some 4%N);
      mkMember "name" "char" (Some 8%N) (Some 3%N);
      mkMember "p" "struct Foo*" (Some 12%N) (Some 4%N);
      mkMember "d" "f64" (Some 16%N) (Some 8%N) ].
Proof. by vm_compute. Qed.

Example replaceFunctionInContent_inside :
  replaceFunctionInContent sample_content "int f(void) { }" (Some 0%nat)
  = "int f(void) { } int g;".
Proof. by vm_compute. Qed.

Example deIndent_template :
  deIndent (line_feed ++ "    a" ++ line_feed ++ "      b" ++ line_feed ++ "  "
            ++ line_feed ++ "    c" ++ line_feed ++ "  ")
  = "a" ++ line_feed ++ "  b" ++ line_feed ++ "" ++ line_feed ++ "c".
Proof. by vm_compute. Qed.

Example path_entries_adds_once :
  SetupHandler.path_entries ":" sample_dirname (fun _ => true) "/bin:/usr/bin:/bin"
    (SetupHandler.mkToolchainPaths (Some "/usr/bin/git") (Some "/opt/py/python3") None
       (Some "/opt/py/objdiff-cli.exe"))
  = ["/bin"; "/usr/bin"; "/opt/py"].
Proof. by vm_compute. Qed.

(** * The analysis of an assembly file *)

Lemma span_chars_all f s : all_chars f (span_chars f s).1 = true.
Proof.
  induction s as [|c s IH]; simpl; [done|].
  destruct (f c) eqn:E; [|done]. destruct (span_chars f s). simpl in *. by rewrite E.
Qed.

Lemma span_chars_app f s : s = (span_chars f s).1 ++ (span_chars f s).2.
Proof.
  induction s as [|c s IH]; simpl; [done|].
  destruct (f c); [|done]. destruct (span_chars f s). simpl in *.
  by rewrite append_cons, <- IH.
Qed.

Lemma strip_prefix_app pre s rest : strip_prefix pre s = Some rest -> s = pre ++ rest.
Proof.
  revert s. induction pre as [|a pre IH]; intros s; simpl.
  - by intros [= ->].
  - destruct s as [|b s]; [done|].
    destruct (Ascii.eqb_spec a b) as [->|]; [|done].
    intros H. by rewrite append_cons, <- (IH _ H).
Qed.

(** What a [.fn] line gives is a name, and the line is made of [.fn], white
    space, the name and a comma. *)
Lemma fn_match_spec line name :
  fn_match line = Some name ->
  identifier name = true
  /\ exists space rest, line = ".fn" ++ space ++ name ++ "," ++ rest
       /\ space <> "" /\ all_chars is_white_space space = true.
Proof.
  unfold fn_match. destruct (strip_prefix ".fn" line) as [r|] eqn:E; [|done].
  apply strip_prefix_app in E as ->.
  pose proof (span_chars_all is_white_space r) as Hs.
  pose proof (span_chars_app is_white_space r) as Hr.
  destruct (span_chars is_white_space r) as [space r1]. simpl in Hs, Hr.
  pose proof (span_chars_all is_word_char r1) as Hn.
  pose proof (span_chars_app is_word_char r1) as Hr1.
  destruct (span_chars is_word_char r1) as [n r2]. simpl in Hn, Hr1.
  destruct space as [|a space]; [done|]. destruct n as [|b n]; [done|].
  destruct r2 as [|c rest]; [done|].
  destruct (Ascii.eqb_spec c ",") as [->|Hc].
  - intros [= <-]. split; [done|]. exists (String a space), rest.
    split; [|done]. by rewrite Hr, Hr1.
  - intros H. exfalso. destruct c as [[] [] [] [] [] [] [] []]; done.
Qed.

Lemma fn_match_truthy line name : fn_match line = Some name -> truthy_string (Some name) = true.
Proof. intros (H & _)%fn_match_spec. by destruct name. Qed.

(** A line that closes a function opens none. *)
Lemma endfn_not_fn line : endfn_match line = true -> fn_match line = None.
Proof. unfold endfn_match. by intros [t ->]%prefix_app. Qed.

Section Scan.
Local Open Scope list_scope.
Local Open Scope N_scope.

(** Lines outside of a function leave the loop's variables as they are,
    unless one opens a function. *)
Lemma scan_outside lines fws n :
  forallb (fun line => negb (is_fn_line line)) lines = true ->
  fold_left scan_line lines (mkScan fws None n) = mkScan fws None n.
Proof.
  induction lines as [|line lines IH]; [done|]. simpl.
  intros [Hl Hls]%andb_true_iff.
  replace (scan_line (mkScan fws None n) line) with (mkScan fws None n); [by apply IH|].
  unfold scan_line, is_fn_line in *. by destruct (fn_match line).
Qed.

(** Lines inside of a function are counted. *)
Lemma scan_inside lines fws current n :
  truthy_string (Some current) = true ->
  forallb no_marker lines = true ->
  fold_left scan_line lines (mkScan fws (Some current) n)
  = mkScan fws (Some current) (n + N.of_nat (length lines)).
Proof.
  intros Hc. revert n. induction lines as [|line lines IH]; intros n.
  - intros _. simpl. f_equal. lia.
  - simpl. intros [Hl Hls]%andb_true_iff.
    replace (scan_line (mkScan fws (Some current) n) line)
      with (mkScan fws (Some current) (n + 1)).
    + rewrite IH by done. f_equal. lia.
    + unfold scan_line, no_marker, is_fn_line in *.
      destruct (fn_match line); [done|]. cbn [currentFunction]. rewrite Hc.
      by destruct (endfn_match line).
Qed.

Lemma scan_function f fws n :
  complete_function f = true ->
  fold_left scan_line (asm_lines f) (mkScan fws None n)
  = mkScan (fws ++ [measured f]) None (N.of_nat (length (asm_body f)) + 2).
Proof.
  unfold complete_function, asm_lines, measured.
  intros [[[Hlead Hfn]%andb_true_iff Hbody]%andb_true_iff Hend]%andb_true_iff.
  rewrite fold_left_app, scan_outside by done. cbn [fold_left].
  unfold is_fn_line in Hfn.
  destruct (fn_match (asm_fn f)) as [name|] eqn:E; [|done].
  replace (scan_line (mkScan fws None n) (asm_fn f)) with (mkScan fws (Some name) 1)
    by (unfold scan_line; by rewrite E).
  rewrite fold_left_app, scan_inside by eauto using fn_match_truthy.
  cbn [fold_left default]. unfold scan_line. rewrite (endfn_not_fn _ Hend).
  cbn [currentFunction functionsWithSize lineCount].
  rewrite (fn_match_truthy _ _ E), Hend.
  by replace (1 + N.of_nat (length (asm_body f)) + 1)
    with (N.of_nat (length (asm_body f)) + 2) by lia.
Qed.

Lemma scan_functions fs fws n :
  forallb complete_function fs = true ->
  exists n', fold_left scan_line (concat (map asm_lines fs)) (mkScan fws None n)
             = mkScan (fws ++ map measured fs) None n'.
Proof.
  revert fws n. induction fs as [|f fs IH]; intros fws n.
  - intros _. exists n. simpl. by rewrite app_nil_r.
  - simpl. intros [Hf Hfs]%andb_true_iff.
    rewrite fold_left_app, scan_function by done.
    destruct (IH (fws ++ [measured f]) (N.of_nat (length (asm_body f)) + 2) Hfs) as [n' ->].
    exists n'. by rewrite <- app_assoc.
Qed.

(** X14.  For an assembly file made of complete functions (a [.fn] line
    with a name, lines that neither open nor close a function, an [.endfn]
    line), with lines that open no function before, between and after
    them, the analysis finds every function, in the order of the file, with
    its name and with the number of its lines from [.fn] to [.endfn], both
    included. *)
Theorem complete_functions_measured (fs : list AsmFunction) (tail : list string) :
  forallb complete_function fs = true ->
  forallb (fun line => negb (is_fn_line line)) tail = true ->
  functionsWithSize (scan_lines (concat (map asm_lines fs) ++ tail)) = map measured fs.
Proof.
  intros Hfs Htail. unfold scan_lines. rewrite fold_left_app.
  destruct (scan_functions fs [] 0 Hfs) as [n' ->]. by rewrite scan_outside.
Qed.

(** X15.  A function that is open at the end of the file is dropped: when
    the complete functions are followed by a [.fn] line and lines without an
    [.endfn], what is found is the complete functions only. *)
Theorem unterminated_function_dropped
    (fs : list AsmFunction) (lead : list string) (first : string) (body : list string) :
  forallb complete_function fs = true ->
  forallb (fun line => negb (is_fn_line line)) lead = true ->
  is_fn_line first = true ->
  forallb no_marker body = true ->
  functionsWithSize (scan_lines (concat (map asm_lines fs) ++ lead ++ first :: body))
  = map measured fs.
Proof.
  intros Hfs Hlead Hfirst Hbody. unfold scan_lines. rewrite !fold_left_app.
  destruct (scan_functions fs [] 0 Hfs) as [n' ->]. rewrite scan_outside by done.
  cbn [fold_left]. unfold is_fn_line in Hfirst.
  destruct (fn_match first) as [name|] eqn:E; [|done].
  replace (scan_line (mkScan ([] ++ map measured fs) None n') first)
    with (mkScan (map measured fs) (Some name) 1)
    by (unfold scan_line; by rewrite E).
  by rewrite scan_inside by eauto using fn_match_truthy.
Qed.

Lemma total_size_app l l' : total_size (l ++ l') = total_size l + total_size l'.
Proof. induction l as [|f l IH]; simpl; lia. Qed.

Lemma scan_invariant_step lines st line :
  scan_invariant lines st -> scan_invariant (lines ++ [line]) (scan_line st line).
Proof.
  intros [Hfws Hcur].
  assert (Hfws' : Forall (fun f => 1 <= fn_size f /\ identifier (fn_name f) = true
                   /\ exists l, l ∈ lines ++ [line] /\ fn_match l = Some (fn_name f))
            (functionsWithSize st)).
  { eapply Forall_impl; [exact Hfws|]. intros f (? & ? & l & ? & ?).
    repeat split; try done. exists l. split; [|done]. apply elem_of_app. by left. }
  assert (Hlen : N.of_nat (length (lines ++ [line])) = N.of_nat (length lines) + 1).
  { rewrite length_app. simpl. lia. }
  unfold scan_invariant, scan_line. rewrite Hlen.
  destruct (fn_match line) as [name|] eqn:E.
  - pose proof (fn_match_spec _ _ E) as [Hname _].
    assert (Hline : exists l, l ∈ lines ++ [line] /\ fn_match l = Some name).
    { exists line. split; [|done]. apply elem_of_app. right. by apply list_elem_of_singleton. }
    destruct (currentFunction st) as [current|]; cbn [functionsWithSize currentFunction lineCount].
    + destruct Hcur as (H1 & Hsum & Hid & l & Hl & Hm).
      assert (Ht : truthy_string (Some current) = true) by (by destruct current).
      rewrite Ht. split.
      * apply Forall_app. split; [done|]. constructor; [|done]. simpl.
        repeat split; try done. exists l. split; [|done]. apply elem_of_app. by left.
      * rewrite total_size_app. simpl. repeat split; try done; lia.
    + split; [done|]. repeat split; try done; lia.
  - destruct (currentFunction st) as [current|] eqn:Ec.
    + destruct Hcur as (H1 & Hsum & Hid & l & Hl & Hm).
      assert (Ht : truthy_string (Some current) = true) by (by destruct current).
      rewrite Ht. destruct (endfn_match line); cbn [functionsWithSize currentFunction lineCount].
      * split.
        -- apply Forall_app. split; [done|]. constructor; [|done]. simpl.
           repeat split; try done; [lia|]. exists l. split; [|done]. apply elem_of_app. by left.
        -- rewrite total_size_app. simpl. lia.
      * split; [done|]. repeat split; try done; try lia. exists l. split; [|done]. apply elem_of_app. by left.
    + rewrite Ec. split; [done|]. lia.
Qed.

Lemma scan_invariant_run lines' lines st :
  scan_invariant lines st -> scan_invariant (lines ++ lines') (fold_left scan_line lines' st).
Proof.
  revert lines st. induction lines' as [|line lines' IH]; intros lines st H.
  - by rewrite app_nil_r.
  - simpl. replace (lines ++ line :: lines') with ((lines ++ [line]) ++ lines')
      by (by rewrite <- app_assoc).
    apply IH. by apply scan_invariant_step.
Qed.

(** X16.  Whatever the lines are, no line is counted twice and no name is
    made up: the sizes of the functions found add up to the number of lines
    at most, every size is one or more, and every name is a word of
    [[a-zA-Z0-9_]], one code unit or more, that a [.fn] line of the file
    gives. *)
Theorem scanned_functions_accounted (lines : list string) :
  let found := functionsWithSize (scan_lines lines) in
  (total_size found <= N.of_nat (length lines))%N
  /\ Forall (fun f => (1 <= fn_size f)%N /\ identifier (fn_name f) = true
                      /\ exists line, line ∈ lines /\ fn_match line = Some (fn_name f))
       found.
Proof.
  assert (H0 : scan_invariant [] (mkScan [] None 0)).
  { split; [constructor|]. simpl. lia. }
  apply (scan_invariant_run lines) in H0. simpl in H0.
  fold (scan_lines lines) in H0. destruct H0 as [Hfws Hcur].
  split; [|done]. destruct (currentFunction (scan_lines lines)); lia.
Qed.
End Scan.

Section Partition.
Local Open Scope list_scope.

Lemma filter_partition_perm {A} (f : A -> bool) (l : list A) :
  List.filter (fun x => negb (f x)) l ++ List.filter f l ≡ₚ l.
Proof.
  induction l as [|x l IH]; simpl; [done|].
  destruct (f x); simpl.
  - rewrite <- Permutation_middle. by constructor.
  - by constructor.
Qed.

(** X17.  The analysis splits the functions found in two: the names of
    [vacant] with those of [claimed] are the names found, each once for each
    time it was found; [vacant] holds the functions whose name does not
    occur in the C file, [claimed] the names that occur in it, in the order
    of the file; and [vacant] is in ascending order of size, functions of
    one size in the order of the file. *)
Theorem analysis_partitions (asmContent cContent : string) :
  let found := functionsWithSize (scan_lines (split_lines asmContent)) in
  let a := files_analyze asmContent cContent in
  map fn_name (vacant a) ++ claimed a ≡ₚ map fn_name found
  /\ Forall (fun f => includes cContent (fn_name f) = false) (vacant a)
  /\ Forall (fun name => includes cContent name = true) (claimed a)
  /\ sublist (claimed a) (map fn_name found)
  /\ StronglySorted (fun f g => (fn_size f <= fn_size g)%N) (vacant a)
  /\ (forall n, List.filter (fun f => (fn_size f =? n)%N) (vacant a)
                = List.filter (fun f => (fn_size f =? n)%N)
                    (List.filter (fun f => negb (includes cContent (fn_name f))) found)).
Proof.
  intros found a. unfold a, files_analyze. cbn [vacant claimed]. fold found.
  set (c := fun a b : FunctionSize => (Z.of_N (fn_size a) - Z.of_N (fn_size b))%Z).
  split; [|split; [|split; [|split; [|split]]]].
  - rewrite array_sort_perm, <- map_app. apply Permutation_map, filter_partition_perm.
  - rewrite array_sort_perm. apply Forall_forall. intros f [_ Hf]%list_elem_of_In%filter_In.
    by apply negb_true_iff.
  - apply Forall_forall. intros name (f & <- & [_ Hf]%filter_In)%list_elem_of_In%in_map_iff. done.
  - apply (fmap_sublist fn_name). apply filter_sublist.
  - eapply StronglySorted_impl;
      [|apply (array_sort_ordered c (fun _ => True)); [| |by apply Forall_forall]].
    + intros f g. unfold c. lia.
    + intros f g _ _. unfold c. lia.
    + intros f g h _ _ _. unfold c. lia.
  - intros n. apply array_sort_stable_filter. intros f g Hf Hg.
    apply N.eqb_eq in Hf, Hg. unfold c. lia.
Qed.
End Partition.
(** * The code of a function in a C file *)

Lemma string_take_drop n s : s = string_take n s ++ string_drop n s.
Proof.
  revert s. induction n as [|n IH]; intros [|c s]; try done.
  simpl. by rewrite append_cons, <- IH.
Qed.

Lemma string_take_length n s : String.length (string_take n s) = Nat.min n (String.length s).
Proof. revert s. induction n as [|n IH]; intros [|c s]; simpl; auto. Qed.

Lemma string_take_all n s : (String.length s <= n)%nat -> string_take n s = s.
Proof.
  revert s. induction n as [|n IH]; intros [|c s]; simpl; try done; [lia|].
  intros H. rewrite IH; [done|lia].
Qed.

Lemma string_take_cons n c s : string_take (S n) (String c s) = String c (string_take n s).
Proof. reflexivity. Qed.

Lemma string_take_take a b s : string_take a (string_take b s) = string_take (Nat.min a b) s.
Proof.
  revert b s. induction a as [|a IH]; intros [|b] [|c s]; simpl; try done.
  by rewrite IH.
Qed.

Lemma string_drop_drop a b s : string_drop b (string_drop a s) = string_drop (a + b) s.
Proof.
  revert s. induction a as [|a IH]; intros s; [done|].
  destruct s as [|c s]; simpl; [by destruct b|]. apply IH.
Qed.

Lemma string_take_add a b s :
  string_take (a + b) s = string_take a s ++ string_take b (string_drop a s).
Proof.
  revert s. induction a as [|a IH]; intros s; [done|].
  destruct s as [|c s]; simpl; [by destruct b|]. by rewrite append_cons, <- IH.
Qed.

Lemma string_drop_length n s :
  String.length (string_drop n s) = (String.length s - n)%nat.
Proof. revert s. induction n as [|n IH]; intros [|c s]; simpl; auto. Qed.

Lemma append_length (s t : string) :
  String.length (s ++ t) = (String.length s + String.length t)%nat.
Proof. induction s as [|c s IH]; [done|]. rewrite append_cons. simpl. by rewrite IH. Qed.

Lemma js_substring_between s a b :
  (a <= b)%nat -> (b <= String.length s)%nat ->
  js_substring s a b = string_take (b - a) (string_drop a s).
Proof.
  intros Hab Hb. unfold js_substring.
  rewrite (Nat.min_l a), (Nat.min_l b), Nat.max_r, Nat.min_l by lia. done.
Qed.

(** [find_char] finds the first one. *)
Lemma find_char_spec c s k :
  find_char c s = Some k ->
  (exists rest, string_drop k s = String c rest)
  /\ all_chars (fun a => negb (Ascii.eqb a c)) (string_take k s) = true.
Proof.
  revert k. induction s as [|a s IH]; intros k; simpl; [done|].
  destruct (Ascii.eqb_spec a c) as [->|Hne].
  - intros [= <-]. split; [by exists s|done].
  - destruct (find_char c s) as [k'|]; [|done]. intros [= <-].
    destruct (IH k' eq_refl) as [Hd Ht]. split; [done|]. simpl.
    rewrite Ht. by destruct (Ascii.eqb_spec a c).
Qed.

Section Braces.
Local Open Scope Z_scope.

(** The loop stops at the first place where the braces are balanced. *)
Lemma scan_braces_some s i d e :
  0 < d -> scan_braces s i d = Some e ->
  exists k, e = (i + k)%nat /\ (k < String.length s)%nat
    /\ d + balance (string_take (S k) s) = 0
    /\ forall j, (j <= k)%nat -> 0 < d + balance (string_take j s).
Proof.
  revert i d. induction s as [|c s IH]; intros i d Hd; [done|].
  cbn [scan_braces].
  set (d' := if Ascii.eqb c "{" then d + 1 else if Ascii.eqb c "}" then d - 1 else d).
  assert (Hd' : d' = d + (if Ascii.eqb c "{" then 1 else if Ascii.eqb c "}" then -1 else 0)).
  { unfold d'. destruct (Ascii.eqb c "{"), (Ascii.eqb c "}"); lia. }
  destruct (Z.eqb_spec d' 0) as [H0|H0].
  - intros [= <-]. exists 0%nat. repeat split; [lia|simpl; lia| |].
    + cbn [string_take balance]. lia.
    + intros j Hj. replace j with 0%nat by lia. simpl. lia.
  - intros H. destruct (IH (S i) d') as (k & -> & Hk & Hb & Hj); [|done|].
    { rewrite Hd'. destruct (Ascii.eqb c "{"), (Ascii.eqb c "}"); lia. }
    exists (S k). repeat split; [lia|simpl; lia| |].
    + cbn [string_take balance]. cbn [string_take] in Hb. lia.
    + intros [|j] Hle; [simpl; lia|]. cbn [string_take balance].
      specialize (Hj j). lia.
Qed.

Lemma scan_braces_none s i d :
  0 < d -> scan_braces s i d = None -> forall j, 0 < d + balance (string_take j s).
Proof.
  revert i d. induction s as [|c s IH]; intros i d Hd.
  - intros _ [|j]; simpl; lia.
  - cbn [scan_braces].
    set (d' := if Ascii.eqb c "{" then d + 1 else if Ascii.eqb c "}" then d - 1 else d).
    assert (Hd' : d' = d + (if Ascii.eqb c "{" then 1
                            else if Ascii.eqb c "}" then -1 else 0)).
    { unfold d'. destruct (Ascii.eqb c "{"), (Ascii.eqb c "}"); lia. }
    destruct (Z.eqb_spec d' 0) as [H0|H0]; [done|].
    intros H [|j]; [simpl; lia|]. cbn [string_take balance].
    assert (0 < d') by (rewrite Hd'; destruct (Ascii.eqb c "{"), (Ascii.eqb c "}"); lia).
    specialize (IH (S i) d' H1 H j). lia.
Qed.

(** What [closing_brace] finds: the text from [startIndex] to it is a text
    without a brace and then a span of balanced braces. *)
Lemma closing_brace_some content startIndex endIndex :
  closing_brace content startIndex = Some endIndex ->
  exists lead span,
    (startIndex + String.length lead + String.length span = endIndex + 1)%nat
    /\ (endIndex < String.length content)%nat
    /\ string_take (endIndex + 1 - startIndex) (string_drop startIndex content) = lead ++ span
    /\ no_open_brace lead = true
    /\ brace_span span.
Proof.
  unfold closing_brace, indexOf.
  destruct (find_char "{" (string_drop startIndex content)) as [k|] eqn:Ek; [|done].
  cbn [fmap option_fmap option_map].
  destruct (find_char_spec _ _ _ Ek) as [[rest Hrest] Hlead].
  rewrite <- string_drop_drop, Hrest. cbn [scan_braces].
  change (Ascii.eqb "{" "{") with true. cbv iota. change (0 + 1 =? 0) with false. cbv iota.
  intros (n & -> & Hn & Hbal & Hpos)%scan_braces_some; [|lia].
  assert (Hlen : (startIndex + k + S n < String.length content)%nat).
  { pose proof (f_equal String.length Hrest) as HL.
    rewrite !string_drop_length in HL. simpl in HL. lia. }
  exists (string_take k (string_drop startIndex content)), (String "{" (string_take (S n) rest)).
  assert (Hk : String.length (string_take k (string_drop startIndex content)) = k).
  { rewrite string_take_length, string_drop_length. lia. }
  repeat split.
  - rewrite Hk. cbn [String.length]. rewrite string_take_length. lia.
  - lia.
  - replace (S (startIndex + k) + n + 1 - startIndex)%nat with (k + S (S n))%nat by lia.
    by rewrite string_take_add, Hrest.
  - done.
  - apply prefix_app. by exists (string_take (S n) rest).
  - cbn [balance]. change (Ascii.eqb "{" "{") with true. cbv iota. lia.
  - intros [|j] Hj; [lia|].
    cbn [String.length] in Hj. rewrite string_take_length in Hj.
    rewrite string_take_cons, string_take_take, Nat.min_l by lia.
    cbn [balance]. change (Ascii.eqb "{" "{") with true. cbv iota.
    specialize (Hpos j). lia.
Qed.

Lemma closing_brace_none content startIndex :
  closing_brace content startIndex = None ->
  match find_char "{" (string_drop startIndex content) with
  | None => True
  | Some k =>
      forall j, (0 < j)%nat ->
        0 < balance (string_take j (string_drop (startIndex + k) content))
  end.
Proof.
  unfold closing_brace, indexOf.
  destruct (find_char "{" (string_drop startIndex content)) as [k|] eqn:Ek; [|done].
  cbn [fmap option_fmap option_map].
  destruct (find_char_spec _ _ _ Ek) as [[rest Hrest] Hlead].
  rewrite <- string_drop_drop, Hrest. cbn [scan_braces].
  change (Ascii.eqb "{" "{") with true. cbv iota. change (0 + 1 =? 0) with false. cbv iota.
  intros H [|j] Hj; [lia|]. cbn [string_take balance].
  change (Ascii.eqb "{" "{") with true. cbv iota.
  pose proof (scan_braces_none _ _ 1 ltac:(lia) H j). lia.
Qed.

(** X18.  The code that [files:getFunctionCode] returns for a match at
    [startIndex] is the content from that index on, up to the brace that
    closes the first brace after it: a text without an opening brace, then a
    span that starts with a brace, in which the braces are balanced at the
    end and at no place before it. *)
Theorem extracted_code_balanced
    (content functionName : string) (startIndex : nat) (code : string) :
  getFunctionCode true (Returns content) functionName (Returns (Some startIndex)) = Code code ->
  exists pre lead span post,
    content = pre ++ lead ++ span ++ post
    /\ String.length pre = startIndex
    /\ code = lead ++ span
    /\ no_open_brace lead = true
    /\ brace_span span.
Proof.
  unfold getFunctionCode. cbn [negb bind].
  destruct (closing_brace content startIndex) as [endIndex|] eqn:E; [|done].
  intros [= <-].
  destruct (closing_brace_some _ _ _ E) as (lead & span & Hlen & Hend & Htake & Hlead & Hspan).
  exists (string_take startIndex content), lead, span,
    (string_drop (endIndex + 1 - startIndex) (string_drop startIndex content)).
  split; [|split; [|split; [|done]]].
  - rewrite <- (append_assoc lead span), <- Htake, <- string_take_drop.
    apply string_take_drop.
  - rewrite string_take_length. lia.
  - rewrite js_substring_between by lia. done.
Qed.

(** X19.  [files:getFunctionCode] returns the error "Could not find
    matching closing brace for function ..." only when the braces never
    close: from the first brace after the match on, every text that starts
    there opens more braces than it closes (or there is no brace at
    all). *)
Theorem unclosed_braces_error
    (content functionName : string) (startIndex : nat) (error : string) :
  getFunctionCode true (Returns content) functionName (Returns (Some startIndex))
  = CodeError error ->
  error = "Could not find matching closing brace for function " ++ functionName ++ "."
  /\ match find_char "{" (string_drop startIndex content) with
     | None => True
     | Some k =>
         forall j, (0 < j)%nat ->
           0 < balance (string_take j (string_drop (startIndex + k) content))
     end.
Proof.
  unfold getFunctionCode. cbn [negb bind].
  destruct (closing_brace content startIndex) as [endIndex|] eqn:E; [done|].
  intros [= <-]. split; [done|]. by apply closing_brace_none.
Qed.

(** X20.  For a match at the same index, [replaceFunctionInContent]
    replaces exactly the text that [files:getFunctionCode] returns: the
    content before the match and after the closing brace is kept as it is,
    with the new code between them; and where [files:getFunctionCode]
    reports braces that do not close, the new code is appended to the
    trimmed content, after an empty line. *)
Theorem replace_swaps_extracted_code
    (content functionName newCode : string) (startIndex : nat) :
  match getFunctionCode true (Returns content) functionName (Returns (Some startIndex)) with
  | Code code =>
      exists pre post,
        content = pre ++ code ++ post
        /\ String.length pre = startIndex
        /\ replaceFunctionInContent content newCode (Some startIndex)
           = pre ++ newCode ++ post
  | CodeError _ =>
      replaceFunctionInContent content newCode (Some startIndex)
      = trim content ++ line_feed ++ line_feed ++ newCode ++ line_feed
  end.
Proof.
  unfold getFunctionCode, replaceFunctionInContent. cbn [negb bind].
  destruct (closing_brace content startIndex) as [endIndex|] eqn:E; [|done].
  destruct (closing_brace_some _ _ _ E) as (lead & span & Hlen & Hend & Htake & Hlead & Hspan).
  exists (string_take startIndex content), (string_drop (endIndex + 1) content).
  split; [|split].
  - rewrite js_substring_between by lia.
    replace (endIndex + 1)%nat with (startIndex + (endIndex + 1 - startIndex))%nat at 2 by lia.
    rewrite <- string_drop_drop, <- string_take_drop. apply string_take_drop.
  - rewrite string_take_length. lia.
  - rewrite js_substring_between by lia. by rewrite Nat.sub_0_r.
Qed.
End Braces.
(** * The layout of struct members *)

Section Layout.
Local Open Scope N_scope.
Local Open Scope list_scope.

(** No size of the table is zero. *)
Lemma getSize_positive type n : getSize type = Bytes n -> 0 < n.
Proof.
  unfold getSize. destruct (includes type "*"); [intros [= <-]; lia|].
  unfold typeSizes.
  destruct (List.find _ typeSizes_own) as [kv|] eqn:E.
  - intros [= <-]. apply find_some in E as [Hin _].
    repeat (destruct Hin as [<-|Hin]; [simpl; lia|]). destruct Hin.
  - destruct (existsb _ _); [done|]. intros [= <-]. lia.
Qed.

Lemma getSize_undefined type : getSize type <> Undefined.
Proof.
  unfold getSize. destruct (includes type "*"); [done|]. by destruct (typeSizes _).
Qed.

(** One member line, when the offset stays a number. *)
Lemma layout_member_number current m next :
  (layout_member current m).1 = Some next ->
  exists start alignment size offset,
    current = Some start
    /\ getSize (trim (match_type m)) = Bytes alignment
    /\ (layout_member current m).2
       = mkMember (trim (match_name m)) (trim (match_type m)) (Some offset) (Some size)
    /\ next = offset + size
    /\ offset mod alignment = 0
    /\ start <= offset < start + alignment.
Proof.
  unfold layout_member, getAlignment. cbn [fst snd].
  destruct current as [start|]; [|done].
  destruct (getSize (trim (match_type m))) as [alignment| |] eqn:E; [|done..].
  pose proof (getSize_positive _ _ E) as Hpos. cbn [size_times].
  pose proof (N.mod_lt start alignment ltac:(lia)) as Hlt.
  destruct (N.eqb_spec (start mod alignment) 0) as [H0|H0]; cbn [negb].
  - intros [= <-]. exists start, alignment, (alignment * default 1 (match_array m)), start.
    repeat split; try done; try lia; by destruct (match_array m).
  - intros [= <-].
    exists start, alignment, (alignment * default 1 (match_array m)),
      (start + (alignment - start mod alignment)).
    repeat split; try done; try lia; try by destruct (match_array m).
    replace (start + (alignment - start mod alignment))
      with (alignment * (start / alignment) + 1 * alignment)
      by (pose proof (N.div_mod start alignment ltac:(lia)); lia).
    rewrite N.Div0.mod_add, N.mul_comm. by apply N.Div0.mod_mul.
    generalize dependent (start mod alignment). intros; lia.
Qed.

Lemma end_from_NaN lines : end_from None lines = None.
Proof.
  induction lines as [|m lines IH]; [done|]. simpl.
  replace (layout_member None m).1 with (@None N); [done|].
  unfold layout_member. cbn [fst]. done.
Qed.

(** The members of a struct whose end is a number: each is aligned, starts
    at or after [start], and ends at or before the end of the struct; and
    each ends before the ones after it start. *)
Lemma layout_from_spec start lines stop :
  end_from (Some start) lines = Some stop ->
  start <= stop
  /\ Forall (fun m => member_aligned m
                      /\ exists offset size,
                           member_offset m = Some offset /\ member_size m = Some size
                           /\ start <= offset /\ offset + size <= stop)
       (layout_from (Some start) lines)
  /\ StronglySorted member_before (layout_from (Some start) lines).
Proof.
  revert start. induction lines as [|m lines IH]; intros start.
  - intros [= <-]. simpl. split; [lia|]. split; constructor.
  - cbn [end_from layout_from].
    destruct (layout_member (Some start) m) as [next member] eqn:E.
    cbn [fst]. destruct next as [next|]; [|by rewrite end_from_NaN].
    intros Hend.
    destruct (layout_member_number (Some start) m next) as
      (start' & alignment & size & offset & [= <-] & Ha & Hm & -> & Hmod & Hrange);
      [by rewrite E|].
    rewrite E in Hm. cbn [snd] in Hm. subst member.
    destruct (IH _ Hend) as (Hle & Hall & Hsorted).
    split; [lia|]. split; [|constructor; [done|]].
    + constructor.
      * split; [by exists offset, alignment|]. exists offset, size. repeat split; try done; lia.
      * eapply Forall_impl; [exact Hall|]. intros m' [Hal (o & s & ? & ? & ? & ?)].
        split; [done|]. exists o, s. repeat split; try done; lia.
    + eapply Forall_impl; [exact Hall|]. intros m' [_ (o & s & ? & ? & ? & ?)].
      exists offset, size, o. repeat split; try done.
Qed.

(** X21.  When the end of a struct is a number (below [2^53]), every
    member is aligned, its offset a multiple of the size of its type, and
    the members do not overlap: each ends where the members after it start,
    or before. *)
Theorem members_aligned_in_order (lines : list MemberMatch) :
  exact_number (struct_end lines) ->
  Forall member_aligned (layout lines)
  /\ StronglySorted member_before (layout lines).
Proof.
  intros (stop & Hend & _). destruct (layout_from_spec 0 lines stop Hend) as (_ & Hall & Hs).
  split; [|done]. eapply Forall_impl; [exact Hall|]. by intros m [? _].
Qed.

Lemma layout_from_padding start lines stop i m m' :
  end_from (Some start) lines = Some stop ->
  layout_from (Some start) lines !! i = Some m ->
  layout_from (Some start) lines !! S i = Some m' ->
  padding_below_alignment m m'.
Proof.
  revert start i. induction lines as [|l lines IH]; intros start i; [done|].
  cbn [end_from layout_from].
  destruct (layout_member (Some start) l) as [next member] eqn:E.
  cbn [fst]. destruct next as [next|]; [|by rewrite end_from_NaN].
  intros Hend. destruct i as [|i]; [|by apply IH].
  intros [= <-]. cbn [lookup list_lookup].
  destruct lines as [|l' lines]; [done|]. cbn [end_from layout_from] in *.
  destruct (layout_member (Some next) l') as [next' member'] eqn:E'.
  cbn [fst lookup list_lookup] in *. intros [= <-].
  destruct next' as [next'|]; [|by rewrite end_from_NaN in Hend].
  destruct (layout_member_number (Some start) l next) as
    (? & a & size & offset & _ & _ & Hm & -> & _ & _); [by rewrite E|].
  destruct (layout_member_number (Some (offset + size)) l' next') as
    (? & a' & size' & offset' & [= <-] & Ha' & Hm' & _ & _ & Hrange); [by rewrite E'|].
  rewrite E in Hm. rewrite E' in Hm'. cbn [snd] in *. subst.
  exists offset, size, offset', a'. repeat split; try done; lia.
Qed.

(** X22.  The padding is the least that aligns: the first member is at
    offset 0, and between the end of a member and the start of the next
    there are fewer bytes than the alignment of the next. *)
Theorem padding_is_minimal (lines : list MemberMatch) :
  exact_number (struct_end lines) ->
  (forall m, layout lines !! 0%nat = Some m -> member_offset m = Some 0)
  /\ (forall i m m', layout lines !! i = Some m -> layout lines !! S i = Some m' ->
        padding_below_alignment m m').
Proof.
  intros (stop & Hend & _). split.
  - unfold layout, struct_end in *. destruct lines as [|l lines]; [done|].
    cbn [end_from layout_from] in *.
    destruct (layout_member (Some 0) l) as [next member] eqn:E.
    cbn [fst] in Hend. destruct next as [next|]; [|by rewrite end_from_NaN in Hend].
    destruct (layout_member_number (Some 0) l next) as
      (? & a & size & offset & [= <-] & Ha & Hm & _ & Hmod & Hrange); [by rewrite E|].
    rewrite E in Hm. cbn [snd] in Hm. subst.
    intros m [= <-]. cbn [member_offset]. f_equal.
    pose proof (getSize_positive _ _ Ha). rewrite N.mod_small in Hmod; lia.
  - intros i m m'. by apply layout_from_padding with stop.
Qed.
Lemma layout_from_NaN lines j m :
  layout_from None lines !! j = Some m -> member_offset m = None.
Proof.
  revert j. induction lines as [|l lines IH]; intros j; [done|].
  cbn [layout_from]. unfold layout_member at 1.
  destruct j as [|j]; [by intros [= <-]|]. apply IH.
Qed.

Lemma layout_member_inherited current l :
  inherits_size l = true ->
  (layout_member current l).1 = None
  /\ member_offset (layout_member current l).2 = None.
Proof.
  unfold inherits_size, layout_member, getAlignment. cbn [fst snd member_offset].
  destruct (getSize (trim (match_type l))); try done. by destruct current.
Qed.

Lemma layout_from_inherited current lines k l j m :
  lines !! k = Some l -> inherits_size l = true -> (k <= j)%nat ->
  layout_from current lines !! j = Some m -> member_offset m = None.
Proof.
  revert current k j. induction lines as [|l' lines IH]; intros current k j; [done|].
  cbn [layout_from].
  destruct (layout_member current l') as [next member] eqn:E.
  destruct k as [|k].
  - intros [= ->] Hl _. destruct (layout_member_inherited current l Hl) as [Hn Hm].
    rewrite E in Hn, Hm. cbn [fst snd] in Hn, Hm. subst next.
    destruct j as [|j]; [by intros [= <-]|]. apply layout_from_NaN.
  - intros Hk Hl Hj. destruct j as [|j]; [lia|]. apply (IH next k j Hk Hl). lia.
Qed.

Lemma structs_lookup_number cache offset name m :
  (name, m) ∈ structs_lookup cache offset -> member_offset m <> None.
Proof.
  unfold structs_lookup. rewrite list_elem_of_In, in_flat_map.
  intros ([name' members] & _ & (m' & [= _ <-] & [_ Hm]%filter_In)%in_map_iff).
  by destruct (member_offset m').
Qed.

(** X23.  A member whose type is the name of a property of
    [Object.prototype] ([toString], [constructor], ...) makes the offsets
    NaN: its own and that of every member after it in the struct; and
    [structs:lookup] finds none of these members, at whatever offset. *)
Theorem inherited_type_poisons_offsets
    (lines : list MemberMatch) (k : nat) (l : MemberMatch) :
  lines !! k = Some l -> inherits_size l = true ->
  forall j m, (k <= j)%nat -> layout lines !! j = Some m ->
    member_offset m = None
    /\ forall structsCache offset name, (name, m) ∉ structs_lookup structsCache offset.
Proof.
  intros Hk Hl j m Hj Hm.
  assert (Hnan : member_offset m = None) by (by eapply layout_from_inherited).
  split; [done|]. intros cache offset name Hin.
  by apply structs_lookup_number in Hin.
Qed.
End Layout.
(** * The setup of a project *)

Section PathSet.
Local Open Scope list_scope.

Lemma Set_add_elem x y set : y ∈ Set_add x set <-> y ∈ set \/ y = x.
Proof.
  unfold Set_add. destruct (decide (x ∈ set)) as [Hx|Hx].
  - rewrite bool_decide_eq_true_2 by done. split; [auto|]. by intros [?| ->].
  - rewrite bool_decide_eq_false_2 by done.
    rewrite elem_of_app, list_elem_of_singleton. done.
Qed.

Lemma Set_add_NoDup x set : NoDup set -> NoDup (Set_add x set).
Proof.
  intros H. unfold Set_add. destruct (decide (x ∈ set)) as [Hx|Hx].
  - by rewrite bool_decide_eq_true_2.
  - rewrite bool_decide_eq_false_2 by done. apply NoDup_app. split; [done|].
    split; [|apply NoDup_singleton]. intros y Hy ->%list_elem_of_singleton. done.
Qed.

Lemma Set_add_prefix x set : set `prefix_of` Set_add x set.
Proof.
  unfold Set_add. destruct (bool_decide _); [done|]. by apply prefix_app_r.
Qed.

Lemma Set_add_known x set : x ∈ set -> Set_add x set = set.
Proof. intros H. unfold Set_add. by rewrite bool_decide_eq_true_2. Qed.

Lemma Set_fold_spec l set :
  NoDup set ->
  let set' := fold_left (fun set x => Set_add x set) l set in
  NoDup set' /\ set `prefix_of` set' /\ (forall y, y ∈ set' <-> y ∈ set \/ y ∈ l).
Proof.
  revert set. induction l as [|x l IH]; intros set Hset; simpl.
  - repeat split; try done; [auto|]. intros [?|?%elem_of_nil]; done.
  - destruct (IH (Set_add x set) (Set_add_NoDup x set Hset)) as (Hn & Hp & He).
    split; [done|]. split; [by etrans; [apply Set_add_prefix|]|].
    intros y. rewrite He, Set_add_elem, elem_of_cons. tauto.
Qed.

Lemma Set_fold_NoDup l set :
  NoDup (set ++ l) -> fold_left (fun set x => Set_add x set) l set = set ++ l.
Proof.
  revert set. induction l as [|x l IH]; intros set H; simpl; [by rewrite app_nil_r|].
  assert (Hx : x ∉ set).
  { apply NoDup_app in H as (_ & H & _). intros Hin. apply (H x Hin). by left. }
  unfold Set_add at 2. rewrite bool_decide_eq_false_2 by done.
  rewrite IH; [by rewrite <- app_assoc|]. by rewrite <- app_assoc.
Qed.

Lemma Set_of_NoDup l : NoDup l -> Set_of l = l.
Proof. intros H. unfold Set_of. by rewrite Set_fold_NoDup. Qed.

Lemma join_cons_first sep c l :
  l <> [] -> join sep (cons_first c l) = String c (join sep l).
Proof. destruct l as [|x [|y l]]; done. Qed.

Lemma split_on_nonempty d s : split_on d s <> [].
Proof.
  induction s as [|c s IH]; simpl; [done|].
  destruct (Ascii.eqb c d); [done|]. by destruct (split_on d s).
Qed.

(** Joining what was split gives the string back. *)
Lemma join_split_on d s : join (String d "") (split_on d s) = s.
Proof.
  induction s as [|c s IH]; simpl; [done|].
  destruct (Ascii.eqb_spec c d) as [->|Hne].
  - pose proof (split_on_nonempty d s).
    destruct (split_on d s) as [|x l] eqn:E; [done|]. by rewrite <- IH.
  - rewrite join_cons_first by apply split_on_nonempty. by rewrite IH.
Qed.

Context (dirname : string -> string) (exists_ : string -> bool).

Lemma addToPath_spec tool set :
  NoDup set ->
  let set' := SetupHandler.addToPath dirname exists_ tool set in
  NoDup set' /\ set `prefix_of` set'
  /\ (forall y, y ∈ set' <->
        y ∈ set \/ exists p, tool = Some p /\ p <> "" /\ exists_ p = true /\ y = dirname p).
Proof.
  intros Hset. unfold SetupHandler.addToPath. destruct tool as [p|].
  - destruct (truthy_string (Some p)) eqn:Et; simpl.
    + destruct (exists_ p) eqn:Ee.
      * split; [by apply Set_add_NoDup|]. split; [apply Set_add_prefix|].
        intros y. rewrite Set_add_elem. split.
        -- intros [?| ->]; [by left|]. right. exists p. by destruct p.
        -- intros [?|(p' & [= <-] & _ & _ & ->)]; auto.
      * repeat split; try done; [auto|]. intros [?|(p' & [= <-] & _ & ? & _)]; [done|congruence].
    + repeat split; try done; [auto|].
      intros [?|(p' & [= <-] & ? & _)]; [done|]. by destruct p.
  - repeat split; try done; [auto|]. by intros [?|(p' & ? & _)].
Qed.

(** X24.  The entries of the [PATH] that [buildEnvFromPaths] builds: no
    entry occurs twice; the entries of [process.env.PATH] come first, each
    once, in the order of their first occurrence; and an entry is in the
    result exactly when it is an entry of [process.env.PATH] or the
    directory of a tool whose path is set and exists. *)
Theorem PATH_entries_once_in_order
    (delimiter : ascii) (PATH : string) (paths : SetupHandler.ToolchainPaths) :
  let entries := SetupHandler.path_entries delimiter dirname exists_ PATH paths in
  NoDup entries
  /\ Set_of (split_on delimiter PATH) `prefix_of` entries
  /\ (forall dir, dir ∈ entries <->
        dir ∈ split_on delimiter PATH \/ tool_directory dirname exists_ paths dir).
Proof.
  unfold SetupHandler.path_entries.
  destruct (Set_fold_spec (split_on delimiter PATH) [] (NoDup_nil_2)) as (H0 & _ & E0).
  fold (Set_of (split_on delimiter PATH)) in H0, E0.
  destruct (addToPath_spec (SetupHandler.git paths) _ H0) as (H1 & P1 & E1).
  destruct (addToPath_spec (SetupHandler.python paths) _ H1) as (H2 & P2 & E2).
  destruct (addToPath_spec (SetupHandler.ninja paths) _ H2) as (H3 & P3 & E3).
  destruct (addToPath_spec (SetupHandler.objdiff paths) _ H3) as (H4 & P4 & E4).
  split; [done|]. split; [by repeat (etrans; [eassumption|])|].
  intros dir. rewrite E4, E3, E2, E1, E0. unfold tool_directory, tools.
  split.
  - intros [[[[[[]%elem_of_nil|?]|(p & ? & ?)]|(p & ? & ?)]|(p & ? & ?)]|(p & ? & ?)];
      [by left|right; exists p; split; [|done]..].
    + rewrite <- H. apply list_elem_of_here.
    + rewrite <- H. apply list_elem_of_further, list_elem_of_here.
    + rewrite <- H. do 2 apply list_elem_of_further. apply list_elem_of_here.
    + rewrite <- H. do 3 apply list_elem_of_further. apply list_elem_of_here.
  - intros [?|(p & Hp & ?)]; [tauto|].
    rewrite !elem_of_cons, elem_of_nil in Hp.
    destruct Hp as [Hp|[Hp|[Hp|[Hp|[]]]]]; symmetry in Hp; eauto 10.
Qed.

End PathSet.

(** X25.  When [process.env.PATH] has no entry twice and holds the
    directory of every tool that is set and exists, [buildEnvFromPaths]
    returns it unchanged. *)
Theorem PATH_unchanged_when_complete
    (delimiter : ascii) (dirname : string -> string) (m : SetupHandler.Machine) (PATH : string) (paths : SetupHandler.ToolchainPaths) :
  SetupHandler.env_PATH m = Some PATH ->
  NoDup (split_on delimiter PATH) ->
  (forall dir, tool_directory dirname (SetupHandler.existsSync m) paths dir ->
               dir ∈ split_on delimiter PATH) ->
  SetupHandler.buildEnvFromPaths delimiter dirname m paths = Returns PATH.
Proof.
  intros HP Hnd Hin. unfold SetupHandler.buildEnvFromPaths. rewrite HP. f_equal.
  unfold SetupHandler.path_entries. rewrite Set_of_NoDup by done.
  assert (Hadd : forall tool, tool ∈ tools paths ->
            SetupHandler.addToPath dirname (SetupHandler.existsSync m) tool
              (split_on delimiter PATH) = split_on delimiter PATH).
  { intros [p|] Ht; [|done]. unfold SetupHandler.addToPath.
    destruct (truthy_string (Some p)) eqn:Et; [|done]. simpl.
    destruct (SetupHandler.existsSync m p) eqn:Ee; [|done].
    apply Set_add_known, Hin. exists p. repeat split; try done. by destruct p. }
  rewrite !Hadd; [apply join_split_on|..]; unfold tools;
    rewrite !elem_of_cons; tauto.
Qed.


Section SetupRun.
Local Open Scope list_scope.
Context (delimiter : ascii) (dirname : string -> string)
  (path_join : string -> list string -> string).

Ltac verify_cases m :=
  unfold SetupHandler.verifyAndHealToolchain;
  generalize (SetupHandler.resolveToolchainPaths path_join m); intros resolved;
  destruct (truthy_string (SetupHandler.git resolved)) eqn:Egit; cbn [negb];
  [destruct (truthy_string (SetupHandler.python resolved)) eqn:Epython; cbn [negb];
   [destruct (truthy_string (SetupHandler.ninja resolved)) eqn:Eninja; cbn [negb];
    [|destruct (SetupHandler.exited_zero (SetupHandler.pip_install m)) eqn:Epip; cbn [negb];
      [destruct (truthy_string (SetupHandler.findExecutable_ninja_again m)) eqn:Eagain;
       cbn [negb]|]];
    cbn [SetupHandler.objdiff SetupHandler.git SetupHandler.python SetupHandler.ninja];
    try (destruct (truthy_string (SetupHandler.objdiff resolved)) eqn:Eobjdiff; cbn [negb];
         [|destruct (SetupHandler.store_projectPath m) as [projectPath|] eqn:Eproject;
           [destruct (truthy_string (Some projectPath)) eqn:Etruthy;
            [destruct (SetupHandler.downloadFile m) as [message|[]] eqn:Edownload|]|]])
   |]
  |].

(** X26.  When the verification of the toolchain succeeds, the paths it
    returns name Git, Python and Ninja; [objdiff] is missing from them only
    when its download failed, which does not fail the verification; and no
    command that it ran failed.  ([path.join] returns no empty string.) *)
Theorem verified_toolchain_has_tools
    (m : SetupHandler.Machine) (done_ : list SetupHandler.Action)
    (paths : SetupHandler.ToolchainPaths) :
  (forall dir, path_join dir ["objdiff-cli.exe"] <> "") ->
  SetupHandler.verifyAndHealToolchain path_join m = (done_, SetupHandler.VSuccess paths) ->
  truthy_string (SetupHandler.git paths) = true
  /\ truthy_string (SetupHandler.python paths) = true
  /\ truthy_string (SetupHandler.ninja paths) = true
  /\ (truthy_string (SetupHandler.objdiff paths) = false ->
      exists message, SetupHandler.downloadFile m = Throws message)
  /\ Forall (fun a => failed_command a = false) done_.
Proof.
  intros Hjoin.
  verify_cases m; intros [= <- <-];
    cbn [SetupHandler.objdiff SetupHandler.git SetupHandler.python SetupHandler.ninja];
    (split; [done|]); (split; [done|]); (split; [done|]);
    (split;
     [first [ by rewrite Eobjdiff
            | by eauto
            | intros H; exfalso; apply (Hjoin projectPath);
              by destruct (path_join projectPath ["objdiff-cli.exe"]) ]|]);
    repeat (apply Forall_cons; split); try apply Forall_nil; cbn; by rewrite ?Epip.
Qed.

(** What [verifyAndHealToolchain] does: it saves nothing, and a command
    that fails is the last thing it does, and makes it fail. *)
Lemma verify_trace m done_ v :
  SetupHandler.verifyAndHealToolchain path_join m = (done_, v) ->
  Forall (fun a => is_StoreSet a = false) done_
  /\ match v with
     | SetupHandler.VSuccess _ => Forall (fun a => failed_command a = false) done_
     | SetupHandler.VFailure _ =>
         forall i a, done_ !! i = Some a -> failed_command a = true -> S i = length done_
     end.
Proof.
  verify_cases m; intros [= <- <-];
    (split; [repeat (apply Forall_cons; split); by try apply Forall_nil|]);
    try (repeat (apply Forall_cons; split); try apply Forall_nil; cbn; by rewrite ?Epip);
    try (by intros [|[|i]] a).
Qed.

Lemma lookup_after l (more : list SetupHandler.Action) i a :
  Forall (fun a => failed_command a = false) l ->
  (l ++ more) !! i = Some a -> failed_command a = true ->
  exists j, i = (length l + j)%nat /\ more !! j = Some a.
Proof.
  intros Hl Hi Ha. destruct (lookup_app_Some l more i a) as [[H|[H1 H2]] _]; [done| |].
  - exfalso. rewrite Forall_forall in Hl.
    rewrite (Hl a) in Ha; [done|]. by eapply list_elem_of_lookup_2.
  - exists (i - length l)%nat. split; [lia|done].
Qed.

Lemma lookup_after_StoreSet l (more : list SetupHandler.Action) i a :
  Forall (fun a => is_StoreSet a = false) l ->
  (l ++ more) !! i = Some a -> is_StoreSet a = true ->
  exists j, i = (length l + j)%nat /\ more !! j = Some a.
Proof.
  intros Hl Hi Ha. destruct (lookup_app_Some l more i a) as [[H|[H1 H2]] _]; [done| |].
  - exfalso. rewrite Forall_forall in Hl.
    rewrite (Hl a) in Ha; [done|]. by eapply list_elem_of_lookup_2.
  - exists (i - length l)%nat. split; [lia|done].
Qed.

Ltac setup_cases m paths :=
  unfold SetupHandler.handleProjectSetup;
  destruct (SetupHandler.verifyAndHealToolchain path_join m) as [sofar [error|paths]] eqn:Everify;
  cbn [SetupHandler.run_bind SetupHandler.finish];
  [|destruct (SetupHandler.buildEnvFromPaths delimiter dirname m paths) as [message|env]
      eqn:Eenv; cbn [SetupHandler.run_bind SetupHandler.finish SetupHandler.act];
    [|destruct (SetupHandler.meleePath_exists m) eqn:Emelee;
      cbn [negb SetupHandler.run_bind SetupHandler.finish SetupHandler.act];
      [|destruct (SetupHandler.exited_zero (SetupHandler.git_clone m)) eqn:Eclone;
        cbn [negb SetupHandler.run_bind SetupHandler.finish SetupHandler.act]];
      try (destruct (SetupHandler.origDolDir_exists m) eqn:Eorig;
           cbn [negb SetupHandler.run_bind SetupHandler.finish SetupHandler.act];
           [|destruct (SetupHandler.mkdirSync m) as [message|[]] eqn:Emkdir;
             cbn [negb SetupHandler.run_bind SetupHandler.finish SetupHandler.act]];
           try (destruct (SetupHandler.copyFileSync m) as [message'|[]] eqn:Ecopy;
                cbn [negb SetupHandler.run_bind SetupHandler.finish SetupHandler.act];
                [|destruct (SetupHandler.exited_zero (SetupHandler.configure m)) eqn:Econf;
                  cbn [negb SetupHandler.run_bind SetupHandler.finish SetupHandler.act];
                  [destruct (SetupHandler.exited_zero (SetupHandler.ninja_build m)) eqn:Eninja;
                   cbn [negb SetupHandler.run_bind SetupHandler.finish SetupHandler.act];
                   [destruct (SetupHandler.store_set m) as [message''|[]] eqn:Estore;
                    cbn [negb SetupHandler.run_bind SetupHandler.finish SetupHandler.act]|]
                  |]]))]].

(** X27.  The setup stops at the first command that fails: a command
    that did not exit with 0 is the last thing the setup did, and the
    result is then a failure. *)
Theorem setup_stops_at_failed_command
    (m : SetupHandler.Machine) (projectPath dolPath : string)
    (done_ : list SetupHandler.Action) (result : Outcome SetupHandler.Setup) :
  SetupHandler.handleProjectSetup delimiter dirname path_join m projectPath dolPath
  = (done_, result) ->
  forall i a, done_ !! i = Some a -> failed_command a = true ->
    S i = length done_ /\ exists error, result = Returns (SetupHandler.SetupFailure error).
Proof.
  setup_cases m paths; intros [= <- <-] i a Hi Ha;
    destruct (verify_trace m _ _ Everify) as [_ Hv].
  1: { rewrite app_nil_r in *. split; [by eapply Hv|eauto]. }
  all: destruct (lookup_after _ _ _ _ Hv Hi Ha) as (j & -> & Hj); cbn [app] in Hj |- *;
      repeat (destruct j as [|j];
              [injection Hj as <-; cbn in Ha; rewrite ?Eclone, ?Econf, ?Eninja in Ha;
               try done; try (split; [rewrite length_app; simpl; lia|eauto])|]);
      try done.
Qed.

(** X28.  The toolchain paths are saved last, and only after success:
    when the setup writes them to the store, this is its last action, no
    command before it failed, [configure.py] and [ninja] exited with 0, and
    the paths are those of the verification; and a setup that returns
    success has written them, its environment the one built from them. *)
Theorem setup_saves_paths_last
    (m : SetupHandler.Machine) (projectPath dolPath : string)
    (done_ : list SetupHandler.Action) (result : Outcome SetupHandler.Setup) :
  SetupHandler.handleProjectSetup delimiter dirname path_join m projectPath dolPath
  = (done_, result) ->
  (forall i a, done_ !! i = Some a -> is_StoreSet a = true ->
     S i = length done_
     /\ Forall (fun a => failed_command a = false) done_
     /\ SetupHandler.exited_zero (SetupHandler.configure m) = true
     /\ SetupHandler.exited_zero (SetupHandler.ninja_build m) = true
     /\ exists paths, a = SetupHandler.StoreSet paths
          /\ (SetupHandler.verifyAndHealToolchain path_join m).2 = SetupHandler.VSuccess paths)
  /\ (forall env, result = Returns (SetupHandler.SetupSuccess env) ->
        exists paths before,
          done_ = before ++ [SetupHandler.StoreSet paths]
          /\ SetupHandler.buildEnvFromPaths delimiter dirname m paths = Returns env).
Proof.
  setup_cases m paths; intros [= <- <-];
    destruct (verify_trace m _ _ Everify) as [Hs Hv];
    (split; [intros i a Hi Ha|intros env' [= <-] || (by intros env')]).
  all: try (destruct (lookup_after_StoreSet _ _ _ _ Hs Hi Ha) as (j & -> & Hj);
            cbn [app] in Hj |- *;
            repeat (destruct j as [|j];
                    [injection Hj as <-; cbn in Ha; try done|]); try done).
  all: try (split; [rewrite length_app; simpl; lia|];
            split; [apply Forall_app; split; [done|];
                    repeat (apply Forall_cons; split); try apply Forall_nil; cbn;
                    by rewrite ?Eclone, ?Econf, ?Eninja|];
            repeat split; try done; by exists paths).
  all: match goal with
       | |- exists p b, ?l ++ ?more = _ /\ _ =>
           eexists _, (l ++ removelast more); split; [by rewrite <- app_assoc|done]
       end.
Qed.
End SetupRun.
(** * [deIndent] *)

Lemma span_chars_stop f s :
  (span_chars f s).2 = "" \/ exists c rest, (span_chars f s).2 = String c rest /\ f c = false.
Proof.
  induction s as [|c s IH]; simpl; [by left|].
  destruct (f c) eqn:E; [|right; by exists c, s].
  destruct (span_chars f s). done.
Qed.

Lemma span_chars_all_iff f s : (span_chars f s).2 = "" <-> all_chars f s = true.
Proof.
  induction s as [|c s IH]; simpl; [done|].
  destruct (f c) eqn:E; simpl; [|done]. destruct (span_chars f s). done.
Qed.

Lemma span_chars_length f s :
  string_drop (String.length (span_chars f s).1) s = (span_chars f s).2.
Proof.
  induction s as [|c s IH]; simpl; [done|].
  destruct (f c); [|done]. destruct (span_chars f s). done.
Qed.

Lemma trimEnd_empty s : trimEnd s = "" <-> all_chars is_white_space s = true.
Proof.
  induction s as [|c s IH]; simpl; [done|].
  destruct (trimEnd s) eqn:E.
  - destruct (is_white_space c); simpl; [|done]. split; [intros _; by apply IH|done].
  - split; [done|]. intros [_ H]%andb_true_iff. by apply IH in H.
Qed.

(** A blank line is a line of white space. *)
Lemma is_blank_spec line : is_blank line = true <-> all_chars is_white_space line = true.
Proof.
  unfold is_blank, trim. rewrite String.eqb_eq, trimEnd_empty.
  destruct (span_chars_stop is_white_space line) as [H|(c & rest & H & Hc)].
  - rewrite H. split; [intros _; by apply span_chars_all_iff|done].
  - rewrite H. simpl. rewrite Hc. simpl. split; [done|].
    intros Hall%span_chars_all_iff. congruence.
Qed.

Lemma all_chars_drop f n s : all_chars f s = true -> all_chars f (string_drop n s) = true.
Proof.
  revert s. induction n as [|n IH]; intros [|c s]; simpl; try done.
  intros [_ H]%andb_true_iff. by apply IH.
Qed.

Lemma all_chars_take f n s : all_chars f s = true -> all_chars f (string_take n s) = true.
Proof.
  revert s. induction n as [|n IH]; intros [|c s]; simpl; try done.
  intros [-> H]%andb_true_iff. by apply IH.
Qed.

(** Within the indentation there is white space only. *)
Lemma take_indentation n line :
  (n <= indentation line)%nat ->
  all_chars is_white_space (string_take n line) = true
  /\ String.length (string_take n line) = n.
Proof.
  unfold indentation. intros Hn.
  pose proof (span_chars_all is_white_space line) as Hall.
  pose proof (span_chars_app is_white_space line) as Happ.
  destruct (span_chars is_white_space line) as [pre rest]. simpl in *. subst line.
  assert (Ht : string_take n (pre ++ rest) = string_take n pre).
  { clear Hall. revert n Hn. induction pre as [|c pre IH]; intros [|n] Hn;
      try done; [simpl in Hn; lia|].
    rewrite append_cons, !string_take_cons. simpl in Hn. rewrite IH; [done|lia]. }
  rewrite Ht. split; [by apply all_chars_take|]. rewrite string_take_length. lia.
Qed.

Section MinIndent.
Local Open Scope list_scope.

Lemma minIndent_fold (l : list string) (acc : option nat) :
  let step := fun (min : option nat) line =>
    match min with
    | None => Some (indentation line)
    | Some min => Some (Nat.min min (indentation line))
    end in
  match fold_left step l acc with
  | None => acc = None /\ l = []
  | Some n =>
      (forall line, line ∈ l -> (n <= indentation line)%nat)
      /\ (forall a, acc = Some a -> (n <= a)%nat)
      /\ ((exists line, line ∈ l /\ indentation line = n) \/ acc = Some n)
  end.
Proof.
  intros step. revert acc. induction l as [|x l IH]; intros acc; simpl.
  - destruct acc as [a|]; [|done]. repeat split; [by intros ? ?%elem_of_nil| |by right].
    by intros ? [= <-].
  - specialize (IH (step acc x)). destruct (fold_left step l (step acc x)) as [n|].
    + destruct IH as (Hall & Hacc & Hex). repeat split.
      * intros line [->|?]%elem_of_cons; [|by apply Hall].
        destruct acc as [a|]; simpl in Hacc;
          [specialize (Hacc _ eq_refl); lia|by apply Hacc].
      * intros a ->. simpl in Hacc. specialize (Hacc _ eq_refl). lia.
      * destruct Hex as [(line & Hin & Hn)|Hn].
        -- left. exists line. split; [by apply list_elem_of_further|done].
        -- destruct acc as [a|]; simpl in Hn; injection Hn as Hn.
           ++ destruct (Nat.min_spec a (indentation x)) as [[_ Hm]|[_ Hm]].
              ** right. by rewrite <- Hn, Hm.
              ** left. exists x. split; [apply list_elem_of_here|lia].
           ++ left. exists x. split; [apply list_elem_of_here|done].
    + destruct IH as [H _]. by destruct acc.
Qed.

(** The least indentation is that of a line that is not blank, and no such
    line has less. *)
Lemma minIndent_spec lines :
  match minIndent lines with
  | None => forall line, line ∈ lines -> is_blank line = true
  | Some n =>
      (forall line, line ∈ lines -> is_blank line = false -> (n <= indentation line)%nat)
      /\ exists line, line ∈ lines /\ is_blank line = false /\ indentation line = n
  end.
Proof.
  unfold minIndent.
  pose proof (minIndent_fold (List.filter (fun line => negb (is_blank line)) lines) None) as H.
  simpl in H. destruct (fold_left _ _ None) as [n|].
  - destruct H as (Hall & _ & [(line & Hin & Hn)|?]); [|done]. split.
    + intros line' Hin' Hb. apply Hall. apply list_elem_of_In, filter_In.
      split; [by apply list_elem_of_In|by rewrite Hb].
    + apply list_elem_of_In, filter_In in Hin as [Hin Hb]. exists line.
      split; [by apply list_elem_of_In|]. split; [by apply negb_true_iff|done].
  - destruct H as [_ H]. intros line Hin. destruct (is_blank line) eqn:Hb; [done|].
    assert (Hf : line ∈ List.filter (fun line => negb (is_blank line)) lines).
    { apply list_elem_of_In, filter_In. split; [by apply list_elem_of_In|by rewrite Hb]. }
    rewrite H in Hf. by apply elem_of_nil in Hf.
Qed.

(** X29.  [deIndent] cuts white space only, and the same margin from
    every line: of a line that is not blank it cuts the first [minIndent]
    code units, which are white space, and leaves the rest as it is; a
    blank line stays blank. *)
Theorem deIndent_cuts_white_space_only (str : string) (i : nat) (line : string) :
  without_blank_ends (split_on "010" str) !! i = Some line ->
  exists out,
    deIndent_lines str !! i = Some out
    /\ if is_blank line
       then all_chars is_white_space out = true
       else exists margin,
              minIndent (without_blank_ends (split_on "010" str))
              = Some (String.length margin)
              /\ all_chars is_white_space margin = true
              /\ line = (margin ++ out)%string.
Proof.
  intros Hi. unfold deIndent_lines.
  set (lines := without_blank_ends (split_on "010" str)) in *.
  rewrite list_lookup_fmap, Hi. simpl. eexists; split; [done|].
  pose proof (minIndent_spec lines) as Hmin.
  destruct (is_blank line) eqn:Hb.
  - apply is_blank_spec in Hb. destruct (minIndent lines); simpl; [|done].
    by apply all_chars_drop.
  - destruct (minIndent lines) as [n|].
    + destruct Hmin as [Hle _].
      destruct (take_indentation n line) as [Hws Hlen].
      { apply Hle; [|done]. by eapply list_elem_of_lookup_2. }
      exists (string_take n line). rewrite Hlen. repeat split; [done|].
      apply string_take_drop.
    + rewrite Hmin in Hb; [done|]. by eapply list_elem_of_lookup_2.
Qed.

(** X30.  When some line is not blank, some line of the result starts at
    the margin: it is not blank and has no indentation. *)
Theorem deIndent_reaches_the_margin (str : string) (line : string) :
  line ∈ without_blank_ends (split_on "010" str) -> is_blank line = false ->
  exists i out,
    deIndent_lines str !! i = Some out /\ is_blank out = false /\ indentation out = 0%nat.
Proof.
  intros Hin Hb. unfold deIndent_lines.
  set (lines := without_blank_ends (split_on "010" str)) in *.
  pose proof (minIndent_spec lines) as Hmin.
  destruct (minIndent lines) as [n|]; [|by rewrite Hmin in Hb].
  destruct Hmin as (_ & first & Hfirst & Hnb & <-).
  apply list_elem_of_lookup_1 in Hfirst as [i Hi].
  exists i, (string_drop (indentation first) first).
  rewrite list_lookup_fmap, Hi. split; [done|].
  unfold indentation at 1 3. rewrite span_chars_length.
  destruct (span_chars_stop is_white_space first) as [H|(c & rest & H & Hc)].
  - apply span_chars_all_iff, is_blank_spec in H. congruence.
  - rewrite H. split.
    + destruct (is_blank (String c rest)) eqn:E; [|done].
      apply is_blank_spec in E. simpl in E. by rewrite Hc in E.
    + unfold indentation. simpl. by rewrite Hc.
Qed.
End MinIndent.
(** * Instances of the main process and of the setup *)

(** X14 on two functions of four and two lines. *)
Lemma complete_functions_measured_witness :
  functionsWithSize (scan_lines (concat (map asm_lines sample_asm_functions) ++ [""]))
  = [mkFunctionSize "f1" 4; mkFunctionSize "f2" 2].
Proof. exact (complete_functions_measured sample_asm_functions [""] eq_refl eq_refl). Defined.

(** X15 on the same functions, a third one left open after them. *)
Lemma unterminated_function_dropped_witness :
  functionsWithSize
    (scan_lines (concat (map asm_lines sample_asm_functions)
                 ++ [] ++ ".fn f3, local" :: ["nop"]))
  = [mkFunctionSize "f1" 4; mkFunctionSize "f2" 2].
Proof.
  exact (unterminated_function_dropped sample_asm_functions [] ".fn f3, local" ["nop"]
           eq_refl eq_refl eq_refl eq_refl).
Defined.

(** X18 on a function with a nested block, matched at index 0. *)
Lemma extracted_code_balanced_witness :
  getFunctionCode true (Returns sample_content) "f" (Returns (Some 0%nat))
  = Code "int f(void) { if (x) { y(); } }"
  /\ exists pre lead span post,
       sample_content = pre ++ lead ++ span ++ post
       /\ String.length pre = 0%nat
       /\ "int f(void) { if (x) { y(); } }" = lead ++ span
       /\ no_open_brace lead = true
       /\ brace_span span.
Proof.
  split; [reflexivity|].
  exact (extracted_code_balanced sample_content "f" 0 "int f(void) { if (x) { y(); } }"
           eq_refl).
Defined.

(** X19 on a function whose last brace is missing. *)
Lemma unclosed_braces_error_witness :
  "Could not find matching closing brace for function f."
  = "Could not find matching closing brace for function " ++ "f" ++ ".".
Proof.
  exact (proj1 (unclosed_braces_error "void f() { if (x) { y(); }" "f" 0
                  "Could not find matching closing brace for function f." eq_refl)).
Defined.

(** X21 on a struct of four members, 24 bytes long. *)
Lemma members_aligned_in_order_witness :
  struct_end sample_struct = Some 24%N
  /\ Forall member_aligned (layout sample_struct).
Proof.
  split; [reflexivity|].
  assert (H : exact_number (struct_end sample_struct)).
  { exists 24%N. split; reflexivity. }
  exact (proj1 (members_aligned_in_order sample_struct H)).
Defined.

(** X22 on the same struct. *)
Lemma padding_is_minimal_witness :
  struct_end sample_struct = Some 24%N
  /\ forall m, layout sample_struct !! 0%nat = Some m -> member_offset m = Some 0%N.
Proof.
  split; [reflexivity|].
  assert (H : exact_number (struct_end sample_struct)).
  { exists 24%N. split; reflexivity. }
  exact (proj1 (padding_is_minimal sample_struct H)).
Defined.

(** X23 on a struct whose second member has the type [toString]. *)
Lemma inherited_type_poisons_offsets_witness :
  map member_offset (layout sample_poisoned_struct) = [Some 0%N; None; None]
  /\ member_offset (mkMember "c" "char" None (Some 1%N)) = None.
Proof.
  split; [reflexivity|].
  exact (proj1 (inherited_type_poisons_offsets sample_poisoned_struct 1
                  (mkMemberMatch "toString" "b" None) eq_refl eq_refl
                  2 (mkMember "c" "char" None (Some 1%N)) (le_S 1 1 (le_n 1)) eq_refl)).
Defined.

(** X25 on a [PATH] of three entries that holds the directories of the
    tools. *)
Lemma PATH_unchanged_when_complete_witness :
  SetupHandler.buildEnvFromPaths ":" sample_dirname (sample_machine 0)
    (SetupHandler.store_toolchainPaths (sample_machine 0))
  = Returns "/usr/bin:/bin:/opt/objdiff".
Proof.
  assert (Hnd : NoDup (split_on ":" "/usr/bin:/bin:/opt/objdiff")).
  { apply (bool_decide_unpack _). by vm_compute. }
  assert (Hin : forall dir,
            tool_directory sample_dirname (SetupHandler.existsSync (sample_machine 0))
              (SetupHandler.store_toolchainPaths (sample_machine 0)) dir ->
            dir ∈ split_on ":" "/usr/bin:/bin:/opt/objdiff").
  { intros dir (p & Hp & _ & _ & ->). unfold tools in Hp. cbn in Hp.
    rewrite !elem_of_cons, elem_of_nil in Hp.
    destruct Hp as [[= ->]|[[= ->]|[[= ->]|[[= ->]|[]]]]];
      apply (bool_decide_unpack _); by vm_compute. }
  exact (PATH_unchanged_when_complete ":" sample_dirname (sample_machine 0)
           "/usr/bin:/bin:/opt/objdiff"
           (SetupHandler.store_toolchainPaths (sample_machine 0)) eq_refl Hnd Hin).
Defined.

(** X26 on the machine that has every tool. *)
Lemma verified_toolchain_has_tools_witness :
  SetupHandler.verifyAndHealToolchain sample_path_join (sample_machine 0)
  = ([], SetupHandler.VSuccess (SetupHandler.store_toolchainPaths (sample_machine 0)))
  /\ truthy_string (SetupHandler.ninja (SetupHandler.store_toolchainPaths (sample_machine 0)))
     = true.
Proof.
  split; [reflexivity|].
  assert (Hjoin : forall dir, sample_path_join dir ["objdiff-cli.exe"] <> "").
  { intros dir. unfold sample_path_join. by destruct dir. }
  exact (proj1 (proj2 (proj2 (verified_toolchain_has_tools sample_path_join (sample_machine 0)
                                [] _ Hjoin eq_refl)))).
Defined.

(** X27 on a setup whose [configure.py] exits with 1. *)
Lemma setup_stops_at_failed_command_witness :
  let run := SetupHandler.handleProjectSetup ":" sample_dirname sample_path_join
               (sample_machine 1) "/home/me/project" "/home/me/main.dol" in
  length run.1 = 2%nat
  /\ exists error, run.2 = Returns (SetupHandler.SetupFailure error).
Proof.
  intros run. split; [reflexivity|].
  exact (proj2 (setup_stops_at_failed_command ":" sample_dirname sample_path_join
                  (sample_machine 1) "/home/me/project" "/home/me/main.dol" run.1 run.2
                  eq_refl 1
                  (SetupHandler.Exec ("& " ++ quoted "/usr/bin/python3" ++ " configure.py")
                     (Some 1%Z))
                  eq_refl eq_refl)).
Defined.

(** X28 on a setup in which every step succeeds. *)
Lemma setup_saves_paths_last_witness :
  let run := SetupHandler.handleProjectSetup ":" sample_dirname sample_path_join
               (sample_machine 0) "/home/me/project" "/home/me/main.dol" in
  run.2 = Returns (SetupHandler.SetupSuccess "/usr/bin:/bin:/opt/objdiff")
  /\ exists paths before, run.1 = (before ++ [SetupHandler.StoreSet paths])%list
       /\ SetupHandler.buildEnvFromPaths ":" sample_dirname (sample_machine 0) paths
          = Returns "/usr/bin:/bin:/opt/objdiff".
Proof.
  intros run. split; [reflexivity|].
  exact (proj2 (setup_saves_paths_last ":" sample_dirname sample_path_join
                  (sample_machine 0) "/home/me/project" "/home/me/main.dol" run.1 run.2
                  eq_refl) "/usr/bin:/bin:/opt/objdiff" eq_refl).
Defined.

(** X29 on a template of two lines, indented by four and by six. *)
Lemma deIndent_cuts_white_space_only_witness :
  deIndent sample_template = "a" ++ line_feed ++ "  b"
  /\ exists out,
       deIndent_lines sample_template !! 1%nat = Some out
       /\ exists margin,
            minIndent (without_blank_ends (split_on "010" sample_template))
            = Some (String.length margin)
            /\ all_chars is_white_space margin = true
            /\ "      b" = margin ++ out.
Proof.
  split; [reflexivity|].
  exact (deIndent_cuts_white_space_only sample_template 1 "      b" eq_refl).
Defined.

(** X30 on the same template. *)
Lemma deIndent_reaches_the_margin_witness :
  exists i out,
    deIndent_lines sample_template !! i = Some out
    /\ is_blank out = false /\ indentation out = 0%nat.
Proof.
  assert (Hin : "    a" ∈ without_blank_ends (split_on "010" sample_template)).
  { apply (bool_decide_unpack _). by vm_compute. }
  exact (deIndent_reaches_the_margin sample_template "    a" Hin eq_refl).
Defined.
